(** * Theia debug session engine: a shallow embedding

    Sources embedded here:
    - [packages/debug/src/browser/debug-session.ts]          (class [DebugSession])
    - [packages/debug/src/browser/debug-session-manager.ts]  (class [DebugSessionManager])
    - [packages/debug/src/browser/model/debug-stack-frame.ts] ([toArgs])
    - the plugin host ([PluginHostRPC], [init] of the plugin manager)

    JavaScript objects are shared by reference.  [DebugThread] objects
    therefore live in a store ([heap], a list indexed by address) and the
    thread map and the current-thread field hold addresses; the same is done
    for [DebugSession] objects inside the manager.  A JavaScript [Map] keeps
    its keys in insertion order, which [values().next()] and [keys().next()]
    observe, so maps are association lists ([JsMap]).  Plain records used as
    dictionaries (capabilities, configurations, request arguments) are
    [gmap string Value].

    Requests sent on the connection, notifications fired and console output
    are appended to a trace, oldest first.  An adapter is a function from the
    requests a connection has carried to the response of the latest one.

    Asynchronous methods come in two renderings.  A call that is awaited is
    a function of the state that runs through its [await]s with the
    adapter's answers, nothing else happening meanwhile.  A call that the
    code starts and does not await ([launchOrAttach] in [create], [restart]
    and [onSessionInitialized] in the listeners) runs to its first [await]
    and is recorded as suspended; it continues in a later turn, with
    whatever response arrives and after whatever else has happened.

    Left out: [runInTerminal], [evaluate] and [completions], and the stack
    frames a thread resolves; none of them writes a field modelled here. *)

From Stdlib Require Import ZArith.
From stdpp Require Import gmap strings list fin_maps pretty.

Open Scope Z_scope.
Open Scope string_scope.
Open Scope list_scope.

(** ** JavaScript values and truthiness *)

Inductive Value : Type :=
  | VUndefined
  | VBool (b : bool)
  | VNum (n : Z)
  | VStr (s : string).

#[global] Instance Value_eq_dec : EqDecision Value.
Proof. solve_decision. Defined.

(** [!!x] for an optional number: [undefined] and [0] are falsy. *)
Definition truthy_num (x : option Z) : bool :=
  match x with
  | Some n => negb (Z.eqb n 0)
  | None => false
  end.

(** [!!x] for an optional boolean. *)
Definition truthy_bool (x : option bool) : bool :=
  match x with
  | Some b => b
  | None => false
  end.

(** [!!x] for an optional string: [undefined] and the empty string are falsy. *)
Definition truthy_str (x : option string) : bool :=
  match x with
  | Some s => negb (String.eqb s "")
  | None => false
  end.

(** [Object.assign(target, source)]: every property of [source] is written
    into [target]; properties only [target] has are kept. *)
Definition Object_assign (target source : gmap string Value) : gmap string Value :=
  source ∪ target.

(** ** Insertion-ordered maps (the JavaScript [Map]) *)

Module JsMap.
Section JsMap.
Context {K V : Type} `{EqDecision K}.

Fixpoint get (k : K) (m : list (K * V)) : option V :=
  match m with
  | [] => None
  | (k', v) :: m' => if decide (k = k') then Some v else get k m'
  end.

(** [set] overwrites in place when the key is present and appends at the
    end otherwise, as the JavaScript [Map] does; a map built by [set] has
    no key twice. *)
Fixpoint set (k : K) (v : V) (m : list (K * V)) : list (K * V) :=
  match m with
  | [] => [(k, v)]
  | (k', v') :: m' =>
      if decide (k = k') then (k, v) :: m' else (k', v') :: set k v m'
  end.

Fixpoint delete (k : K) (m : list (K * V)) : list (K * V) :=
  match m with
  | [] => []
  | (k', v') :: m' =>
      if decide (k = k') then delete k m' else (k', v') :: delete k m'
  end.

Definition keys (m : list (K * V)) : list K := m.*1.
Definition values (m : list (K * V)) : list V := m.*2.
Definition size (m : list (K * V)) : nat := length m.

End JsMap.
End JsMap.

(** ** Protocol data ([vscode-debugprotocol]) *)

Module DebugProtocol.

(** [DebugProtocol.Thread] *)
Record Thread : Type := { id : Z; name : string }.

(** The body of a [stopped] event. *)
Record StoppedEventBody : Type := {
  reason : string;
  threadId : option Z;
  preserveFocusHint : option bool;
  allThreadsStopped : option bool
}.

Record Request : Type := { command : string; arguments : gmap string Value }.

(** A response either succeeds, with an optional body, or has its success
    flag cleared and carries an optional message. *)
Inductive Response : Type :=
  | Success (body : option (gmap string Value))
  | Failure (message : option string).

End DebugProtocol.

Abbreviation StoppedDetails := DebugProtocol.StoppedEventBody.

#[global] Instance Thread_eq_dec : EqDecision DebugProtocol.Thread.
Proof. solve_decision. Defined.
#[global] Instance StoppedEventBody_eq_dec : EqDecision DebugProtocol.StoppedEventBody.
Proof. solve_decision. Defined.
#[global] Instance Request_eq_dec : EqDecision DebugProtocol.Request.
Proof. solve_decision. Defined.

Inductive DebugState : Type := Inactive | Running | Stopped.

#[global] Instance DebugState_eq_dec : EqDecision DebugState.
Proof. solve_decision. Defined.

(** ** Threads ([model/debug-thread.ts]) *)

Module DebugThread.

(** Modelled from the spec: [model/debug-thread.ts] is not among the sources.
    A thread has the raw protocol descriptor and optional stopped details;
    its [state] is derived, [Stopped] when stopped details are present and
    [Running] otherwise; [update] stores new data in the same object and
    [clear] drops the stopped details. *)
Record t : Type := {
  raw : DebugProtocol.Thread;
  stoppedDetails : option StoppedDetails
}.

Definition state (th : t) : DebugState :=
  match stoppedDetails th with
  | Some _ => Stopped
  | None => Running
  end.

Definition update (raw' : DebugProtocol.Thread) (sd : option StoppedDetails) (th : t) : t :=
  {| raw := raw'; stoppedDetails := sd |}.

Definition clear (th : t) : t := update (raw th) None th.

(** [new DebugThread(connection)]: no data yet; [updateThreads] fills the
    object in before it can be reached through the thread map. *)
Definition new : t :=
  {| raw := {| DebugProtocol.id := 0; DebugProtocol.name := "" |};
     stoppedDetails := None |}.

(** Modelled from the spec: [pause] and [continue] each send one request
    naming the thread. *)
Definition pause_request (th : t) : DebugProtocol.Request :=
  {| DebugProtocol.command := "pause";
     DebugProtocol.arguments := {[ "threadId" := VNum (DebugProtocol.id (raw th)) ]} |}.

Definition continue_request (th : t) : DebugProtocol.Request :=
  {| DebugProtocol.command := "continue";
     DebugProtocol.arguments := {[ "threadId" := VNum (DebugProtocol.id (raw th)) ]} |}.

End DebugThread.

#[global] Instance DebugThread_eq_dec : EqDecision DebugThread.t.
Proof. solve_decision. Defined.

(** ** Observable effects *)

Inductive Effect : Type :=
  | Sent (r : DebugProtocol.Request)        (* connection.sendRequest *)
  | DidChange                               (* onDidChangeEmitter.fire *)
  | DisposeOnCurrentThread                  (* toDisposeOnCurrentThread.dispose() *)
  | OnDidChanged (a : nat)                  (* thread.onDidChanged(...) subscribed *)
  | ResolveThread (a : nat)                 (* thread.resolve() *)
  | ConfigurationDone                       (* onConfigurationDoneEmitter.fire *)
  | ConsoleError (message : option string)  (* console.error *)
  | Disposed.                               (* toDispose.dispose() *)

Definition request_of (e : Effect) : option DebugProtocol.Request :=
  match e with
  | Sent r => Some r
  | _ => None
  end.

(** The requests of a trace, oldest first. *)
Definition requests (tr : list Effect) : list DebugProtocol.Request :=
  omap request_of tr.

(** An adapter answers a request from the session id and the requests sent
    on that session's connection so far, the one being answered last. *)
Definition Adapter : Type := string → list DebugProtocol.Request → DebugProtocol.Response.

Inductive Error : Type :=
  | ErrorObject (message : string)          (* new Error(message) *)
  | FailedResponse (message : option string).

Inductive Outcome (A : Type) : Type :=
  | Resolved (a : A)
  | Rejected (e : Error).
Arguments Resolved {A} a.
Arguments Rejected {A} e.

(** ** The session ([debug-session.ts]) *)

(** [INITIALIZE_ARGUMENTS] *)
Definition INITIALIZE_ARGUMENTS : gmap string Value :=
  list_to_map [
    ("clientID", VStr "Theia");
    ("clientName", VStr "Theia IDE");
    ("locale", VStr "en-US");
    ("linesStartAt1", VBool true);
    ("columnsStartAt1", VBool true);
    ("pathFormat", VStr "path");
    ("supportsVariableType", VBool false);
    ("supportsVariablePaging", VBool false);
    ("supportsRunInTerminalRequest", VBool true)
  ].

(** The fields of [DebugSession] that the operations below read or write.
    [heap] holds the [DebugThread] objects; [_threads] and [_currentThread]
    hold addresses into it.  [resolveThreads_timer] is the pending call of
    the debounced [resolveThreads] with its argument; [awaiting] lists the
    [threads] requests whose response has not arrived, each with the stopped
    details its continuation captured. *)
Record DebugSession : Type := {
  sessionId : string;
  configuration : gmap string Value;
  capabilities : gmap string Value;
  heap : list DebugThread.t;
  _threads : list (Z * nat);
  _currentThread : option nat;
  resolveThreads_timer : option (option StoppedDetails);
  awaiting : list (option StoppedDetails);
  trace : list Effect
}.

(** The constructor together with the field initialisers. *)
Definition new_DebugSession (sessionId : string) (configuration : gmap string Value) : DebugSession :=
  {| sessionId := sessionId;
     configuration := configuration;
     capabilities := ∅;
     heap := [];
     _threads := [];
     _currentThread := None;
     resolveThreads_timer := None;
     awaiting := [];
     trace := [] |}.

Definition with_configuration (c : gmap string Value) (s : DebugSession) : DebugSession :=
  {| sessionId := sessionId s; configuration := c; capabilities := capabilities s;
     heap := heap s; _threads := _threads s; _currentThread := _currentThread s;
     resolveThreads_timer := resolveThreads_timer s; awaiting := awaiting s;
     trace := trace s |}.

Definition with_capabilities (c : gmap string Value) (s : DebugSession) : DebugSession :=
  {| sessionId := sessionId s; configuration := configuration s; capabilities := c;
     heap := heap s; _threads := _threads s; _currentThread := _currentThread s;
     resolveThreads_timer := resolveThreads_timer s; awaiting := awaiting s;
     trace := trace s |}.

Definition with_heap (h : list DebugThread.t) (s : DebugSession) : DebugSession :=
  {| sessionId := sessionId s; configuration := configuration s;
     capabilities := capabilities s;
     heap := h; _threads := _threads s; _currentThread := _currentThread s;
     resolveThreads_timer := resolveThreads_timer s; awaiting := awaiting s;
     trace := trace s |}.

Definition with_threads (m : list (Z * nat)) (s : DebugSession) : DebugSession :=
  {| sessionId := sessionId s; configuration := configuration s;
     capabilities := capabilities s;
     heap := heap s; _threads := m; _currentThread := _currentThread s;
     resolveThreads_timer := resolveThreads_timer s; awaiting := awaiting s;
     trace := trace s |}.

Definition with_currentThread (c : option nat) (s : DebugSession) : DebugSession :=
  {| sessionId := sessionId s; configuration := configuration s;
     capabilities := capabilities s;
     heap := heap s; _threads := _threads s; _currentThread := c;
     resolveThreads_timer := resolveThreads_timer s; awaiting := awaiting s;
     trace := trace s |}.

Definition with_timer (p : option (option StoppedDetails)) (s : DebugSession) : DebugSession :=
  {| sessionId := sessionId s; configuration := configuration s;
     capabilities := capabilities s;
     heap := heap s; _threads := _threads s; _currentThread := _currentThread s;
     resolveThreads_timer := p; awaiting := awaiting s;
     trace := trace s |}.

Definition with_awaiting (w : list (option StoppedDetails)) (s : DebugSession) : DebugSession :=
  {| sessionId := sessionId s; configuration := configuration s;
     capabilities := capabilities s;
     heap := heap s; _threads := _threads s; _currentThread := _currentThread s;
     resolveThreads_timer := resolveThreads_timer s; awaiting := w;
     trace := trace s |}.

Definition with_trace (tr : list Effect) (s : DebugSession) : DebugSession :=
  {| sessionId := sessionId s; configuration := configuration s;
     capabilities := capabilities s;
     heap := heap s; _threads := _threads s; _currentThread := _currentThread s;
     resolveThreads_timer := resolveThreads_timer s; awaiting := awaiting s;
     trace := tr |}.

Definition emit (e : Effect) (s : DebugSession) : DebugSession :=
  with_trace (trace s ++ [e]) s.

(** [run(command, args)] hands the request to the connection; the response
    is delivered later. *)
Definition run (command : string) (args : gmap string Value) (s : DebugSession) : DebugSession :=
  emit (Sent {| DebugProtocol.command := command; DebugProtocol.arguments := args |}) s.

(** The requests sent on this session's connection so far. *)
Definition sent (s : DebugSession) : list DebugProtocol.Request := requests (trace s).

(** [get threads()] *)
Definition threads (s : DebugSession) : list nat := JsMap.values (_threads s).

(** [getThreads(filter)]; an address outside the store denotes no object. *)
Definition getThreads (f : DebugThread.t → bool) (s : DebugSession) : list nat :=
  filter (λ a, Is_true (match heap s !! a with Some th => f th | None => false end))
    (threads s).

Definition getThreadsForState (st : DebugState) (s : DebugSession) : list nat :=
  getThreads (λ th, bool_decide (DebugThread.state th = st)) s.

(** [get currentThread()], dereferenced. *)
Definition currentThread (s : DebugSession) : option DebugThread.t :=
  a ← _currentThread s; heap s !! a.

(** [get state()] *)
Definition state (s : DebugSession) : DebugState :=
  match currentThread s with
  | Some th => DebugThread.state th
  | None => Inactive
  end.

Definition doSetCurrentThread (thread : option nat) (s : DebugSession) : DebugSession :=
  let s := emit DisposeOnCurrentThread s in
  let s := with_currentThread thread s in
  let s := emit DidChange s in
  match thread with
  | Some a => emit (ResolveThread a) (emit (OnDidChanged a) s)
  | None => s
  end.

(** [thread && thread.state === DebugState.Stopped ? thread : undefined] *)
Definition stopped_or_undefined (thread : option nat) (s : DebugSession) : option nat :=
  match thread with
  | Some a =>
      match heap s !! a with
      | Some th => if decide (DebugThread.state th = Stopped) then Some a else None
      | None => None
      end
  | None => None
  end.

Definition setCurrentThread (thread : option nat) (s : DebugSession) : DebugSession :=
  doSetCurrentThread (stopped_or_undefined thread s) s.

(** The thread id [updateCurrentThread] looks up: the current thread's id,
    replaced by the stopped details' thread id when the focus hint is not
    set and that id is truthy. *)
Definition focusThreadId (stoppedDetails : option StoppedDetails) (s : DebugSession) : option Z :=
  let threadId := (λ th, DebugProtocol.id (DebugThread.raw th)) <$> currentThread s in
  match stoppedDetails with
  | Some d =>
      if negb (truthy_bool (DebugProtocol.preserveFocusHint d))
         && truthy_num (DebugProtocol.threadId d)
      then DebugProtocol.threadId d
      else threadId
  | None => threadId
  end.

(** [typeof threadId === 'number' && this._threads.get(threadId)
     || this._threads.values().next().value] *)
Definition focusCandidate (threadId : option Z) (s : DebugSession) : option nat :=
  match threadId ≫= (λ i, JsMap.get i (_threads s)) with
  | Some a => Some a
  | None => head (threads s)
  end.

Definition updateCurrentThread (stoppedDetails : option StoppedDetails) (s : DebugSession) : DebugSession :=
  setCurrentThread (focusCandidate (focusThreadId stoppedDetails s) s) s.

Definition clearThreads (s : DebugSession) : DebugSession :=
  let h := foldl (λ h a, alter DebugThread.clear a h) (heap s) (threads s) in
  updateCurrentThread None (with_heap h s).

Definition clearThread (threadId : Z) (s : DebugSession) : DebugSession :=
  let h := match JsMap.get threadId (_threads s) with
           | Some a => alter DebugThread.clear a (heap s)
           | None => heap s
           end in
  updateCurrentThread None (with_heap h s).

(** One iteration of the loop of [updateThreads], on the store and the map
    under construction. *)
Definition updateThreads_step (existing : list (Z * nat)) (stoppedDetails : option StoppedDetails)
    (acc : list DebugThread.t * list (Z * nat)) (raw : DebugProtocol.Thread)
    : list DebugThread.t * list (Z * nat) :=
  let '(h, m) := acc in
  let id := DebugProtocol.id raw in
  let '(thread, h) :=
    match JsMap.get id existing with
    | Some a => (a, h)
    | None => (length h, h ++ [DebugThread.new])
    end in
  let m := JsMap.set id thread m in
  let sd := match stoppedDetails with
            | Some d => if decide (DebugProtocol.threadId d = Some id) then Some d else None
            | None => None
            end in
  (alter (DebugThread.update raw sd) thread h, m).

Definition updateThreads (threads : list DebugProtocol.Thread) (stoppedDetails : option StoppedDetails)
    (s : DebugSession) : DebugSession :=
  let existing := _threads s in
  let '(h, m) := foldl (updateThreads_step existing stoppedDetails) (heap s, []) threads in
  updateCurrentThread stoppedDetails (with_threads m (with_heap h s)).

(** Modelled from the spec: the [p-debounce] package is not among the
    sources.  A call of the debounced [resolveThreads] cancels the pending
    timer and starts a new one holding its own argument. *)
Definition resolveThreads (stoppedDetails : option StoppedDetails) (s : DebugSession) : DebugSession :=
  with_timer (Some stoppedDetails) s.

(** The timer elapses: the wrapped function runs with the argument of the
    latest call and sends the [threads] request. *)
Definition resolveThreads_elapsed (s : DebugSession) : DebugSession :=
  match resolveThreads_timer s with
  | Some stoppedDetails =>
      let s := with_timer None s in
      let s := run "threads" ∅ s in
      with_awaiting (awaiting s ++ [stoppedDetails]) s
  | None => s
  end.

(** The response of the [i]-th outstanding [threads] request arrives; a
    failed response ([None]) rejects the call and nothing is updated. *)
Definition resolveThreads_response (i : nat) (body : option (list DebugProtocol.Thread))
    (s : DebugSession) : DebugSession :=
  match awaiting s !! i with
  | Some stoppedDetails =>
      let s := with_awaiting (delete i (awaiting s)) s in
      match body with
      | Some ths => updateThreads ths stoppedDetails s
      | None => s
      end
  | None => s
  end.

Definition updateCapabilities (caps : gmap string Value) (s : DebugSession) : DebugSession :=
  with_capabilities (Object_assign (capabilities s) caps) s.

(** [connection.sendRequest(command, args)], awaited: a response whose
    success flag is cleared rejects with that response. *)
Definition sendRequest (adapter : Adapter) (command : string) (args : gmap string Value)
    (s : DebugSession) : Outcome (option (gmap string Value)) * DebugSession :=
  let s := run command args s in
  match adapter (sessionId s) (sent s) with
  | DebugProtocol.Success body => (Resolved body, s)
  | DebugProtocol.Failure message => (Rejected (FailedResponse message), s)
  end.

(** [initialize(args)]: [this.capabilities = response.body || {}]. *)
Definition initialize (adapter : Adapter) (args : gmap string Value) (s : DebugSession)
    : Outcome unit * DebugSession :=
  match sendRequest adapter "initialize" args s with
  | (Resolved body, s) => (Resolved (), with_capabilities (default ∅ body) s)
  | (Rejected e, s) => (Rejected e, s)
  end.

(** [Promise.all]: rejects with the first rejection, resolves otherwise. *)
Fixpoint Promise_all (ps : list (Outcome unit)) : Outcome unit :=
  match ps with
  | [] => Resolved ()
  | Resolved _ :: ps' => Promise_all ps'
  | Rejected e :: _ => Rejected e
  end.

(** The adapter's answers to requests sent one after the other, given the
    requests [hist] sent before them. *)
Fixpoint answers (adapter : Adapter) (sid : string) (hist rs : list DebugProtocol.Request)
    : list DebugProtocol.Response :=
  match rs with
  | [] => []
  | r :: rs' => adapter sid (hist ++ [r]) :: answers adapter sid (hist ++ [r]) rs'
  end.

(** [try { await request } catch (e) { console.error(e) }] *)
Definition logged (response : DebugProtocol.Response) : Outcome unit * list Effect :=
  match response with
  | DebugProtocol.Success _ => (Resolved (), [])
  | DebugProtocol.Failure message => (Resolved (), [ConsoleError message])
  end.

(** The common shape of [pauseAll] and [continueAll]: every selected thread
    sends its request while the loop runs, then all are awaited. *)
Definition requestAll (adapter : Adapter) (st : DebugState)
    (request : DebugThread.t → DebugProtocol.Request) (s : DebugSession)
    : Outcome unit * DebugSession :=
  let rs := omap (λ a, request <$> heap s !! a) (getThreadsForState st s) in
  let s' := foldl (λ s r, emit (Sent r) s) s rs in
  let promises := logged <$> answers adapter (sessionId s) (sent s) rs in
  (Promise_all (fst <$> promises),
   with_trace (trace s' ++ concat (snd <$> promises)) s').

Definition pauseAll (adapter : Adapter) (s : DebugSession) : Outcome unit * DebugSession :=
  requestAll adapter Running DebugThread.pause_request s.

Definition continueAll (adapter : Adapter) (s : DebugSession) : Outcome unit * DebugSession :=
  requestAll adapter Stopped DebugThread.continue_request s.

(** [disconnect(args)] *)
Definition disconnect (adapter : Adapter) (args : gmap string Value) (s : DebugSession)
    : Outcome unit * DebugSession :=
  match sendRequest adapter "disconnect" args s with
  | (Resolved _, s) => (Resolved (), s)
  | (Rejected e, s) => (Rejected e, s)
  end.

(** [configurationDone()]: on success the emitter fires, and the listener
    registered in the constructor calls [resolveThreads(undefined)]. *)
Definition configurationDone (adapter : Adapter) (s : DebugSession)
    : Outcome unit * DebugSession :=
  match sendRequest adapter "configurationDone" ∅ s with
  | (Resolved _, s) => (Resolved (), resolveThreads None (emit ConfigurationDone s))
  | (Rejected e, s) => (Rejected e, s)
  end.

(** [dispose()] *)
Definition dispose (s : DebugSession) : DebugSession := emit Disposed s.

(** *** Events *)

(** Adapter events with a listener registered in the constructor. *)
Inductive Event : Type :=
  | continued (allThreadsContinued : option bool) (threadId : Z)
  | stopped (body : StoppedDetails)
  | thread (reason : string) (threadId : Z)
  | capabilities_event (capabilities : gmap string Value).

Definition on (e : Event) (s : DebugSession) : DebugSession :=
  match e with
  | continued allThreadsContinued threadId =>
      if decide (allThreadsContinued ≠ Some false)
      then clearThreads s
      else clearThread threadId s
  | stopped body => resolveThreads (Some body) s
  | thread reason threadId =>
      if decide (reason = "started") then resolveThreads None s
      else if decide (reason = "exited") then clearThread threadId s
      else s
  | capabilities_event caps => updateCapabilities caps s
  end.

(** What can happen to a session between two suspension points. *)
Inductive Step : Type :=
  | Incoming (e : Event)
  | ConfigurationDoneFired
  | DebounceElapsed
  | ThreadsResponse (i : nat) (body : option (list DebugProtocol.Thread)).

Definition step (s : DebugSession) (x : Step) : DebugSession :=
  match x with
  | Incoming e => on e s
  | ConfigurationDoneFired => resolveThreads None s
  | DebounceElapsed => resolveThreads_elapsed s
  | ThreadsResponse i body => resolveThreads_response i body s
  end.

Definition steps (xs : list Step) (s : DebugSession) : DebugSession := foldl step s xs.

(** ** The session manager ([debug-session-manager.ts]) *)

(** [!!x] for a value. *)
Definition truthy (x : option Value) : bool :=
  match x with
  | Some (VBool b) => b
  | Some (VNum n) => negb (Z.eqb n 0)
  | Some (VStr s) => negb (String.eqb s "")
  | Some VUndefined | None => false
  end.

(** The text a template literal gives for a value. *)
Definition to_string (x : option Value) : string :=
  match x with
  | Some (VStr s) => s
  | Some (VNum n) => pretty n
  | Some (VBool true) => "true"
  | Some (VBool false) => "false"
  | Some VUndefined | None => "undefined"
  end.

Module DebugSessionManager.

(** Notifications fired by the manager's emitters and calls made to its
    collaborators; sessions are named by their address in [objects]. *)
Inductive Notice : Type :=
  | DidPreCreateDebugSession (sessionId : string)
  | DidCreateDebugSession (a : nat)
  | DidChangeActiveDebugSession (old new : option nat)
  | DidDestroyDebugSession (a : nat)
  | DebugServiceStop (sessionId : string)
  | ApplySessionBreakpoints (a : nat)
  | ShowMessage (text : string).

(** A call of an asynchronous method that was started and not awaited, at
    the [await] where it is suspended; [a] is the address of its session. *)
Inductive Suspended : Type :=
  | InInitialize (a : nat) (command : string)   (* session.initialize: await sendRequest *)
  | Initialized (a : nat) (command : string)    (* attach, launch: await session.initialize *)
  | InStart (a : nat) (command : string)        (* attach, launch: await session.run *)
  | InRestart (a : nat)                         (* restart: await session.disconnect *)
  | InApplySessionBreakpoints (a : nat)         (* onSessionInitialized: await the applier *)
  | InConfigurationDone (a : nat).              (* session.configurationDone: await this.run *)

(** [objects] holds the [DebugSession] objects; the values of [sessions]
    are addresses into it.  [suspended] lists the calls in flight that
    nothing awaits, oldest first. *)
Record t : Type := {
  activeDebugSessionId : option string;
  sessions : list (string * nat);
  objects : list DebugSession;
  notices : list Notice;
  suspended : list Suspended
}.

Definition new : t :=
  {| activeDebugSessionId := None; sessions := []; objects := []; notices := [];
     suspended := [] |}.

Definition with_active (x : option string) (m : t) : t :=
  {| activeDebugSessionId := x; sessions := sessions m; objects := objects m;
     notices := notices m; suspended := suspended m |}.

Definition with_sessions (x : list (string * nat)) (m : t) : t :=
  {| activeDebugSessionId := activeDebugSessionId m; sessions := x;
     objects := objects m; notices := notices m; suspended := suspended m |}.

Definition with_objects (x : list DebugSession) (m : t) : t :=
  {| activeDebugSessionId := activeDebugSessionId m; sessions := sessions m;
     objects := x; notices := notices m; suspended := suspended m |}.

Definition with_suspended (x : list Suspended) (m : t) : t :=
  {| activeDebugSessionId := activeDebugSessionId m; sessions := sessions m;
     objects := objects m; notices := notices m; suspended := x |}.

Definition fire (n : Notice) (m : t) : t :=
  {| activeDebugSessionId := activeDebugSessionId m; sessions := sessions m;
     objects := objects m; notices := notices m ++ [n]; suspended := suspended m |}.

(** An asynchronous method that is awaited, run while nothing else happens:
    the continuation after every [await] runs as soon as the adapter has
    answered.  Calls that are started and not awaited are not run this way:
    they are suspended at their first [await] ([suspend]) and continue when
    their response arrives ([resume]), with anything in between. *)
Definition M (A : Type) : Type := t → Outcome A * t.

Definition ret {A} (a : A) : M A := λ m, (Resolved a, m).

Definition throw {A} (e : Error) : M A := λ m, (Rejected e, m).

Definition bind {A B} (c : M A) (k : A → M B) : M B :=
  λ m, match c m with
       | (Resolved a, m') => k a m'
       | (Rejected e, m') => (Rejected e, m')
       end.

(** [try { c } catch (cause) { h cause }] *)
Definition try_catch {A} (c : M A) (h : Error → M A) : M A :=
  λ m, match c m with
       | (Resolved a, m') => (Resolved a, m')
       | (Rejected e, m') => h e m'
       end.

(** A method call on the session object at address [a]. *)
Definition call {A} (a : nat) (f : DebugSession → Outcome A * DebugSession) : M A :=
  λ m, match objects m !! a with
       | Some s => let '(o, s') := f s in (o, with_objects (<[a := s']> (objects m)) m)
       | None => (Rejected (ErrorObject "not a session"), m)
       end.

Notation "'let*' x ':=' c 'in' k" := (bind c (λ x, k))
  (at level 10, x binder, c at level 200, k at level 200).

Definition find (sessionId : string) (m : t) : option nat :=
  JsMap.get sessionId (sessions m).

(** [get currentSession()] *)
Definition currentSession (m : t) : option nat :=
  if truthy_str (activeDebugSessionId m)
  then activeDebugSessionId m ≫= (λ i, JsMap.get i (sessions m))
  else None.

Definition setActiveDebugSession (sessionId : option string) (m : t) : t :=
  if truthy_str sessionId && bool_decide (sessionId ≫= (λ i, find i m) = None)
  then m
  else
    let oldActiveSessionSession :=
      if truthy_str (activeDebugSessionId m)
      then activeDebugSessionId m ≫= (λ i, find i m)
      else None in
    if decide (activeDebugSessionId m ≠ sessionId)
    then
      let m := with_active sessionId m in
      fire (DidChangeActiveDebugSession oldActiveSessionSession (currentSession m)) m
    else m.

Definition remove (sessionId : string) (m : t) : t :=
  let m := with_sessions (JsMap.delete sessionId (sessions m)) m in
  if truthy_str (activeDebugSessionId m)
  then
    if decide (activeDebugSessionId m = Some sessionId)
    then
      if decide (JsMap.size (sessions m) ≠ 0%nat)
      then setActiveDebugSession (head (JsMap.keys (sessions m))) m
      else setActiveDebugSession None m
    else m
  else m.

Definition doDestroy (a : nat) (m : t) : t :=
  match objects m !! a with
  | Some session =>
      let m := fire (DebugServiceStop (sessionId session)) m in
      let m := with_objects (<[a := dispose session]> (objects m)) m in
      let m := remove (sessionId session) m in
      fire (DidDestroyDebugSession a) m
  | None => m
  end.

(** [destroy(sessionId?)].  [Map.forEach] walks the live map, so an entry
    deleted before it is reached is not visited. *)
Definition destroy (sessionId : option string) (m : t) : t :=
  if truthy_str sessionId
  then
    match sessionId ≫= (λ i, JsMap.get i (sessions m)) with
    | Some a => doDestroy a m
    | None => m
    end
  else
    foldl (λ m '(k, a), if decide ((k, a) ∈ sessions m) then doDestroy a m else m)
      m (sessions m).

Section WithAdapter.
Variable adapter : Adapter.

Definition onSessionInitializationFailed (a : nat) (cause : Error) : M unit :=
  λ m, match objects m !! a with
       | Some session =>
           let m := destroy (Some (sessionId session)) m in
           let message := match cause with
                          | FailedResponse message => message
                          | ErrorObject message => Some message
                          end in
           (Resolved (),
            fire (ShowMessage
                    (if truthy_str message then default "" message
                     else "Debug session initialization failed. See console for details."))
              m)
       | None => (Resolved (), m)
       end.

(** [Object.assign(session.configuration, marker)] writes into the session's
    own configuration record, which is then the request's argument. *)
Definition mark_configuration (marker : gmap string Value) (s : DebugSession)
    : Outcome (gmap string Value) * DebugSession :=
  let s := with_configuration (Object_assign (configuration s) marker) s in
  (Resolved (configuration s), s).

Definition attach (a : nat) (initializeArgs : gmap string Value) : M unit :=
  let* _ := call a (initialize adapter initializeArgs) in
  let* attachArgs := call a (mark_configuration {[ "__restart" := VBool false ]}) in
  try_catch
    (let* _ := call a (sendRequest adapter "attach" attachArgs) in ret ())
    (λ cause, λ m, (Rejected cause, snd (onSessionInitializationFailed a cause m))).

Definition launch (a : nat) (initializeArgs : gmap string Value) : M unit :=
  let* _ := call a (initialize adapter initializeArgs) in
  let* launchArgs := call a (mark_configuration
                               (<[ "__restart" := VBool false ]> {[ "noDebug" := VBool false ]})) in
  try_catch
    (let* _ := call a (sendRequest adapter "launch" launchArgs) in ret ())
    (λ cause, λ m, (Rejected cause, snd (onSessionInitializationFailed a cause m))).

Definition launchOrAttach (a : nat) : M unit :=
  λ m, match objects m !! a with
       | Some session =>
           let initializeArgs :=
             <[ "adapterID" := default VUndefined (configuration session !! "type") ]>
               INITIALIZE_ARGUMENTS in
           let request := configuration session !! "request" in
           if decide (request = Some (VStr "attach")) then attach a initializeArgs m
           else if decide (request = Some (VStr "launch")) then launch a initializeArgs m
           else throw (ErrorObject ("Unsupported request '" +:+ to_string request +:+ "' type.")) m
       | None => throw (ErrorObject "not a session") m
       end.

(** [restart(session, restart)]; the second argument is not used. *)
Definition restart (a : nat) (restart : Value) : M unit :=
  let* _ := call a (disconnect adapter {[ "restart" := VBool true ]}) in
  launchOrAttach a.

End WithAdapter.

(** *** Calls that are started and not awaited *)

(** The marker [attach] and [launch] merge into the configuration. *)
Definition marker_of (request : string) : gmap string Value :=
  if decide (request = "launch")
  then <[ "__restart" := VBool false ]> {[ "noDebug" := VBool false ]}
  else {[ "__restart" := VBool false ]}.

(** The synchronous part of a method of the session at address [a]. *)
Definition on_session (a : nat) (f : DebugSession → DebugSession) (m : t) : t :=
  match objects m !! a with
  | Some s => with_objects (<[a := f s]> (objects m)) m
  | None => m
  end.

Definition suspend (p : Suspended) (m : t) : t :=
  with_suspended (suspended m ++ [p]) m.

(** [launchOrAttach(session)] up to its first [await]: [attach] or [launch]
    has called [session.initialize], which has handed the request to the
    connection.  For any other request kind the call throws, and the
    rejected promise is dropped. *)
Definition launchOrAttach_started (a : nat) (m : t) : t :=
  match objects m !! a with
  | Some session =>
      let initializeArgs :=
        <[ "adapterID" := default VUndefined (configuration session !! "type") ]>
          INITIALIZE_ARGUMENTS in
      let request := configuration session !! "request" in
      if decide (request = Some (VStr "attach"))
      then suspend (InInitialize a "attach") (on_session a (run "initialize" initializeArgs) m)
      else if decide (request = Some (VStr "launch"))
      then suspend (InInitialize a "launch") (on_session a (run "initialize" initializeArgs) m)
      else m
  | None => m
  end.

(** [restart(session, restart)] up to its first [await]. *)
Definition restart_started (a : nat) (m : t) : t :=
  match objects m !! a with
  | Some _ =>
      suspend (InRestart a) (on_session a (run "disconnect" {[ "restart" := VBool true ]}) m)
  | None => m
  end.

(** [onSessionInitialized(session)], the listener of [initialized], up to
    its first [await]; the breakpoint applier is a collaborator whose call
    is recorded. *)
Definition onSessionInitialized_started (a : nat) (m : t) : t :=
  suspend (InApplySessionBreakpoints a) (fire (ApplySessionBreakpoints a) m).

(** The [i]-th suspended call continues, its awaited promise settled by
    [response]: resolved with the body for [Success], rejected for
    [Failure].  The call runs to its next [await], where it is suspended
    again, or to its end.
    - [InInitialize]: [initialize] stores the capabilities and returns; the
      [attach] or [launch] awaiting it continues in a turn of its own.
    - [Initialized]: [initialize] has returned, so there is no rejection;
      [attach] or [launch] merges the marker into the configuration and
      sends it.
    - [InStart]: a failure is caught by [onSessionInitializationFailed].
    - [InRestart]: [restart] goes on to [launchOrAttach].
    - [InApplySessionBreakpoints]: [onSessionInitialized] goes on to
      [session.configurationDone()].
    - [InConfigurationDone]: the session fires its emitter, whose listener
      calls [resolveThreads(undefined)].
    A rejection ends the call wherever no [catch] is written. *)
Definition resume (i : nat) (response : DebugProtocol.Response) (m : t) : t :=
  match suspended m !! i with
  | Some p =>
      let m := with_suspended (delete i (suspended m)) m in
      match p, response with
      | InInitialize a command, DebugProtocol.Success body =>
          match objects m !! a with
          | Some _ =>
              suspend (Initialized a command)
                (on_session a (with_capabilities (default ∅ body)) m)
          | None => m
          end
      | InInitialize _ _, DebugProtocol.Failure _ => m
      | Initialized a command, _ =>
          match objects m !! a with
          | Some _ =>
              let m := on_session a
                         (λ s, with_configuration
                                 (Object_assign (configuration s) (marker_of command)) s) m in
              let m := on_session a (λ s, run command (configuration s) s) m in
              suspend (InStart a command) m
          | None => m
          end
      | InStart _ _, DebugProtocol.Success _ => m
      | InStart a _, DebugProtocol.Failure message =>
          snd (onSessionInitializationFailed a (FailedResponse message) m)
      | InRestart a, DebugProtocol.Success _ => launchOrAttach_started a m
      | InRestart _, DebugProtocol.Failure _ => m
      | InApplySessionBreakpoints a, DebugProtocol.Success _ =>
          match objects m !! a with
          | Some _ =>
              suspend (InConfigurationDone a) (on_session a (run "configurationDone" ∅) m)
          | None => m
          end
      | InApplySessionBreakpoints _, DebugProtocol.Failure _ => m
      | InConfigurationDone a, DebugProtocol.Success _ =>
          on_session a (λ s, resolveThreads None (emit ConfigurationDone s)) m
      | InConfigurationDone _, DebugProtocol.Failure _ => m
      end
  | None => m
  end.

(** Modelled from the spec: the session factories of
    [debug-session-contribution.ts] are not among the sources; whichever
    factory is selected constructs the session from the id and the
    configuration it is given.  [launchOrAttach] is started and not awaited:
    [create] resolves with the session as soon as that call is suspended or
    has thrown, whatever becomes of it. *)
Definition create (sessionId : string) (debugConfiguration : gmap string Value) : M nat :=
  λ m,
    let m := fire (DidPreCreateDebugSession sessionId) m in
    let session := length (objects m) in
    let m := with_objects (objects m ++ [new_DebugSession sessionId debugConfiguration]) m in
    let m := with_sessions (JsMap.set sessionId session (sessions m)) m in
    let m := fire (DidCreateDebugSession session) m in
    let m := launchOrAttach_started session m in
    (Resolved session, m).

(** The listener of [terminated]: [disconnect(session, event)]; neither
    promise is awaited, and nothing runs after the response of the plain
    [session.disconnect()].  [restart] is [event.body && event.body.restart]. *)
Definition on_terminated (a : nat) (restart_ : option Value) (m : t) : t :=
  if truthy restart_
  then restart_started a m
  else on_session a (run "disconnect" ∅) m.

(** The listener of [exited]. *)
Definition on_exited (a : nat) (m : t) : t :=
  match objects m !! a with
  | Some session => destroy (Some (sessionId session)) m
  | None => m
  end.

End DebugSessionManager.

(** ** Properties stated by the specification *)

(** The current thread is absent, or it is an object whose state is
    [Stopped]. *)
Definition current_ok (s : DebugSession) : Prop :=
  match _currentThread s with
  | Some a => DebugThread.state <$> heap s !! a = Some Stopped
  | None => True
  end.

(** The three ways a threads refresh is requested. *)
Inductive Trigger : Type :=
  | ByStopped (body : StoppedDetails)
  | ByThreadStarted (threadId : Z)
  | ByConfigurationDone.

Definition trigger_step (t : Trigger) : Step :=
  match t with
  | ByStopped body => Incoming (stopped body)
  | ByThreadStarted threadId => Incoming (thread "started" threadId)
  | ByConfigurationDone => ConfigurationDoneFired
  end.

(** The argument the trigger passes to [resolveThreads]. *)
Definition trigger_details (t : Trigger) : option StoppedDetails :=
  match t with
  | ByStopped body => Some body
  | ByThreadStarted _ | ByConfigurationDone => None
  end.

Definition threads_request : DebugProtocol.Request :=
  {| DebugProtocol.command := "threads"; DebugProtocol.arguments := ∅ |}.

(** ** Sample data *)

Module Sample.

Definition breakpoint_on (threadId : option Z) : StoppedDetails :=
  {| DebugProtocol.reason := "breakpoint";
     DebugProtocol.threadId := threadId;
     DebugProtocol.preserveFocusHint := None;
     DebugProtocol.allThreadsStopped := None |}.

Definition main_thread : DebugProtocol.Thread :=
  {| DebugProtocol.id := 0; DebugProtocol.name := "main" |}.

Definition fresh : DebugSession := new_DebugSession "session-1" ∅.

(** A [stopped] event naming thread 0, the refresh it triggers, and the
    adapter's answer listing that one thread. *)
Definition stop_on_thread_zero : list Step :=
  [Incoming (stopped (breakpoint_on (Some 0)));
   DebounceElapsed;
   ThreadsResponse 0 (Some [main_thread])].

(** Threads A (id 1, running), B (id 2, stopped) and C (id 3, running). *)
Definition three_threads : DebugSession :=
  with_threads [(1, 0%nat); (2, 1%nat); (3, 2%nat)]
    (with_heap
       [ {| DebugThread.raw := {| DebugProtocol.id := 1; DebugProtocol.name := "A" |};
            DebugThread.stoppedDetails := None |};
         {| DebugThread.raw := {| DebugProtocol.id := 2; DebugProtocol.name := "B" |};
            DebugThread.stoppedDetails := Some (breakpoint_on (Some 2)) |};
         {| DebugThread.raw := {| DebugProtocol.id := 3; DebugProtocol.name := "C" |};
            DebugThread.stoppedDetails := None |} ]
       fresh).

(** An adapter that fails every request naming thread 1 and accepts the
    rest. *)
Definition fails_on_thread_1 : Adapter :=
  λ _ hist,
    match last hist with
    | Some r =>
        if decide (DebugProtocol.arguments r !! "threadId" = Some (VNum 1))
        then DebugProtocol.Failure (Some "thread is stuck")
        else DebugProtocol.Success None
    | None => DebugProtocol.Success None
    end.

(** An adapter that accepts every request and answers with the body
    [{b: 2}]. *)
Definition answers_b2 : Adapter :=
  λ _ _, DebugProtocol.Success (Some {[ "b" := VNum 2 ]}).

Definition accepts_all : Adapter := λ _ _, DebugProtocol.Success None.

(** An adapter that fails the first request of a connection and accepts
    every later one. *)
Definition fails_first_request : Adapter :=
  λ _ hist,
    match hist with
    | [_] => DebugProtocol.Failure (Some "not ready")
    | _ => DebugProtocol.Success None
    end.

Definition knows_a1 : DebugSession :=
  with_capabilities {[ "a" := VNum 1 ]} fresh.

End Sample.

(** Sample managers and configurations. *)
Module SampleManager.

Definition bogus : gmap string Value :=
  list_to_map [("type", VStr "node"); ("request", VStr "bogus")].

Definition launch_noDebug : gmap string Value :=
  list_to_map [("type", VStr "node"); ("request", VStr "launch"); ("noDebug", VBool true)].

(** One session, with a launch configuration asking for [noDebug]. *)
Definition one_launched : DebugSessionManager.t :=
  {| DebugSessionManager.activeDebugSessionId := None;
     DebugSessionManager.sessions := [("s1", 0%nat)];
     DebugSessionManager.objects := [new_DebugSession "s1" launch_noDebug];
     DebugSessionManager.notices := [];
     DebugSessionManager.suspended := [] |}.

(** Sessions [a] and [b], with [a] the active one. *)
Definition two_sessions : DebugSessionManager.t :=
  {| DebugSessionManager.activeDebugSessionId := Some "a";
     DebugSessionManager.sessions := [("a", 0%nat); ("b", 1%nat)];
     DebugSessionManager.objects := [new_DebugSession "a" ∅; new_DebugSession "b" ∅];
     DebugSessionManager.notices := [];
     DebugSessionManager.suspended := [] |}.

(** A session whose id is the empty string, named by the active pointer,
    and a session [b]. *)
Definition empty_id_active : DebugSessionManager.t :=
  {| DebugSessionManager.activeDebugSessionId := Some "";
     DebugSessionManager.sessions := [("", 0%nat); ("b", 1%nat)];
     DebugSessionManager.objects := [new_DebugSession "" ∅; new_DebugSession "b" ∅];
     DebugSessionManager.notices := [];
     DebugSessionManager.suspended := [] |}.

(** The active session [a] and a session whose id is the empty string. *)
Definition empty_id_remaining : DebugSessionManager.t :=
  {| DebugSessionManager.activeDebugSessionId := Some "a";
     DebugSessionManager.sessions := [("a", 0%nat); ("", 1%nat)];
     DebugSessionManager.objects := [new_DebugSession "a" ∅; new_DebugSession "" ∅];
     DebugSessionManager.notices := [];
     DebugSessionManager.suspended := [] |}.

End SampleManager.

Definition disconnect_restart_request : DebugProtocol.Request :=
  {| DebugProtocol.command := "disconnect";
     DebugProtocol.arguments := {[ "restart" := VBool true ]} |}.

(** ** Further parts of the session *)

(** The stopped details [updateThreads] stores in the thread reported as
    [raw]: those of the event when it names that thread, none otherwise. *)
Definition details_for (stoppedDetails : option StoppedDetails) (raw : DebugProtocol.Thread)
    : option StoppedDetails :=
  match stoppedDetails with
  | Some d => if decide (DebugProtocol.threadId d = Some (DebugProtocol.id raw)) then Some d else None
  | None => None
  end.

(** The thread map is consistent: no key twice, and every key leads to an
    object of the store whose raw id is that key. *)
Definition threads_wf (s : DebugSession) : Prop :=
  NoDup (JsMap.keys (_threads s))
  ∧ ∀ i a, JsMap.get i (_threads s) = Some a →
           ∃ th, heap s !! a = Some th ∧ DebugProtocol.id (DebugThread.raw th) = i.

(** The current thread is the object the map holds for its own id. *)
Definition current_in_map (s : DebugSession) : Prop :=
  ∀ a, _currentThread s = Some a →
       ∃ th, heap s !! a = Some th
             ∧ JsMap.get (DebugProtocol.id (DebugThread.raw th)) (_threads s) = Some a.

Definition session_ok (s : DebugSession) : Prop :=
  threads_wf s ∧ current_in_map s ∧ current_ok s.

(** The invariant of the loop of [updateThreads], for a store [h] and a map
    [m] under construction: [m] has no key twice, its addresses are those
    [existing] has for the same key or were allocated at or after [base],
    and each leads to an object with the key as raw id. *)
Definition threads_consistent (existing : list (Z * nat)) (base : nat)
    (h : list DebugThread.t) (m : list (Z * nat)) : Prop :=
  (base ≤ length h)%nat
  ∧ NoDup (JsMap.keys m)
  ∧ ∀ i a, JsMap.get i m = Some a →
           (JsMap.get i existing = Some a ∨ (base ≤ a)%nat)
           ∧ ∃ th, h !! a = Some th ∧ DebugProtocol.id (DebugThread.raw th) = i.

(** [hasThreadsForState(state)]: the first value of the iterator, made a
    boolean; a thread object is truthy. *)
Definition hasThreadsForState (st : DebugState) (s : DebugSession) : bool :=
  match head (getThreadsForState st s) with
  | Some _ => true
  | None => false
  end.

(** [DebugProtocol.Source], the fields [updateSources] reads. *)
Record Source : Type := {
  source_name : option string;
  path : option string;
  sourceReference : option Z
}.

Section Sources.

(** [Number.prototype.toString] on the integers a source reference can be.
    It prints the decimal numeral up to a magnitude of 10^21 and exponent
    notation from there on; which text it gives is left open here, and what
    is proved of [updateSources] holds for every such function. *)
Variable toString : Z → string.

(** [updateSources(event)] on the [sources] map; the event carries the
    reason and the source. *)
Definition updateSources (reason : string) (source : Source)
    (sources : list (string * Source)) : list (string * Source) :=
  if decide (reason = "new" ∨ reason = "changed")
  then
    let sources :=
      if truthy_str (path source)
      then JsMap.set (default "" (path source)) source sources
      else sources in
    if truthy_num (sourceReference source)
    then JsMap.set (toString (default 0 (sourceReference source))) source sources
    else sources
  else sources.

(** The keys [updateSources] files a source under: its path when that is
    not empty, and the text of its source reference when that is not 0. *)
Definition registered_under (source : Source) (k : string) : Prop :=
  (∃ p, path source = Some p ∧ p ≠ "" ∧ k = p)
  ∨ (∃ n, sourceReference source = Some n ∧ n ≠ 0 ∧ k = toString n).

End Sources.

(** ** Stack frames ([model/debug-stack-frame.ts]) *)

Module DebugStackFrame.

(** [DebugProtocol.StackFrame], the fields used here. *)
Record StackFrame : Type := {
  id : Z;
  name : string;
  line : Z;
  column : Z
}.

Record t : Type := { raw : StackFrame }.

(** [update(data)] with [data] a partial [DebugStackFrameData]. *)
Definition update (data : option StackFrame) (f : t) : t :=
  match data with
  | Some r => {| raw := r |}
  | None => f
  end.

(** [toArgs(arg)]: [Object.assign({}, arg, { frameId: this.raw.id })]. *)
Definition toArgs (arg : option (gmap string Value)) (f : t) : gmap string Value :=
  Object_assign (Object_assign ∅ (default ∅ arg)) {[ "frameId" := VNum (id (raw f)) ]}.

(** The request [resolveScopes] sends. *)
Definition scopes_request (f : t) : DebugProtocol.Request :=
  {| DebugProtocol.command := "scopes"; DebugProtocol.arguments := toArgs None f |}.

End DebugStackFrame.

(** ** Further parts of the manager *)

(** The active pointer, when it holds a non-empty id, names a registered
    session. *)
Definition pointer_ok (m : DebugSessionManager.t) : Prop :=
  ∀ id, DebugSessionManager.activeDebugSessionId m = Some id → id ≠ "" →
        is_Some (DebugSessionManager.find id m).

(** The session map is consistent: no key twice, and every key leads to a
    session object whose id is that key. *)
Definition registry_wf (m : DebugSessionManager.t) : Prop :=
  NoDup (JsMap.keys (DebugSessionManager.sessions m))
  ∧ ∀ k a, JsMap.get k (DebugSessionManager.sessions m) = Some a →
           ∃ s, DebugSessionManager.objects m !! a = Some s ∧ sessionId s = k.

Definition manager_ok (m : DebugSessionManager.t) : Prop :=
  pointer_ok m ∧ registry_wf m.

(** An asynchronous method keeps the manager consistent. *)
Definition preserves {A} (c : DebugSessionManager.M A) : Prop :=
  ∀ m, manager_ok m → manager_ok (c m).2.

(** What happens to a manager, one turn of the event loop each: a call of
    one of its public methods, an adapter event it listens to, a suspended
    call continuing with the response it awaited, or something the session
    at [a] handles by itself.  Between two turns nothing runs. *)
Inductive Op : Type :=
  | OpCreate (sessionId : string) (debugConfiguration : gmap string Value)
  | OpSetActive (sessionId : option string)
  | OpRemove (sessionId : string)
  | OpDestroy (sessionId : option string)
  | OpInitialized (a : nat)
  | OpTerminated (a : nat) (restart : option Value)
  | OpExited (a : nat)
  | OpResume (i : nat) (response : DebugProtocol.Response)
  | OpSession (a : nat) (x : Step).

Definition apply_op (m : DebugSessionManager.t) (o : Op) : DebugSessionManager.t :=
  match o with
  | OpCreate sessionId debugConfiguration =>
      (DebugSessionManager.create sessionId debugConfiguration m).2
  | OpSetActive sessionId => DebugSessionManager.setActiveDebugSession sessionId m
  | OpRemove sessionId => DebugSessionManager.remove sessionId m
  | OpDestroy sessionId => DebugSessionManager.destroy sessionId m
  | OpInitialized a => DebugSessionManager.onSessionInitialized_started a m
  | OpTerminated a restart => DebugSessionManager.on_terminated a restart m
  | OpExited a => DebugSessionManager.on_exited a m
  | OpResume i response => DebugSessionManager.resume i response m
  | OpSession a x => DebugSessionManager.on_session a (λ s, step s x) m
  end.

(** The session a suspended call runs on. *)
Definition session_of (p : DebugSessionManager.Suspended) : nat :=
  match p with
  | DebugSessionManager.InInitialize a _
  | DebugSessionManager.Initialized a _
  | DebugSessionManager.InStart a _
  | DebugSessionManager.InRestart a
  | DebugSessionManager.InApplySessionBreakpoints a
  | DebugSessionManager.InConfigurationDone a => a
  end.

(** The [i]-th suspended call continues with the adapter's answer to the
    last request sent on its session's connection: the request it awaits,
    when nothing was sent since.  ([Initialized] awaits no request and makes
    no use of the answer.) *)
Definition answered (adapter : Adapter) (i : nat) (m : DebugSessionManager.t)
    : DebugSessionManager.t :=
  match DebugSessionManager.suspended m !! i with
  | Some p =>
      match DebugSessionManager.objects m !! session_of p with
      | Some s => DebugSessionManager.resume i (adapter (sessionId s) (sent s)) m
      | None => m
      end
  | None => m
  end.

(** The arguments of the [initialize] request for a session. *)
Definition initializeArgs_of (s : DebugSession) : gmap string Value :=
  <[ "adapterID" := default VUndefined (configuration s !! "type") ]> INITIALIZE_ARGUMENTS.

Abbreviation marker_of := DebugSessionManager.marker_of.

Definition request_with (command : string) (args : gmap string Value) : DebugProtocol.Request :=
  {| DebugProtocol.command := command; DebugProtocol.arguments := args |}.

(** The text of the notification after a failed [attach] or [launch]. *)
Definition failure_text (message : option string) : string :=
  if truthy_str message then default "" message
  else "Debug session initialization failed. See console for details.".

(** The session after [initialize] has succeeded with [body] and the
    marked configuration has been sent as [command]. *)
Definition started (s : DebugSession) (command : string) (args : gmap string Value)
    (body : option (gmap string Value)) : DebugSession :=
  let configuration' := Object_assign (configuration s) (marker_of command) in
  run command configuration'
    (with_configuration configuration'
       (with_capabilities (default ∅ body) (run "initialize" args s))).

(** What [attach] and [launch] come to on the session [s] at address [a],
    by the adapter's answers to the two requests. *)
Definition start_outcome (adapter : Adapter) (a : nat) (m : DebugSessionManager.t)
    (s : DebugSession) (command : string) (args : gmap string Value)
    : Outcome unit * DebugSessionManager.t :=
  match adapter (sessionId s) (sent s ++ [request_with "initialize" args]) with
  | DebugProtocol.Failure message =>
      (Rejected (FailedResponse message),
       DebugSessionManager.with_objects
         (<[a := run "initialize" args s]> (DebugSessionManager.objects m)) m)
  | DebugProtocol.Success body =>
      match adapter (sessionId s)
              (sent s ++ [request_with "initialize" args;
                          request_with command
                            (Object_assign (configuration s) (marker_of command))]) with
      | DebugProtocol.Success _ =>
          (Resolved (),
           DebugSessionManager.with_objects
             (<[a := started s command args body]> (DebugSessionManager.objects m)) m)
      | DebugProtocol.Failure message =>
          (Rejected (FailedResponse message),
           DebugSessionManager.fire
             (DebugSessionManager.ShowMessage (failure_text message))
             (DebugSessionManager.destroy (Some (sessionId s))
                (DebugSessionManager.with_objects
                   (<[a := started s command args body]> (DebugSessionManager.objects m)) m)))
      end
  end.

(** ** The plugin host ([PluginHostRPC]) *)

Module PluginHostRPC.

Record EntryPoint : Type := { backend : option string; frontend : option string }.

Record PluginModel : Type := { name : string; entryPoint : EntryPoint }.

Record PluginLifecycle : Type := { backendInitPath : option string }.

Record PluginPackage : Type := { packagePath : string }.

Record PluginMetadata : Type := {
  source : PluginPackage;
  model : PluginModel;
  lifecycle : PluginLifecycle
}.

Record Plugin : Type := {
  pluginPath : option string;
  pluginFolder : string;
  plugin_model : PluginModel;
  plugin_lifecycle : PluginLifecycle;
  rawModel : PluginPackage
}.

Inductive Effect : Type :=
  | Initializing (contextPath : string)                    (* console.log *)
  | DoInitialization (contextPath : string) (plugin : Plugin)
  | ConsoleError (contextPath : string).                   (* console.error in the catch *)

(** [PluginHostRPC.initialize(contextPath, plugin)]; [loads] tells whether
    [require(contextPath)] and the initialization it exports return
    normally. *)
Definition initialize (loads : string → bool) (contextPath : string) (plugin : Plugin)
    : list Effect :=
  Initializing contextPath
  :: (if loads contextPath then [DoInitialization contextPath plugin]
      else [ConsoleError contextPath]).

Definition backend_plugin (plg : PluginMetadata) : Plugin :=
  {| pluginPath := backend (entryPoint (model plg));
     pluginFolder := packagePath (source plg);
     plugin_model := model plg;
     plugin_lifecycle := lifecycle plg;
     rawModel := source plg |}.

Definition frontend_plugin (plg : PluginMetadata) : Plugin :=
  {| pluginPath := frontend (entryPoint (model plg));
     pluginFolder := packagePath (source plg);
     plugin_model := model plg;
     plugin_lifecycle := lifecycle plg;
     rawModel := source plg |}.

(** The init path of a backend plugin: its own, or the Theia one. *)
Definition initPath (dirname : string) (plg : PluginMetadata) : string :=
  if truthy_str (backendInitPath (lifecycle plg))
  then default "" (backendInitPath (lifecycle plg))
  else dirname +:+ "/scanners/backend-init-theia.js".

Record State : Type := {
  result : list Plugin;
  foreign : list Plugin;
  effects : list Effect
}.

(** One iteration of the loop of [init]. *)
Definition init_step (dirname : string) (loads : string → bool) (st : State)
    (plg : PluginMetadata) : State :=
  if truthy_str (backend (entryPoint (model plg)))
  then
    let plugin := backend_plugin plg in
    {| result := result st ++ [plugin];
       foreign := foreign st;
       effects := effects st ++ initialize loads (initPath dirname plg) plugin |}
  else
    {| result := result st;
       foreign := foreign st ++ [frontend_plugin plg];
       effects := effects st |}.

(** [init(raw)] of the plugin manager the host creates, after the
    [console.log] that opens it. *)
Definition init (dirname : string) (loads : string → bool) (raw : list PluginMetadata)
    : State :=
  foldl (init_step dirname loads) {| result := []; foreign := []; effects := [] |} raw.

Definition is_backend (plg : PluginMetadata) : Prop :=
  truthy_str (backend (entryPoint (model plg))) = true.

End PluginHostRPC.

(** * Facts about insertion-ordered maps *)

Section JsMapFacts.
Context {K V : Type} `{EqDecision K}.
Implicit Types (k : K) (v : V) (m : list (K * V)).

Lemma JsMap_get_set_eq k v m : JsMap.get k (JsMap.set k v m) = Some v.
Proof.
  induction m as [|[k' v'] m IH]; simpl.
  - by rewrite decide_True.
  - destruct (decide (k = k')) as [->|Hne]; simpl.
    + by rewrite decide_True.
    + by rewrite decide_False.
Qed.

Lemma JsMap_get_set_ne k k' v m :
  k ≠ k' → JsMap.get k' (JsMap.set k v m) = JsMap.get k' m.
Proof.
  intros Hne. induction m as [|[k0 v0] m IH]; simpl.
  - by rewrite decide_False.
  - destruct (decide (k = k0)) as [->|Hne0]; simpl.
    + rewrite !decide_False; congruence.
    + destruct (decide (k' = k0)); [done | apply IH].
Qed.

Lemma JsMap_get_delete_eq k m : JsMap.get k (JsMap.delete k m) = None.
Proof.
  induction m as [|[k' v'] m IH]; simpl; [done |].
  destruct (decide (k = k')) as [->|Hne]; simpl; [done |].
  by rewrite decide_False.
Qed.

Lemma JsMap_get_delete_ne k k' m :
  k ≠ k' → JsMap.get k' (JsMap.delete k m) = JsMap.get k' m.
Proof.
  intros Hne. induction m as [|[k0 v0] m IH]; simpl; [done |].
  destruct (decide (k = k0)) as [->|Hne0]; simpl.
  - rewrite decide_False; [apply IH | congruence].
  - destruct (decide (k' = k0)); [done | apply IH].
Qed.

Lemma JsMap_get_is_Some k m : is_Some (JsMap.get k m) ↔ k ∈ JsMap.keys m.
Proof.
  unfold JsMap.keys. induction m as [|[k' v'] m IH]; simpl.
  - split; [by intros [? ?] | by intros ?%elem_of_nil].
  - rewrite elem_of_cons. destruct (decide (k = k')) as [->|Hne].
    + split; [by left | by eexists].
    + rewrite IH. split; [by right | by intros [?|?]].
Qed.

Lemma JsMap_keys_delete k m :
  JsMap.keys (JsMap.delete k m) = filter (λ k', k ≠ k') (JsMap.keys m).
Proof.
  unfold JsMap.keys. induction m as [|[k' v'] m IH]; simpl; [done |].
  destruct (decide (k = k')) as [->|Hne].
  - rewrite filter_cons_False; [apply IH | by intros ?].
  - rewrite filter_cons_True; [| done]. rewrite fmap_cons. simpl. f_equal. apply IH.
Qed.

End JsMapFacts.

(** * The current thread *)

Lemma heap_doSetCurrentThread th s : heap (doSetCurrentThread th s) = heap s.
Proof. by destruct th. Qed.

Lemma currentThread_doSetCurrentThread th s : _currentThread (doSetCurrentThread th s) = th.
Proof. by destruct th. Qed.

Lemma threads_doSetCurrentThread th s : _threads (doSetCurrentThread th s) = _threads s.
Proof. by destruct th. Qed.

Lemma stopped_or_undefined_Some th s a :
  stopped_or_undefined th s = Some a →
  th = Some a ∧ DebugThread.state <$> heap s !! a = Some Stopped.
Proof.
  unfold stopped_or_undefined. destruct th as [b|]; [| done].
  destruct (heap s !! b) as [x|] eqn:Hb; [| done].
  destruct (decide (DebugThread.state x = Stopped)) as [Hst|]; [| done].
  intros [= ->]. rewrite Hb. simpl. by rewrite Hst.
Qed.

Lemma setCurrentThread_ok th s : current_ok (setCurrentThread th s).
Proof.
  unfold current_ok, setCurrentThread.
  rewrite currentThread_doSetCurrentThread, heap_doSetCurrentThread.
  destruct (stopped_or_undefined th s) as [a|] eqn:Hc; [| done].
  by apply stopped_or_undefined_Some in Hc as [_ ?].
Qed.

Lemma updateCurrentThread_ok sd s : current_ok (updateCurrentThread sd s).
Proof. apply setCurrentThread_ok. Qed.

Lemma updateThreads_ok ths sd s : current_ok (updateThreads ths sd s).
Proof.
  unfold updateThreads.
  destruct (foldl _ _ ths) as [h m]. apply updateCurrentThread_ok.
Qed.

Lemma on_ok e s : current_ok s → current_ok (on e s).
Proof.
  intros Hs. destruct e as [atc tid|body|reason tid|caps]; simpl.
  - case_decide; apply updateCurrentThread_ok.
  - done.
  - repeat case_decide; [done | apply updateCurrentThread_ok | done].
  - done.
Qed.

Lemma step_ok s x : current_ok s → current_ok (step s x).
Proof.
  intros Hs. destruct x as [e| | |i body]; simpl.
  - by apply on_ok.
  - done.
  - unfold resolveThreads_elapsed. by destruct (resolveThreads_timer s).
  - unfold resolveThreads_response.
    destruct (awaiting s !! i); [| done].
    destruct body; [apply updateThreads_ok | done].
Qed.

Lemma steps_ok xs s : current_ok s → current_ok (steps xs s).
Proof.
  unfold steps. revert s.
  induction xs as [|x xs IH]; intros s Hs; simpl; [done |].
  by apply IH, step_ok.
Qed.

Lemma current_ok_state s : current_ok s → state s ≠ Running.
Proof.
  unfold current_ok, state, currentThread.
  destruct (_currentThread s) as [a|]; [| done]. cbn.
  destruct (heap s !! a) as [th|]; [| done]. cbn. by intros [= ->].
Qed.

(** C1: whatever thread [setCurrentThread] is given, and after every
    sequence of [stopped], [continued] and [thread] events (together with
    the other steps a session takes: capabilities events, the configuration
    done notification, the debounce timer and [threads] responses), the
    current thread of a session is absent or an object in state [Stopped];
    the state of the session is therefore never [Running]. *)
Theorem current_thread_absent_or_stopped :
  (∀ th s, current_ok (setCurrentThread th s))
  ∧ (∀ sessionId configuration xs,
       current_ok (steps xs (new_DebugSession sessionId configuration)))
  ∧ (∀ sessionId configuration xs,
       state (steps xs (new_DebugSession sessionId configuration)) ≠ Running).
Proof.
  split_and!.
  - apply setCurrentThread_ok.
  - intros sid cfg xs. by apply steps_ok.
  - intros sid cfg xs. by apply current_ok_state, steps_ok.
Qed.

(** * The [continued] event *)

Lemma clear_idemp (o : option DebugThread.t) :
  DebugThread.clear <$> (DebugThread.clear <$> o) = DebugThread.clear <$> o.
Proof. by destruct o. Qed.

Lemma lookup_alter_clear (h : list DebugThread.t) (a b : nat) :
  alter DebugThread.clear a h !! b
  = if decide (a = b) then DebugThread.clear <$> h !! b else h !! b.
Proof.
  rewrite list_lookup_alter. case_decide; by subst.
Qed.

Lemma lookup_clear_all (l : list nat) (h : list DebugThread.t) (b : nat) :
  foldl (λ h a, alter DebugThread.clear a h) h l !! b
  = if decide (b ∈ l) then DebugThread.clear <$> h !! b else h !! b.
Proof.
  revert h. induction l as [|a l IH]; intros h; cbn [foldl].
  - rewrite decide_False; [done | apply not_elem_of_nil].
  - rewrite IH, lookup_alter_clear.
    destruct (decide (b ∈ a :: l)) as [Hc|Hc]; rewrite elem_of_cons in Hc;
      destruct (decide (b ∈ l)) as [Hin|Hout], (decide (a = b)) as [->|Hne];
      try done; try apply clear_idemp.
    + destruct Hc; congruence.
    + exfalso. apply Hc. by left.
    + exfalso. apply Hc. by right.
    + exfalso. apply Hc. by left.
Qed.

Lemma heap_updateCurrentThread sd s : heap (updateCurrentThread sd s) = heap s.
Proof. apply heap_doSetCurrentThread. Qed.

Lemma threads_updateCurrentThread sd s : _threads (updateCurrentThread sd s) = _threads s.
Proof. apply threads_doSetCurrentThread. Qed.

Lemma heap_clearThreads s :
  heap (clearThreads s) = foldl (λ h a, alter DebugThread.clear a h) (heap s) (threads s).
Proof. unfold clearThreads. by rewrite heap_updateCurrentThread. Qed.

Lemma heap_clearThread threadId s :
  heap (clearThread threadId s)
  = match JsMap.get threadId (_threads s) with
    | Some a => alter DebugThread.clear a (heap s)
    | None => heap s
    end.
Proof. unfold clearThread. by rewrite heap_updateCurrentThread. Qed.

(** * Refreshing the thread map *)

Section UpdateThreads.
Variable existing : list (Z * nat).
Variable stoppedDetails : option StoppedDetails.

Local Abbreviation loop := (foldl (updateThreads_step existing stoppedDetails)).

Lemma updateThreads_step_spec h0 m0 (r : DebugProtocol.Thread) :
  ∀ h1 m1, updateThreads_step existing stoppedDetails (h0, m0) r = (h1, m1) →
    (∀ j, j ≠ DebugProtocol.id r → JsMap.get j m1 = JsMap.get j m0)
    ∧ match JsMap.get (DebugProtocol.id r) existing with
      | Some a => JsMap.get (DebugProtocol.id r) m1 = Some a ∧ length h1 = length h0
      | None => JsMap.get (DebugProtocol.id r) m1 = Some (length h0)
                ∧ length h1 = S (length h0)
      end.
Proof.
  intros h1 m1. unfold updateThreads_step.
  destruct (JsMap.get (DebugProtocol.id r) existing) as [a|];
    intros [= <- <-]; rewrite length_alter.
  - split_and!; [| apply JsMap_get_set_eq | done].
    intros j Hj. by apply JsMap_get_set_ne.
  - split_and!; [| apply JsMap_get_set_eq |].
    + intros j Hj. by apply JsMap_get_set_ne.
    + rewrite length_app. simpl. lia.
Qed.

Lemma updateThreads_loop_length raws h0 m0 :
  length (loop (h0, m0) raws).1
  = (length h0
     + length (filter (λ r, JsMap.get (DebugProtocol.id r) existing = None) raws))%nat.
Proof.
  revert h0 m0. induction raws as [|r raws IH]; intros h0 m0; cbn [foldl].
  - simpl. lia.
  - destruct (updateThreads_step existing stoppedDetails (h0, m0) r) as [h1 m1] eqn:Hstep.
    apply updateThreads_step_spec in Hstep as [_ Hr].
    rewrite IH.
    destruct (JsMap.get (DebugProtocol.id r) existing) as [a|] eqn:Ha.
    + rewrite filter_cons_False by (by rewrite Ha). lia.
    + rewrite filter_cons_True by done. simpl. lia.
Qed.

Lemma updateThreads_loop_get raws h0 m0 (i : Z) :
  ∀ h m, loop (h0, m0) raws = (h, m) →
    if decide (i ∈ DebugProtocol.id <$> raws)
    then match JsMap.get i existing with
         | Some a => JsMap.get i m = Some a
         | None => ∃ a, JsMap.get i m = Some a ∧ (length h0 ≤ a < length h)%nat
         end
    else JsMap.get i m = JsMap.get i m0.
Proof.
  revert h0 m0. induction raws as [|r raws IH]; intros h0 m0 h m; cbn [foldl].
  - intros [= <- <-]. by rewrite decide_False by apply not_elem_of_nil.
  - destruct (updateThreads_step existing stoppedDetails (h0, m0) r) as [h1 m1] eqn:Hstep.
    intros Hloop. pose proof (updateThreads_loop_length raws h1 m1) as Hlen.
    rewrite Hloop in Hlen. simpl in Hlen.
    apply updateThreads_step_spec in Hstep as [Hother Hr].
    specialize (IH h1 m1 h m Hloop).
    rewrite fmap_cons.
    destruct (decide (i ∈ DebugProtocol.id <$> raws)) as [Hin|Hout].
    + rewrite decide_True by (apply elem_of_cons; by right).
      destruct (JsMap.get i existing) as [a|] eqn:Hi; [done |].
      destruct IH as (a & Ha & Hrange). exists a. split; [done |].
      destruct (JsMap.get (DebugProtocol.id r) existing); lia.
    + destruct (decide (i = DebugProtocol.id r)) as [->|Hne].
      * rewrite decide_True by (apply elem_of_cons; by left).
        rewrite IH.
        destruct (JsMap.get (DebugProtocol.id r) existing) as [a|]; [by destruct Hr |].
        exists (length h0). destruct Hr as [-> Hh1]. split; [done | lia].
      * rewrite decide_False; [by rewrite IH, Hother |].
        intros [?|?]%elem_of_cons; congruence.
Qed.

End UpdateThreads.

Lemma updateThreads_fields raws sd s h m :
  foldl (updateThreads_step (_threads s) sd) (heap s, []) raws = (h, m) →
  heap (updateThreads raws sd s) = h ∧ _threads (updateThreads raws sd s) = m.
Proof.
  intros Hloop. unfold updateThreads. rewrite Hloop.
  by rewrite heap_updateCurrentThread, threads_updateCurrentThread.
Qed.

(** C7: a refresh with the reported threads [raws] keeps, for every id that
    was in the map and is reported again, the very same object (address);
    gives every reported id that was not in the map an object allocated by
    this refresh; holds no id that is not reported; and allocates one object
    per reported thread whose id was not in the map. *)
Theorem updateThreads_preserves_identity :
  ∀ (raws : list DebugProtocol.Thread) (stoppedDetails : option StoppedDetails)
    (s : DebugSession),
    let s' := updateThreads raws stoppedDetails s in
    (∀ i a, i ∈ DebugProtocol.id <$> raws →
            JsMap.get i (_threads s) = Some a →
            JsMap.get i (_threads s') = Some a)
    ∧ (∀ i, i ∈ DebugProtocol.id <$> raws →
            JsMap.get i (_threads s) = None →
            ∃ a, JsMap.get i (_threads s') = Some a
                 ∧ (length (heap s) ≤ a < length (heap s'))%nat)
    ∧ (∀ i, i ∉ DebugProtocol.id <$> raws → JsMap.get i (_threads s') = None)
    ∧ length (heap s')
      = (length (heap s)
         + length (filter (λ r, JsMap.get (DebugProtocol.id r) (_threads s) = None) raws))%nat.
Proof.
  intros raws sd s s'. subst s'.
  destruct (foldl (updateThreads_step (_threads s) sd) (heap s, []) raws)
    as [h m] eqn:Hloop.
  destruct (updateThreads_fields _ _ _ _ _ Hloop) as [-> ->].
  split_and!.
  - intros i a Hin Hget.
    pose proof (updateThreads_loop_get _ _ _ _ _ i _ _ Hloop) as H.
    by rewrite decide_True, Hget in H.
  - intros i Hin Hget.
    pose proof (updateThreads_loop_get _ _ _ _ _ i _ _ Hloop) as H.
    by rewrite decide_True, Hget in H.
  - intros i Hout.
    pose proof (updateThreads_loop_get _ _ _ _ _ i _ _ Hloop) as H.
    by rewrite decide_False in H.
  - pose proof (updateThreads_loop_length (_threads s) sd raws (heap s) []) as H.
    by rewrite Hloop in H.
Qed.

(** * Focus after a refresh *)

Lemma truthy_num_false (x : option Z) : truthy_num x = false ↔ x = None ∨ x = Some 0.
Proof.
  destruct x as [n|]; simpl.
  - rewrite negb_false_iff, Z.eqb_eq. split; [intros ->; by right |].
    by intros [?|[= ->]].
  - split; [by left | done].
Qed.

(** C10 (amended): when the stopped details name thread 0 or no thread, the
    thread id [updateCurrentThread] looks up is the current thread's, also
    when [preserveFocusHint] is unset: the session is left exactly as by
    [updateCurrentThread()], whose candidate is the thread the map holds for
    the current thread's id, or else the first thread of the map. *)
Theorem falsy_threadId_is_not_preferred
    (d : StoppedDetails) (s : DebugSession)
    (Hfalsy : DebugProtocol.threadId d = None ∨ DebugProtocol.threadId d = Some 0) :
  updateCurrentThread (Some d) s = updateCurrentThread None s
  ∧ updateCurrentThread None s
    = setCurrentThread
        (match currentThread s ≫= (λ th, JsMap.get (DebugProtocol.id (DebugThread.raw th))
                                             (_threads s)) with
         | Some a => Some a
         | None => head (threads s)
         end) s.
Proof.
  apply truthy_num_false in Hfalsy. split.
  - unfold updateCurrentThread, focusThreadId.
    by rewrite Hfalsy, andb_false_r.
  - unfold updateCurrentThread, focusThreadId, focusCandidate.
    by destruct (currentThread s).
Qed.

Lemma falsy_threadId_is_not_preferred_witness :
  updateCurrentThread (Some (Sample.breakpoint_on (Some 0))) Sample.three_threads
  = updateCurrentThread None Sample.three_threads.
Proof.
  apply (falsy_threadId_is_not_preferred
           (Sample.breakpoint_on (Some 0)) Sample.three_threads).
  right. reflexivity.
Defined.

(** C10, as stated, fails: a session without threads receives a [stopped]
    event naming thread 0 with no focus hint; after the refresh the current
    thread is thread 0. *)
Lemma stopped_on_thread_zero_takes_focus :
  let s := steps Sample.stop_on_thread_zero Sample.fresh in
  _currentThread Sample.fresh = None
  ∧ (λ th, DebugProtocol.id (DebugThread.raw th)) <$> currentThread s = Some 0
  ∧ state s = Stopped.
Proof. vm_compute. done. Qed.

(** * The debounced threads refresh *)

Lemma requests_app (tr1 tr2 : list Effect) :
  requests (tr1 ++ tr2) = requests tr1 ++ requests tr2.
Proof. apply omap_app. Qed.

Lemma sent_run command args s :
  sent (run command args s)
  = sent s ++ [{| DebugProtocol.command := command; DebugProtocol.arguments := args |}].
Proof. unfold sent, run, emit. simpl. by rewrite requests_app. Qed.

Lemma step_trigger (t : Trigger) (s : DebugSession) :
  step s (trigger_step t) = with_timer (Some (trigger_details t)) s.
Proof. by destruct t. Qed.

Lemma steps_triggers (ts : list Trigger) (t : Trigger) (s : DebugSession) :
  steps (trigger_step <$> ts ++ [t]) s = with_timer (Some (trigger_details t)) s.
Proof.
  unfold steps. revert s. induction ts as [|t' ts IH]; intros s.
  - simpl. apply step_trigger.
  - cbn [app fmap list_fmap foldl]. rewrite step_trigger. by rewrite IH.
Qed.

Lemma elapsed_after_trigger (d : option StoppedDetails) (s : DebugSession) :
  resolveThreads_elapsed (with_timer (Some d) s)
  = with_awaiting (awaiting s ++ [d]) (run "threads" ∅ (with_timer None s)).
Proof. reflexivity. Qed.

Lemma delete_last_index {A} (l : list A) (x : A) : delete (length l) (l ++ [x]) = l.
Proof. induction l as [|y l IH]; [done |]. simpl. by rewrite IH. Qed.

(** C4: any number of refresh triggers ([ts] followed by a last one [t], so
    at least one), whether from [stopped], from [thread] with reason
    [started] or from the configuration done notification, arriving before
    the debounce timer elapses, make the timer send exactly one [threads]
    request; its continuation holds the stopped details of the last trigger,
    which is what [updateThreads] receives when the response arrives; and
    the timer is then idle, so that its elapsing again sends nothing. *)
Theorem debounced_triggers_send_one_request :
  ∀ (ts : list Trigger) (t : Trigger) (s : DebugSession),
    let s' := steps ((trigger_step <$> ts ++ [t]) ++ [DebounceElapsed]) s in
    sent s' = sent s ++ [threads_request]
    ∧ awaiting s' = awaiting s ++ [trigger_details t]
    ∧ resolveThreads_timer s' = None
    ∧ step s' DebounceElapsed = s'
    ∧ (∀ raws, step s' (ThreadsResponse (length (awaiting s)) (Some raws))
               = updateThreads raws (trigger_details t) (with_awaiting (awaiting s) s')).
Proof.
  intros ts t s s'. subst s'.
  unfold steps. rewrite foldl_app. fold (steps (trigger_step <$> ts ++ [t]) s).
  rewrite steps_triggers. cbn [foldl step]. rewrite elapsed_after_trigger.
  split_and!.
  - unfold sent. cbn. by rewrite requests_app.
  - done.
  - done.
  - done.
  - intros raws. unfold resolveThreads_response. cbn [awaiting with_awaiting].
    rewrite lookup_app_r, Nat.sub_diag by done. cbn [lookup list_lookup].
    by rewrite delete_last_index.
Qed.

(** * Capabilities *)

Lemma lookup_Object_assign (target source : gmap string Value) (k : string) :
  Object_assign target source !! k
  = match source !! k with
    | Some v => Some v
    | None => target !! k
    end.
Proof.
  unfold Object_assign. rewrite lookup_union.
  by destruct (source !! k), (target !! k).
Qed.

Lemma capabilities_initialize adapter args s :
  capabilities (initialize adapter args s).2
  = match adapter (sessionId s) (sent (run "initialize" args s)) with
    | DebugProtocol.Success body => default ∅ body
    | DebugProtocol.Failure _ => capabilities s
    end.
Proof.
  unfold initialize, sendRequest.
  change (sessionId (run "initialize" args s)) with (sessionId s).
  by destruct (adapter _ _).
Qed.

(** C2 (amended): a [capabilities] event merges the announced fields into
    the record, new values replacing old ones of the same name and all other
    fields being kept, so that merging [{a:1}] then [{b:2}] gives
    [{a:1,b:2}] and merging [{a:3}] after gives [{a:3,b:2}]; a successful
    [initialize] response replaces the record by the response body (by the
    empty record when the body is absent), and a failed one leaves it as it
    was. *)
Theorem capabilities_merged_by_event_replaced_by_initialize :
  (∀ caps s k,
     capabilities (on (capabilities_event caps) s) !! k
     = match caps !! k with
       | Some v => Some v
       | None => capabilities s !! k
       end)
  ∧ (let s1 := on (capabilities_event {[ "a" := VNum 1 ]}) Sample.fresh in
     let s2 := on (capabilities_event {[ "b" := VNum 2 ]}) s1 in
     let s3 := on (capabilities_event {[ "a" := VNum 3 ]}) s2 in
     capabilities s2 = <[ "a" := VNum 1 ]> {[ "b" := VNum 2 ]}
     ∧ capabilities s3 = <[ "a" := VNum 3 ]> {[ "b" := VNum 2 ]})
  ∧ (∀ adapter args s,
       capabilities (initialize adapter args s).2
       = match adapter (sessionId s) (sent s ++ [{| DebugProtocol.command := "initialize";
                                                   DebugProtocol.arguments := args |}]) with
         | DebugProtocol.Success body => default ∅ body
         | DebugProtocol.Failure _ => capabilities s
         end).
Proof.
  split_and!.
  - intros caps s k. apply lookup_Object_assign.
  - split; apply map_eq; intros k; cbn [on updateCapabilities capabilities with_capabilities];
      rewrite !lookup_Object_assign;
      destruct (decide (k = "a")) as [->|Ha]; [done | | done |];
      (destruct (decide (k = "b")) as [->|Hb]; [done |]);
      by rewrite ?lookup_insert_ne, ?lookup_singleton_ne, ?lookup_empty by done.
  - intros adapter args s. rewrite capabilities_initialize. by rewrite sent_run.
Qed.

(** C2, as stated, fails on the [initialize] path: a session whose
    capabilities are [{a:1}] receives a successful [initialize] response with
    body [{b:2}]; the record is then [{b:2}], the field [a] is gone. *)
Lemma initialize_replaces_capabilities :
  let s' := (initialize Sample.answers_b2 INITIALIZE_ARGUMENTS Sample.knows_a1).2 in
  capabilities Sample.knows_a1 !! "a" = Some (VNum 1)
  ∧ capabilities s' !! "a" = None
  ∧ capabilities s' !! "b" = Some (VNum 2)
  ∧ capabilities s' ≠ Object_assign (capabilities Sample.knows_a1) {[ "b" := VNum 2 ]}.
Proof.
  split_and!; [done | done | done |].
  intros Heq. apply (f_equal (λ m : gmap string Value, m !! "a")) in Heq.
  by vm_compute in Heq.
Qed.

(** * Pausing and continuing all threads *)

Lemma Promise_all_logged (rs : list DebugProtocol.Response) :
  Promise_all ((logged <$> rs).*1) = Resolved ().
Proof. induction rs as [|[body|message] rs IH]; simpl; done. Qed.

Lemma requests_logged (rs : list DebugProtocol.Response) :
  requests (concat ((logged <$> rs).*2)) = [].
Proof. induction rs as [|[body|message] rs IH]; simpl; done. Qed.

Lemma trace_emit_all (rs : list DebugProtocol.Request) (s : DebugSession) :
  trace (foldl (λ s r, emit (Sent r) s) s rs) = trace s ++ (Sent <$> rs).
Proof.
  revert s. induction rs as [|r rs IH]; intros s; simpl.
  - by rewrite app_nil_r.
  - rewrite IH. simpl. by rewrite <- app_assoc.
Qed.

Lemma requests_Sent (rs : list DebugProtocol.Request) : requests (Sent <$> rs) = rs.
Proof. induction rs as [|r rs IH]; simpl; [done |]. by f_equal. Qed.

Lemma length_omap_total {A B} (f : A → option B) (l : list A) :
  Forall (λ a, is_Some (f a)) l → length (omap f l) = length l.
Proof.
  induction 1 as [|a l [b Hb] _ IH]; [done |].
  cbn. rewrite Hb. cbn. by rewrite IH.
Qed.

Lemma length_thread_requests (request : DebugThread.t → DebugProtocol.Request)
    (st : DebugState) (s : DebugSession) :
  length (omap (λ a, request <$> heap s !! a) (getThreadsForState st s))
  = length (getThreadsForState st s).
Proof.
  apply length_omap_total, Forall_forall. intros a.
  unfold getThreadsForState, getThreads. rewrite list_elem_of_filter.
  intros [Hst _]. destruct (heap s !! a); [by eexists | done].
Qed.

Lemma requestAll_spec adapter st request s :
  (requestAll adapter st request s).1 = Resolved ()
  ∧ sent (requestAll adapter st request s).2
    = sent s ++ omap (λ a, request <$> heap s !! a) (getThreadsForState st s).
Proof.
  unfold requestAll. cbn [fst snd]. split.
  - apply Promise_all_logged.
  - unfold sent. cbn [trace with_trace].
    by rewrite requests_app, requests_logged, app_nil_r, trace_emit_all,
      requests_app, requests_Sent.
Qed.

(** C6: [pauseAll] sends one [pause] request for every thread of the map in
    state [Running], [continueAll] one [continue] request for every thread in
    state [Stopped], and nothing else; both resolve whatever the adapter
    answers, a failed answer being written to the console.  Over threads A
    (running), B (stopped) and C (running), with an adapter that fails the
    request for A, [pauseAll] sends two requests, for A and for C, logs one
    error and resolves. *)
Theorem pauseAll_continueAll_never_reject :
  (∀ adapter s,
     (pauseAll adapter s).1 = Resolved ()
     ∧ sent (pauseAll adapter s).2
       = sent s ++ omap (λ a, DebugThread.pause_request <$> heap s !! a)
                     (getThreadsForState Running s)
     ∧ length (sent (pauseAll adapter s).2)
       = (length (sent s) + length (getThreadsForState Running s))%nat)
  ∧ (∀ adapter s,
       (continueAll adapter s).1 = Resolved ()
       ∧ sent (continueAll adapter s).2
         = sent s ++ omap (λ a, DebugThread.continue_request <$> heap s !! a)
                       (getThreadsForState Stopped s)
       ∧ length (sent (continueAll adapter s).2)
         = (length (sent s) + length (getThreadsForState Stopped s))%nat)
  ∧ (let r := pauseAll Sample.fails_on_thread_1 Sample.three_threads in
     r.1 = Resolved ()
     ∧ sent r.2 = [ {| DebugProtocol.command := "pause";
                       DebugProtocol.arguments := {[ "threadId" := VNum 1 ]} |};
                    {| DebugProtocol.command := "pause";
                       DebugProtocol.arguments := {[ "threadId" := VNum 3 ]} |} ]
     ∧ trace r.2 = (Sent <$> sent r.2) ++ [ConsoleError (Some "thread is stuck")]).
Proof.
  split_and!.
  - intros adapter s. unfold pauseAll.
    destruct (requestAll_spec adapter Running DebugThread.pause_request s) as [Hr Hs].
    split_and!; [done | done |].
    by rewrite Hs, length_app, length_thread_requests.
  - intros adapter s. unfold continueAll.
    destruct (requestAll_spec adapter Stopped DebugThread.continue_request s) as [Hr Hs].
    split_and!; [done | done |].
    by rewrite Hs, length_app, length_thread_requests.
  - vm_compute. done.
Qed.

(** * Removing sessions from the manager *)

Lemma active_setActiveDebugSession_None m :
  DebugSessionManager.activeDebugSessionId (DebugSessionManager.setActiveDebugSession None m)
  = None.
Proof.
  unfold DebugSessionManager.setActiveDebugSession. cbn [truthy_str andb].
  destruct (decide (DebugSessionManager.activeDebugSessionId m ≠ None)) as [Hne|Heq];
    [done | by apply dec_stable in Heq].
Qed.

Lemma active_setActiveDebugSession_found k m :
  is_Some (DebugSessionManager.find k m) →
  DebugSessionManager.activeDebugSessionId
    (DebugSessionManager.setActiveDebugSession (Some k) m) = Some k.
Proof.
  intros [a Ha]. unfold DebugSessionManager.setActiveDebugSession.
  cbn [mbind option_bind]. rewrite Ha.
  rewrite bool_decide_eq_false_2, andb_false_r by done.
  destruct (decide (DebugSessionManager.activeDebugSessionId m ≠ Some k)) as [Hne|Heq];
    [done | by apply dec_stable in Heq].
Qed.

Lemma sessions_setActiveDebugSession x m :
  DebugSessionManager.sessions (DebugSessionManager.setActiveDebugSession x m)
  = DebugSessionManager.sessions m.
Proof.
  unfold DebugSessionManager.setActiveDebugSession.
  destruct (_ && _); [done |]. by case_decide.
Qed.

Lemma sessions_remove sessionId m :
  DebugSessionManager.sessions (DebugSessionManager.remove sessionId m)
  = JsMap.delete sessionId (DebugSessionManager.sessions m).
Proof.
  unfold DebugSessionManager.remove.
  repeat (case_match || case_decide); try done;
    by rewrite sessions_setActiveDebugSession.
Qed.

Lemma truthy_str_Some (x : string) : truthy_str (Some x) = true ↔ x ≠ "".
Proof.
  simpl. rewrite negb_true_iff. split.
  - intros Hx ->. done.
  - intros Hx. by apply String.eqb_neq.
Qed.

Lemma active_remove_congr sessionId m1 m2 :
  DebugSessionManager.activeDebugSessionId m1 = DebugSessionManager.activeDebugSessionId m2 →
  DebugSessionManager.sessions m1 = DebugSessionManager.sessions m2 →
  DebugSessionManager.activeDebugSessionId (DebugSessionManager.remove sessionId m1)
  = DebugSessionManager.activeDebugSessionId (DebugSessionManager.remove sessionId m2).
Proof.
  intros Hact Hses.
  unfold DebugSessionManager.remove, DebugSessionManager.setActiveDebugSession,
    DebugSessionManager.find.
  cbn [DebugSessionManager.activeDebugSessionId DebugSessionManager.sessions
       DebugSessionManager.with_sessions].
  rewrite Hact, Hses.
  repeat (case_match || case_decide); done.
Qed.

Lemma active_remove_active sessionId m :
  DebugSessionManager.activeDebugSessionId m = Some sessionId →
  sessionId ≠ "" →
  DebugSessionManager.activeDebugSessionId (DebugSessionManager.remove sessionId m)
  = head (JsMap.keys (JsMap.delete sessionId (DebugSessionManager.sessions m))).
Proof.
  intros Hact Hid. unfold DebugSessionManager.remove.
  cbn [DebugSessionManager.activeDebugSessionId DebugSessionManager.sessions
       DebugSessionManager.with_sessions].
  rewrite Hact. rewrite (proj2 (truthy_str_Some sessionId) Hid).
  rewrite decide_True by done.
  destruct (JsMap.delete sessionId (DebugSessionManager.sessions m)) as [|[k a] rest] eqn:Hdel.
  - rewrite decide_False by (intros Hsz; by apply Hsz).
    apply active_setActiveDebugSession_None.
  - rewrite decide_True by done.
    change (head (JsMap.keys ((k, a) :: rest))) with (Some k).
    apply active_setActiveDebugSession_found.
    unfold DebugSessionManager.find.
    cbn [DebugSessionManager.sessions DebugSessionManager.with_sessions JsMap.get].
    rewrite decide_True by done. by eexists.
Qed.

Lemma remove_not_active sessionId m :
  DebugSessionManager.activeDebugSessionId m ≠ Some sessionId →
  DebugSessionManager.remove sessionId m
  = DebugSessionManager.with_sessions
      (JsMap.delete sessionId (DebugSessionManager.sessions m)) m.
Proof.
  intros Hact. unfold DebugSessionManager.remove.
  cbn [DebugSessionManager.activeDebugSessionId DebugSessionManager.with_sessions].
  destruct (truthy_str _); [| done]. by rewrite decide_False.
Qed.

(** C8 (amended): [remove] deletes the session from the map.  If the active
    pointer names the removed session and that id is not the empty string,
    the pointer afterwards names the first of the remaining sessions (which
    are otherwise untouched, and which [currentSession] then returns unless
    its id is the empty string), or is cleared when none remains.  If the
    pointer does not name the removed session, only the map changes.
    [doDestroy] updates the map and the pointer exactly as [remove] of the
    destroyed session's id does. *)
Theorem remove_repoints_active_session :
  ∀ (id : string) (m : DebugSessionManager.t),
    let m' := DebugSessionManager.remove id m in
    DebugSessionManager.sessions m' = JsMap.delete id (DebugSessionManager.sessions m)
    ∧ (DebugSessionManager.activeDebugSessionId m = Some id →
       id ≠ "" →
       match JsMap.keys (DebugSessionManager.sessions m') with
       | k :: _ =>
           DebugSessionManager.activeDebugSessionId m' = Some k
           ∧ k ≠ id
           ∧ is_Some (DebugSessionManager.find k m)
           ∧ DebugSessionManager.find k m' = DebugSessionManager.find k m
           ∧ (k ≠ "" → DebugSessionManager.currentSession m' = DebugSessionManager.find k m)
       | [] => DebugSessionManager.activeDebugSessionId m' = None
       end)
    ∧ (DebugSessionManager.activeDebugSessionId m ≠ Some id →
       DebugSessionManager.activeDebugSessionId m' = DebugSessionManager.activeDebugSessionId m)
    ∧ (∀ a session,
         DebugSessionManager.objects m !! a = Some session →
         DebugSessionManager.sessions (DebugSessionManager.doDestroy a m)
         = JsMap.delete (sessionId session) (DebugSessionManager.sessions m)
         ∧ DebugSessionManager.activeDebugSessionId (DebugSessionManager.doDestroy a m)
           = DebugSessionManager.activeDebugSessionId
               (DebugSessionManager.remove (sessionId session) m)).
Proof.
  intros sid m m'. subst m'. split_and!.
  - apply sessions_remove.
  - intros Hact Hid. rewrite sessions_remove.
    pose proof (active_remove_active sid m Hact Hid) as Hhead.
    pose proof (JsMap_keys_delete sid (DebugSessionManager.sessions m)) as Hkeys.
    destruct (JsMap.keys (JsMap.delete sid (DebugSessionManager.sessions m)))
      as [|k ks] eqn:Hk; [done |].
    cbn [head] in Hhead.
    assert (Hin : k ∈ filter (λ k', sid ≠ k') (JsMap.keys (DebugSessionManager.sessions m))).
    { rewrite <- Hkeys. apply list_elem_of_here. }
    apply list_elem_of_filter in Hin as [Hne Hin].
    assert (Hfind : DebugSessionManager.find k (DebugSessionManager.remove sid m)
                    = DebugSessionManager.find k m).
    { unfold DebugSessionManager.find. rewrite sessions_remove.
      by apply JsMap_get_delete_ne. }
    split_and!; [done | done | by apply JsMap_get_is_Some | done |].
    intros Hk0. unfold DebugSessionManager.currentSession.
    rewrite Hhead, (proj2 (truthy_str_Some k) Hk0). apply Hfind.
  - intros Hact. by rewrite remove_not_active.
  - intros a session Ha. unfold DebugSessionManager.doDestroy. rewrite Ha.
    split.
    + change (DebugSessionManager.sessions (DebugSessionManager.fire ?n ?x))
        with (DebugSessionManager.sessions x).
      by rewrite sessions_remove.
    + change (DebugSessionManager.activeDebugSessionId (DebugSessionManager.fire ?n ?x))
        with (DebugSessionManager.activeDebugSessionId x).
      by apply active_remove_congr.
Qed.

(** C8, as stated, fails for the empty session id.  With the pointer naming
    a registered session whose id is the empty string, removing that session
    leaves the pointer on it although session [b] remains; and removing the
    active session [a] when the remaining session has the empty id makes
    [currentSession] return nothing. *)
Lemma remove_with_empty_session_id :
  (let m' := DebugSessionManager.remove "" SampleManager.empty_id_active in
   DebugSessionManager.activeDebugSessionId SampleManager.empty_id_active = Some ""
   ∧ DebugSessionManager.find "" SampleManager.empty_id_active = Some 0%nat
   ∧ DebugSessionManager.sessions m' = [("b", 1%nat)]
   ∧ DebugSessionManager.activeDebugSessionId m' = Some "")
  ∧ (let m' := DebugSessionManager.remove "a" SampleManager.empty_id_remaining in
     DebugSessionManager.currentSession SampleManager.empty_id_remaining = Some 0%nat
     ∧ DebugSessionManager.sessions m' = [("", 1%nat)]
     ∧ DebugSessionManager.currentSession m' = None).
Proof. vm_compute. done. Qed.

Example remove_active_of_two :
  DebugSessionManager.activeDebugSessionId
    (DebugSessionManager.doDestroy 0 SampleManager.two_sessions) = Some "b"
  ∧ DebugSessionManager.activeDebugSessionId
      (DebugSessionManager.doDestroy 1 (DebugSessionManager.doDestroy 0 SampleManager.two_sessions))
    = None
  ∧ DebugSessionManager.activeDebugSessionId
      (DebugSessionManager.doDestroy 1 SampleManager.two_sessions) = Some "a".
Proof. vm_compute. done. Qed.

(** * Creating a session with an unsupported request kind *)

Lemma launchOrAttach_unsupported adapter a m session :
  DebugSessionManager.objects m !! a = Some session →
  configuration session !! "request" ≠ Some (VStr "attach") →
  configuration session !! "request" ≠ Some (VStr "launch") →
  DebugSessionManager.launchOrAttach adapter a m
  = (Rejected (ErrorObject ("Unsupported request '"
                            +:+ to_string (configuration session !! "request")
                            +:+ "' type.")), m).
Proof.
  intros Ha Hattach Hlaunch. unfold DebugSessionManager.launchOrAttach.
  rewrite Ha. by rewrite !decide_False by done.
Qed.

(** C3 (amended): for a configuration whose request kind is neither
    [launch] nor [attach], [create] resolves with the new session, which is
    the object the constructor builds, with no request sent on its
    connection, and which is registered under its id; the active pointer and
    the objects of the other sessions are left as they were.  The
    [launchOrAttach] that [create] starts, and does not await, rejects with
    the error "Unsupported request '...' type." without changing anything. *)
Theorem create_unsupported_request
    (adapter : Adapter) (sessionId : string) (debugConfiguration : gmap string Value)
    (m : DebugSessionManager.t)
    (Hattach : debugConfiguration !! "request" ≠ Some (VStr "attach"))
    (Hlaunch : debugConfiguration !! "request" ≠ Some (VStr "launch")) :
  let r := DebugSessionManager.create sessionId debugConfiguration m in
  let a := length (DebugSessionManager.objects m) in
  r.1 = Resolved a
  ∧ DebugSessionManager.objects r.2
    = DebugSessionManager.objects m ++ [new_DebugSession sessionId debugConfiguration]
  ∧ sent (new_DebugSession sessionId debugConfiguration) = []
  ∧ DebugSessionManager.find sessionId r.2 = Some a
  ∧ DebugSessionManager.activeDebugSessionId r.2 = DebugSessionManager.activeDebugSessionId m
  ∧ DebugSessionManager.launchOrAttach adapter a r.2
    = (Rejected (ErrorObject ("Unsupported request '"
                              +:+ to_string (debugConfiguration !! "request")
                              +:+ "' type.")), r.2).
Proof.
  intros r a. subst r a.
  set (a := length (DebugSessionManager.objects m)).
  set (m1 := DebugSessionManager.fire (DebugSessionManager.DidCreateDebugSession a)
               (DebugSessionManager.with_sessions
                  (JsMap.set sessionId a (DebugSessionManager.sessions m))
                  (DebugSessionManager.with_objects
                     (DebugSessionManager.objects m
                      ++ [new_DebugSession sessionId debugConfiguration])
                     (DebugSessionManager.fire
                        (DebugSessionManager.DidPreCreateDebugSession sessionId) m)))).
  assert (Hobj : DebugSessionManager.objects m1 !! a
                 = Some (new_DebugSession sessionId debugConfiguration)).
  { subst m1 a. cbn. by rewrite lookup_app_r, Nat.sub_diag. }
  pose proof (launchOrAttach_unsupported adapter a m1 _ Hobj Hattach Hlaunch) as Hrej.
  assert (Hcreate : DebugSessionManager.create sessionId debugConfiguration m
                    = (Resolved a, m1)).
  { change (DebugSessionManager.create sessionId debugConfiguration m)
      with (Resolved (A := nat) a, DebugSessionManager.launchOrAttach_started a m1).
    unfold DebugSessionManager.launchOrAttach_started. rewrite Hobj.
    cbn [configuration new_DebugSession]. by rewrite !decide_False by done. }
  rewrite Hcreate. cbn [fst snd].
  split_and!; [done | done | done | | done | done].
  unfold DebugSessionManager.find. subst m1. cbn. apply JsMap_get_set_eq.
Qed.

Lemma create_unsupported_request_witness :
  (DebugSessionManager.create "s1" SampleManager.bogus
     DebugSessionManager.new).1 = Resolved 0%nat.
Proof.
  apply (create_unsupported_request Sample.accepts_all "s1" SampleManager.bogus
           DebugSessionManager.new).
  - vm_compute. done.
  - vm_compute. done.
Defined.

(** C3, as stated, fails: [create] with the request kind [bogus] does not
    reject, it resolves with the session, and the session is in the map. *)
Lemma create_bogus_resolves :
  let r := DebugSessionManager.create "s1" SampleManager.bogus
             DebugSessionManager.new in
  SampleManager.bogus !! "request" = Some (VStr "bogus")
  ∧ (∀ e, r.1 ≠ Rejected e)
  ∧ r.1 = Resolved 0%nat
  ∧ DebugSessionManager.find "s1" r.2 = Some 0%nat.
Proof. vm_compute. split_and!; done. Qed.

(** * More facts about insertion-ordered maps *)

Section JsMapMore.
Context {K V : Type} `{EqDecision K}.
Implicit Types (k : K) (v : V) (m : list (K * V)).

Lemma JsMap_get_Some_values k v m : JsMap.get k m = Some v → v ∈ JsMap.values m.
Proof.
  unfold JsMap.values. induction m as [|[k' v'] m IH]; simpl; [done |].
  destruct (decide (k = k')) as [->|Hne].
  - intros [= ->]. apply list_elem_of_here.
  - intros Hg. apply list_elem_of_further, IH, Hg.
Qed.

Lemma JsMap_values_set k v m x :
  x ∈ JsMap.values (JsMap.set k v m) → x = v ∨ x ∈ JsMap.values m.
Proof.
  unfold JsMap.values. induction m as [|[k' v'] m IH]; simpl.
  - intros ?%list_elem_of_singleton. by left.
  - destruct (decide (k = k')) as [->|Hne]; simpl; rewrite !elem_of_cons.
    + intros [?|?]; [by left | right; by right].
    + intros [?|Hx]; [right; by left |].
      destruct (IH Hx) as [?|?]; [by left | right; by right].
Qed.

Lemma JsMap_keys_set k v m :
  JsMap.keys (JsMap.set k v m)
  = if decide (k ∈ JsMap.keys m) then JsMap.keys m else JsMap.keys m ++ [k].
Proof.
  unfold JsMap.keys. induction m as [|[k' v'] m IH]; cbn [JsMap.set fmap list_fmap].
  - rewrite decide_False; [done | apply not_elem_of_nil].
  - destruct (decide (k = k')) as [->|Hne]; cbn [fmap list_fmap fst].
    + rewrite decide_True; [done | apply list_elem_of_here].
    + rewrite IH. destruct (decide (k ∈ m.*1)) as [Hin|Hout].
      * rewrite decide_True; [done | by apply list_elem_of_further].
      * rewrite decide_False; [done |]. by intros [?|?]%elem_of_cons.
Qed.

Lemma JsMap_NoDup_set k v m :
  NoDup (JsMap.keys m) → NoDup (JsMap.keys (JsMap.set k v m)).
Proof.
  intros Hnd. rewrite JsMap_keys_set. case_decide as Hin; [done |].
  apply NoDup_app. split_and!; [done | | apply NoDup_singleton].
  intros x Hx ->%list_elem_of_singleton. done.
Qed.

Lemma JsMap_delete_notin k m : k ∉ JsMap.keys m → JsMap.delete k m = m.
Proof.
  unfold JsMap.keys. induction m as [|[k' v'] m IH]; simpl; [done |].
  rewrite not_elem_of_cons. intros [Hne Hout].
  rewrite decide_False by done. by rewrite IH.
Qed.

Lemma JsMap_NoDup_delete k m :
  NoDup (JsMap.keys m) → NoDup (JsMap.keys (JsMap.delete k m)).
Proof. intros Hnd. rewrite JsMap_keys_delete. by apply NoDup_filter. Qed.

Lemma JsMap_head_values_get m v :
  head (JsMap.values m) = Some v → ∃ k, JsMap.get k m = Some v.
Proof.
  destruct m as [|[k' v'] m]; simpl; [done |].
  intros [= ->]. exists k'. by rewrite decide_True.
Qed.

End JsMapMore.

Lemma filter_none {A} (P : A → Prop) `{∀ x, Decision (P x)} (l : list A) :
  (∀ x, x ∈ l → ¬ P x) → filter P l = [].
Proof.
  induction l as [|x l IH]; intros Hall; [done |].
  rewrite filter_cons_False by (apply Hall, list_elem_of_here).
  apply IH. intros y Hy. by apply Hall, list_elem_of_further.
Qed.

(** * Stopped details after a refresh *)

Lemma updateThreads_step_details existing sd h0 m0 (r : DebugProtocol.Thread) h1 m1 :
  updateThreads_step existing sd (h0, m0) r = (h1, m1) →
  (∀ a th, a ∈ JsMap.values m0 → h0 !! a = Some th →
           DebugThread.stoppedDetails th = details_for sd (DebugThread.raw th)) →
  ∀ a th, a ∈ JsMap.values m1 → h1 !! a = Some th →
          DebugThread.stoppedDetails th = details_for sd (DebugThread.raw th).
Proof.
  intros Hstep Hold a th Hin Hl.
  assert (Hupd : ∀ (h : list DebugThread.t) (b : nat),
            alter (DebugThread.update r (details_for sd r)) b h !! b = Some th →
                        DebugThread.stoppedDetails th = details_for sd (DebugThread.raw th)).
  { intros h b. rewrite list_lookup_alter_eq.
    destruct (h !! b); [| done]. by intros [= <-]. }
  unfold updateThreads_step in Hstep.
  change (match sd with
          | Some d => if decide (DebugProtocol.threadId d = Some (DebugProtocol.id r))
                      then Some d else None
          | None => None
          end) with (details_for sd r) in Hstep.
  destruct (JsMap.get (DebugProtocol.id r) existing) as [b|];
    injection Hstep as <- <-.
  - destruct (decide (a = b)) as [->|Hne]; [by eapply Hupd |].
    rewrite list_lookup_alter_ne in Hl by done.
    apply JsMap_values_set in Hin as [?|Hin]; [done |]. by eapply Hold.
  - destruct (decide (a = length h0)) as [->|Hne]; [by eapply Hupd |].
    rewrite list_lookup_alter_ne in Hl by done.
    apply JsMap_values_set in Hin as [?|Hin]; [done |].
    apply (Hold a th Hin).
    destruct (decide (a < length h0)%nat) as [Hlt|Hge].
    + by rewrite lookup_app_l in Hl.
    + apply lookup_lt_Some in Hl. rewrite length_app in Hl. simpl in Hl. lia.
Qed.

Lemma updateThreads_loop_details existing sd raws h0 m0 h m :
  foldl (updateThreads_step existing sd) (h0, m0) raws = (h, m) →
  (∀ a th, a ∈ JsMap.values m0 → h0 !! a = Some th →
           DebugThread.stoppedDetails th = details_for sd (DebugThread.raw th)) →
  ∀ a th, a ∈ JsMap.values m → h !! a = Some th →
          DebugThread.stoppedDetails th = details_for sd (DebugThread.raw th).
Proof.
  revert h0 m0. induction raws as [|r raws IH]; intros h0 m0; cbn [foldl].
  - by intros [= <- <-].
  - destruct (updateThreads_step existing sd (h0, m0) r) as [h1 m1] eqn:Hstep.
    intros Hloop Hold. eapply IH; [done |].
    by eapply updateThreads_step_details.
Qed.

Lemma focusCandidate_in_threads x s a : focusCandidate x s = Some a → a ∈ threads s.
Proof.
  unfold focusCandidate.
  destruct (x ≫= _) as [b|] eqn:Hget.
  - intros [= <-]. destruct x as [i|]; [| done]. by eapply JsMap_get_Some_values.
  - intros Hhead. by eapply head_Some_elem_of.
Qed.

Lemma updateThreads_current raws sd s h m a :
  foldl (updateThreads_step (_threads s) sd) (heap s, []) raws = (h, m) →
  _currentThread (updateThreads raws sd s) = Some a →
  a ∈ JsMap.values m ∧ DebugThread.state <$> h !! a = Some Stopped.
Proof.
  intros Hloop. unfold updateThreads. rewrite Hloop.
  unfold updateCurrentThread, setCurrentThread.
  rewrite currentThread_doSetCurrentThread.
  intros [Hcand Hst]%stopped_or_undefined_Some. split; [| done].
  by apply focusCandidate_in_threads in Hcand.
Qed.

Lemma updateThreads_details_of_map :
  ∀ (raws : list DebugProtocol.Thread) (stoppedDetails : option StoppedDetails)
    (s : DebugSession) (a : nat) (th : DebugThread.t),
    let s' := updateThreads raws stoppedDetails s in
    a ∈ threads s' → heap s' !! a = Some th →
    DebugThread.stoppedDetails th = details_for stoppedDetails (DebugThread.raw th)
    ∧ (DebugThread.state th = Stopped ↔
       ∃ d, stoppedDetails = Some d
            ∧ DebugProtocol.threadId d = Some (DebugProtocol.id (DebugThread.raw th))).
Proof.
  intros raws sd s a th s'. subst s'.
  destruct (foldl (updateThreads_step (_threads s) sd) (heap s, []) raws)
    as [h m] eqn:Hloop.
  destruct (updateThreads_fields _ _ _ _ _ Hloop) as [Hh Hm].
  unfold threads. rewrite Hh, Hm. intros Hin Hl.
  assert (Hd : DebugThread.stoppedDetails th = details_for sd (DebugThread.raw th)).
  { eapply (updateThreads_loop_details _ _ _ _ _ _ _ Hloop); [| done | done].
    by intros ? ? ?%elem_of_nil. }
  split; [done |]. unfold DebugThread.state. rewrite Hd. unfold details_for.
  destruct sd as [d|].
  - case_decide as Hname.
    + split; [intros _; by exists d | done].
    + split; [done | intros (d' & [= <-] & ?); done].
  - split; [done | intros (d' & ? & ?); done].
Qed.

(** X1: after a refresh of the thread map, a thread of the map has stopped
    details exactly when the refresh carried stopped details naming its id,
    and then they are those details: every other thread, whatever it held
    before, is [Running]. *)
Theorem refresh_stops_only_the_named_thread :
  ∀ (raws : list DebugProtocol.Thread) (stoppedDetails : option StoppedDetails)
    (s : DebugSession) (a : nat) (th : DebugThread.t),
    let s' := updateThreads raws stoppedDetails s in
    a ∈ threads s' → heap s' !! a = Some th →
    DebugThread.stoppedDetails th = details_for stoppedDetails (DebugThread.raw th)
    ∧ (DebugThread.state th = Stopped ↔
       ∃ d, stoppedDetails = Some d
            ∧ DebugProtocol.threadId d = Some (DebugProtocol.id (DebugThread.raw th))).
Proof. apply updateThreads_details_of_map. Qed.

Lemma refresh_stops_only_the_named_thread_witness :
  let s' := updateThreads [Sample.main_thread] (Some (Sample.breakpoint_on (Some 0)))
              Sample.fresh in
  ∃ th, heap s' !! 0%nat = Some th
        ∧ DebugThread.stoppedDetails th = Some (Sample.breakpoint_on (Some 0)).
Proof.
  eexists. split; [reflexivity |].
  apply (refresh_stops_only_the_named_thread [Sample.main_thread]
           (Some (Sample.breakpoint_on (Some 0))) Sample.fresh 0%nat).
  - vm_compute. apply list_elem_of_here.
  - reflexivity.
Defined.

(** X2: the current thread after a refresh is absent or is the thread the
    stopped details name, with those details, also when [preserveFocusHint]
    is set; a refresh without stopped details (after [thread started] or the
    configuration done notification) leaves no current thread, no stopped
    thread and the session [Inactive]. *)
Theorem refresh_focus_is_named_thread_or_none :
  ∀ (raws : list DebugProtocol.Thread) (stoppedDetails : option StoppedDetails)
    (s : DebugSession),
    (∀ a, _currentThread (updateThreads raws stoppedDetails s) = Some a →
          ∃ th d, heap (updateThreads raws stoppedDetails s) !! a = Some th
                  ∧ stoppedDetails = Some d
                  ∧ DebugProtocol.threadId d = Some (DebugProtocol.id (DebugThread.raw th))
                  ∧ DebugThread.stoppedDetails th = Some d)
    ∧ _currentThread (updateThreads raws None s) = None
    ∧ state (updateThreads raws None s) = Inactive
    ∧ getThreadsForState Stopped (updateThreads raws None s) = [].
Proof.
  intros raws sd s.
  assert (Hcur : ∀ sd a, _currentThread (updateThreads raws sd s) = Some a →
            ∃ th d, heap (updateThreads raws sd s) !! a = Some th
                    ∧ sd = Some d
                    ∧ DebugProtocol.threadId d = Some (DebugProtocol.id (DebugThread.raw th))
                    ∧ DebugThread.stoppedDetails th = Some d).
  { clear sd. intros sd a Hc.
    destruct (foldl (updateThreads_step (_threads s) sd) (heap s, []) raws)
      as [h m] eqn:Hloop.
    destruct (updateThreads_current _ _ _ _ _ _ Hloop Hc) as [Hin Hst].
    destruct (updateThreads_fields _ _ _ _ _ Hloop) as [Hh Hm].
    rewrite Hh. destruct (h !! a) as [th|] eqn:Hl; [| done].
    injection Hst as Hst.
    assert (Hin' : a ∈ threads (updateThreads raws sd s)) by (unfold threads; by rewrite Hm).
    assert (Hl' : heap (updateThreads raws sd s) !! a = Some th) by (by rewrite Hh).
    destruct (updateThreads_details_of_map raws sd s a th Hin' Hl') as [Hd Hiff].
    apply Hiff in Hst as (d & -> & Hname). exists th, d.
    split_and!; [done | done | done |].
    rewrite Hd. unfold details_for. by rewrite decide_True. }
  assert (Hnone : _currentThread (updateThreads raws None s) = None).
  { destruct (_currentThread (updateThreads raws None s)) as [a|] eqn:Hc; [| done].
    by destruct (Hcur None a Hc) as (? & ? & _ & ? & _). }
  split_and!; [apply Hcur | done | |].
  - unfold state, currentThread. by rewrite Hnone.
  - apply filter_none. intros a Hin Hf.
    destruct (heap (updateThreads raws None s) !! a) as [th|] eqn:Hl; [| done].
    apply bool_decide_unpack in Hf.
    destruct (updateThreads_details_of_map raws None s a th Hin Hl) as [_ Hiff].
    by apply Hiff in Hf as (d & ? & _).
Qed.

(** * Consistency of the thread map *)

Lemma session_ok_ext s s' :
  heap s' = heap s → _threads s' = _threads s → _currentThread s' = _currentThread s →
  session_ok s → session_ok s'.
Proof.
  intros Hh Hm Hc (Hwf & Hin & Hok).
  unfold session_ok, threads_wf, current_in_map, current_ok.
  by rewrite Hh, Hm, Hc.
Qed.

Lemma threads_wf_inj s i j a :
  threads_wf s → JsMap.get i (_threads s) = Some a → JsMap.get j (_threads s) = Some a → i = j.
Proof.
  intros [_ Hwf] Hi Hj.
  destruct (Hwf i a Hi) as (th & Hth & <-).
  destruct (Hwf j a Hj) as (th' & Hth' & <-). congruence.
Qed.

Lemma updateCurrentThread_session_ok sd s :
  threads_wf s → session_ok (updateCurrentThread sd s).
Proof.
  intros Hwf. split_and!.
  - unfold threads_wf.
    by rewrite threads_updateCurrentThread, heap_updateCurrentThread.
  - intros a Hc. unfold updateCurrentThread, setCurrentThread in Hc.
    rewrite currentThread_doSetCurrentThread in Hc.
    apply stopped_or_undefined_Some in Hc as [Hcand _].
    rewrite threads_updateCurrentThread, heap_updateCurrentThread.
    assert (Hkey : ∃ i, JsMap.get i (_threads s) = Some a).
    { unfold focusCandidate in Hcand.
      destruct (focusThreadId sd s ≫= _) as [b|] eqn:Hget.
      - injection Hcand as ->. destruct (focusThreadId sd s) as [i|]; [| done]. by exists i.
      - by apply JsMap_head_values_get. }
    destruct Hkey as [i Hi]. destruct Hwf as [_ Hwf].
    destruct (Hwf i a Hi) as (th & Hth & <-). by exists th.
  - apply updateCurrentThread_ok.
Qed.

Lemma threads_wf_same_raw s h :
  (∀ a, DebugThread.raw <$> h !! a = DebugThread.raw <$> heap s !! a) →
  threads_wf s → threads_wf (with_heap h s).
Proof.
  intros Hraw [Hnd Hwf]. split; [done |]. intros i a Hi. cbn in *.
  destruct (Hwf i a Hi) as (th & Hth & Hid).
  specialize (Hraw a). rewrite Hth in Hraw.
  destruct (h !! a) as [th'|]; [| done]. injection Hraw as Hraw.
  exists th'. split; [done | congruence].
Qed.

Lemma clearThreads_session_ok s : threads_wf s → session_ok (clearThreads s).
Proof.
  intros Hwf. unfold clearThreads. apply updateCurrentThread_session_ok.
  apply threads_wf_same_raw; [| done]. intros a. rewrite lookup_clear_all.
  case_decide; [| done]. by destruct (heap s !! a).
Qed.

Lemma clearThread_session_ok threadId s : threads_wf s → session_ok (clearThread threadId s).
Proof.
  intros Hwf. unfold clearThread. apply updateCurrentThread_session_ok.
  apply threads_wf_same_raw; [| done]. intros a.
  destruct (JsMap.get threadId (_threads s)) as [b|]; [| done].
  rewrite lookup_alter_clear. case_decide; [| done]. by destruct (heap s !! a).
Qed.

Section UpdateThreadsConsistency.
Variable existing : list (Z * nat).
Variable stoppedDetails : option StoppedDetails.
Variable base : nat.
Hypothesis existing_valid : ∀ i a, JsMap.get i existing = Some a → (a < base)%nat.
Hypothesis existing_inj :
  ∀ i j a, JsMap.get i existing = Some a → JsMap.get j existing = Some a → i = j.

Local Abbreviation consistent := (threads_consistent existing base).

Lemma updateThreads_step_consistent h0 m0 (r : DebugProtocol.Thread) h1 m1 :
  updateThreads_step existing stoppedDetails (h0, m0) r = (h1, m1) →
  consistent h0 m0 → consistent h1 m1.
Proof.
  intros Hstep (Hbase & Hnd & Hinv). unfold updateThreads_step in Hstep.
  destruct (JsMap.get (DebugProtocol.id r) existing) as [b|] eqn:Hb;
    injection Hstep as <- <-; unfold threads_consistent; rewrite length_alter.
  - pose proof (existing_valid _ _ Hb) as Hlt.
    split_and!; [done | by apply JsMap_NoDup_set |].
    intros i a Hi. destruct (decide (i = DebugProtocol.id r)) as [->|Hne].
    + rewrite JsMap_get_set_eq in Hi. injection Hi as <-. split; [by left |].
      rewrite list_lookup_alter_eq.
      destruct (lookup_lt_is_Some_2 h0 b) as [th Hth]; [lia |].
      rewrite Hth. by eexists.
    + rewrite JsMap_get_set_ne in Hi by done.
      destruct (Hinv i a Hi) as [Horigin Hobj]. split; [done |].
      rewrite list_lookup_alter_ne; [done |].
      intros <-. destruct Horigin as [Hold|Hnew]; [| lia].
      by apply Hne, (existing_inj _ _ b).
  - rewrite length_app. cbn [length].
    split_and!; [lia | by apply JsMap_NoDup_set |].
    intros i a Hi. destruct (decide (i = DebugProtocol.id r)) as [->|Hne].
    + rewrite JsMap_get_set_eq in Hi. injection Hi as <-. split; [by right |].
      rewrite list_lookup_alter_eq, lookup_app_r, Nat.sub_diag by done.
      by eexists.
    + rewrite JsMap_get_set_ne in Hi by done.
      destruct (Hinv i a Hi) as [Horigin (th & Hth & Hid)]. split; [done |].
      pose proof (lookup_lt_Some _ _ _ Hth) as Hlt.
      rewrite list_lookup_alter_ne by lia.
      rewrite lookup_app_l by done. by exists th.
Qed.

Lemma updateThreads_loop_consistent raws h0 m0 h m :
  foldl (updateThreads_step existing stoppedDetails) (h0, m0) raws = (h, m) →
  consistent h0 m0 → consistent h m.
Proof.
  revert h0 m0. induction raws as [|r raws IH]; intros h0 m0; cbn [foldl].
  - by intros [= <- <-].
  - destruct (updateThreads_step existing stoppedDetails (h0, m0) r) as [h1 m1] eqn:Hstep.
    intros Hloop Hc. eapply IH; [done |].
    by eapply updateThreads_step_consistent.
Qed.

End UpdateThreadsConsistency.

Lemma updateThreads_session_ok raws sd s :
  threads_wf s → session_ok (updateThreads raws sd s).
Proof.
  intros Hwf. unfold updateThreads.
  destruct (foldl (updateThreads_step (_threads s) sd) (heap s, []) raws)
    as [h m] eqn:Hloop.
  apply updateCurrentThread_session_ok.
  destruct (updateThreads_loop_consistent (_threads s) sd (length (heap s))) with
    (raws := raws) (h0 := heap s) (m0 := @nil (Z * nat)) (h := h) (m := m)
    as (_ & Hnd & Hinv).
  - intros i a Hi. destruct Hwf as [_ Hwf].
    destruct (Hwf i a Hi) as (th & Hth & _). by eapply lookup_lt_Some.
  - intros i j a. by apply threads_wf_inj.
  - done.
  - unfold threads_consistent. split_and!; [done | apply NoDup_nil_2 | done].
  - split; [done |]. intros i a Hi. by destruct (Hinv i a Hi) as [_ ?].
Qed.

Lemma on_session_ok e s : session_ok s → session_ok (on e s).
Proof.
  intros Hs. pose proof Hs as (Hwf & _ & _).
  destruct e as [atc tid|body|reason tid|caps]; cbn [on].
  - case_decide; [by apply clearThreads_session_ok | by apply clearThread_session_ok].
  - by eapply session_ok_ext.
  - repeat case_decide;
      [by eapply session_ok_ext | by apply clearThread_session_ok | done].
  - by eapply session_ok_ext.
Qed.

Lemma step_session_ok s x : session_ok s → session_ok (step s x).
Proof.
  intros Hs. pose proof Hs as (Hwf & _ & _).
  destruct x as [e| | |i body]; cbn [step].
  - by apply on_session_ok.
  - by eapply session_ok_ext.
  - unfold resolveThreads_elapsed.
    destruct (resolveThreads_timer s); [by eapply session_ok_ext | done].
  - unfold resolveThreads_response.
    destruct (awaiting s !! i); [| done].
    destruct body; [by apply updateThreads_session_ok | by eapply session_ok_ext].
Qed.

Lemma steps_session_ok xs s : session_ok s → session_ok (steps xs s).
Proof.
  unfold steps. revert s.
  induction xs as [|x xs IH]; intros s Hs; cbn [foldl]; [done |].
  by apply IH, step_session_ok.
Qed.

Lemma new_session_ok sessionId configuration :
  session_ok (new_DebugSession sessionId configuration).
Proof.
  split_and!; [split; [apply NoDup_nil_2 | done] | done | done].
Qed.

(** X3: in every state a session reaches, the thread map is consistent:
    every id of the map leads to an object of the store whose raw id is that
    id, so different ids lead to different objects; and the current thread,
    when there is one, is the object the map holds for its own id. *)
Theorem thread_map_stays_consistent :
  ∀ (sessionId : string) (configuration : gmap string Value) (xs : list Step),
    let s := steps xs (new_DebugSession sessionId configuration) in
    (∀ i a, JsMap.get i (_threads s) = Some a →
            ∃ th, heap s !! a = Some th ∧ DebugProtocol.id (DebugThread.raw th) = i)
    ∧ (∀ i j a, JsMap.get i (_threads s) = Some a → JsMap.get j (_threads s) = Some a → i = j)
    ∧ (∀ a, _currentThread s = Some a →
            ∃ th, heap s !! a = Some th
                  ∧ DebugThread.state th = Stopped
                  ∧ JsMap.get (DebugProtocol.id (DebugThread.raw th)) (_threads s) = Some a).
Proof.
  intros sid cfg xs s.
  destruct (steps_session_ok xs _ (new_session_ok sid cfg)) as (Hwf & Hin & Hok).
  fold s in Hwf, Hin, Hok. split_and!.
  - apply Hwf.
  - intros i j a. by apply threads_wf_inj.
  - intros a Hc. destruct (Hin a Hc) as (th & Hth & Hget).
    exists th. split_and!; [done | | done].
    unfold current_ok in Hok. rewrite Hc, Hth in Hok. by injection Hok.
Qed.

(** * Losing and keeping the current thread *)

Lemma stopped_or_undefined_running th s a x :
  th = Some a → heap s !! a = Some x → DebugThread.state x ≠ Stopped →
  stopped_or_undefined th s = None.
Proof.
  intros -> Hx Hst. unfold stopped_or_undefined. rewrite Hx. by rewrite decide_False.
Qed.

(** X4: a [continued] event whose [allThreadsContinued] is not [false]
    leaves the session without a current thread, [Inactive], and with no
    thread in state [Stopped]. *)
Theorem continued_all_makes_session_inactive
    (allThreadsContinued : option bool) (threadId : Z) (s : DebugSession)
    (Hall : allThreadsContinued ≠ Some false) :
  let s' := on (continued allThreadsContinued threadId) s in
  _currentThread s' = None
  ∧ state s' = Inactive
  ∧ getThreadsForState Stopped s' = []
  ∧ hasThreadsForState Stopped s' = false.
Proof.
  intros s'. subst s'. cbn [on]. rewrite decide_True by done.
  assert (Hrun : ∀ a x, a ∈ threads s → heap (clearThreads s) !! a = Some x →
                        DebugThread.state x = Running).
  { intros a x Hin. rewrite heap_clearThreads, lookup_clear_all, decide_True by done.
    destruct (heap s !! a); [| done]. by intros [= <-]. }
  assert (Hnone : _currentThread (clearThreads s) = None).
  { destruct (_currentThread (clearThreads s)) as [a|] eqn:Hc; [| done].
    unfold clearThreads, updateCurrentThread, setCurrentThread in Hc.
    rewrite currentThread_doSetCurrentThread in Hc.
    apply stopped_or_undefined_Some in Hc as [Hcand Hst].
    apply focusCandidate_in_threads in Hcand.
    change (threads (with_heap ?h s)) with (threads s) in Hcand.
    change (heap (with_heap ?h s)) with h in Hst.
    rewrite <- heap_clearThreads in Hst.
    destruct (heap (clearThreads s) !! a) as [x|] eqn:Hx; [| done].
    injection Hst as Hst. by rewrite (Hrun a x Hcand Hx) in Hst. }
  assert (Hnil : getThreadsForState Stopped (clearThreads s) = []).
  { apply filter_none. intros a Hin Hf.
    assert (Hin' : a ∈ threads s).
    { unfold threads in *. unfold clearThreads in Hin.
      by rewrite threads_updateCurrentThread in Hin. }
    destruct (heap (clearThreads s) !! a) as [x|] eqn:Hx; [| done].
    apply bool_decide_unpack in Hf. by rewrite (Hrun a x Hin' Hx) in Hf. }
  split_and!; [done | | done |].
  - unfold state, currentThread. by rewrite Hnone.
  - unfold hasThreadsForState. by rewrite Hnil.
Qed.

Lemma continued_all_makes_session_inactive_witness :
  _currentThread (on (continued None 7) (steps Sample.stop_on_thread_zero Sample.fresh))
  = None.
Proof.
  apply (continued_all_makes_session_inactive None 7
           (steps Sample.stop_on_thread_zero Sample.fresh)).
  discriminate.
Defined.

Lemma clearThread_current threadId s a th :
  session_ok s → _currentThread s = Some a → heap s !! a = Some th →
  if decide (threadId = DebugProtocol.id (DebugThread.raw th))
  then _currentThread (clearThread threadId s) = None
  else _currentThread (clearThread threadId s) = Some a
       ∧ heap (clearThread threadId s) !! a = Some th.
Proof.
  intros (Hwf & Hin & Hok) Hc Hth.
  destruct (Hin a Hc) as (th' & Hth' & Hget).
  replace th' with th in * by congruence. clear Hth'.
  unfold current_ok in Hok. rewrite Hc, Hth in Hok. injection Hok as Hst.
  set (h := match JsMap.get threadId (_threads s) with
            | Some b => alter DebugThread.clear b (heap s)
            | None => heap s
            end).
  assert (Hcur : _currentThread (clearThread threadId s)
                 = stopped_or_undefined
                     (focusCandidate
                        ((λ x, DebugProtocol.id (DebugThread.raw x)) <$> h !! a)
                        (with_heap h s)) (with_heap h s)).
  { unfold clearThread, updateCurrentThread, setCurrentThread. fold h.
    rewrite currentThread_doSetCurrentThread.
    unfold focusThreadId, currentThread. cbn [_currentThread with_heap heap].
    by rewrite Hc. }
  case_decide as Hid.
  - subst threadId. subst h. rewrite Hget in Hcur.
    rewrite list_lookup_alter_eq, Hth in Hcur. cbn in Hcur.
    unfold focusCandidate in Hcur. cbn in Hcur. rewrite Hget in Hcur.
    rewrite Hcur. eapply stopped_or_undefined_running; [done | |].
    + cbn. rewrite list_lookup_alter_eq, Hth. done.
    + done.
  - assert (Hsame : h !! a = Some th).
    { subst h. destruct (JsMap.get threadId (_threads s)) as [b|] eqn:Hb; [| done].
      rewrite list_lookup_alter_ne; [done |]. intros ->.
      by apply Hid, (threads_wf_inj s _ _ a). }
    rewrite heap_clearThread. fold h. split; [| done].
    rewrite Hcur, Hsame. cbn. unfold focusCandidate. cbn. rewrite Hget.
    unfold stopped_or_undefined. cbn. rewrite Hsame. by rewrite decide_True.
Qed.

(** X5: in a consistent session with current thread [th], clearing a thread
    ([continued] with [allThreadsContinued: false], or [thread] with reason
    [exited]) that is not the current one keeps the current thread and its
    stopped details; clearing the current thread leaves no current thread,
    without moving to another stopped thread. *)
Theorem clearing_a_thread_keeps_or_drops_focus
    (threadId : Z) (s : DebugSession) (a : nat) (th : DebugThread.t)
    (Hok : session_ok s) (Hcurrent : _currentThread s = Some a)
    (Hobject : heap s !! a = Some th) :
  on (continued (Some false) threadId) s = clearThread threadId s
  ∧ on (thread "exited" threadId) s = clearThread threadId s
  ∧ if decide (threadId = DebugProtocol.id (DebugThread.raw th))
    then _currentThread (clearThread threadId s) = None
    else _currentThread (clearThread threadId s) = Some a
         ∧ heap (clearThread threadId s) !! a = Some th.
Proof.
  split_and!; [done | done |]. by apply clearThread_current.
Qed.

Lemma clearing_a_thread_keeps_or_drops_focus_witness :
  _currentThread (clearThread 5 (steps Sample.stop_on_thread_zero Sample.fresh)) = Some 0%nat
  ∧ _currentThread (clearThread 0 (steps Sample.stop_on_thread_zero Sample.fresh)) = None.
Proof.
  split.
  - apply (clearing_a_thread_keeps_or_drops_focus 5
             (steps Sample.stop_on_thread_zero Sample.fresh) 0%nat
             {| DebugThread.raw := Sample.main_thread;
                DebugThread.stoppedDetails := Some (Sample.breakpoint_on (Some 0)) |});
      [apply steps_session_ok, new_session_ok | reflexivity | reflexivity].
  - apply (clearing_a_thread_keeps_or_drops_focus 0
             (steps Sample.stop_on_thread_zero Sample.fresh) 0%nat
             {| DebugThread.raw := Sample.main_thread;
                DebugThread.stoppedDetails := Some (Sample.breakpoint_on (Some 0)) |});
      [apply steps_session_ok, new_session_ok | reflexivity | reflexivity].
Defined.

(** * The [continued] event, with the recomputation *)

Lemma trace_doSetCurrentThread th s :
  trace (doSetCurrentThread th s)
  = trace s ++ DisposeOnCurrentThread :: DidChange
      :: match th with
         | Some c => [OnDidChanged c; ResolveThread c]
         | None => []
         end.
Proof.
  unfold doSetCurrentThread. destruct th as [c|]; cbn; by rewrite <- !app_assoc.
Qed.

Lemma trace_updateCurrentThread sd s :
  trace (updateCurrentThread sd s)
  = trace s ++ DisposeOnCurrentThread :: DidChange
      :: match _currentThread (updateCurrentThread sd s) with
         | Some c => [OnDidChanged c; ResolveThread c]
         | None => []
         end.
Proof.
  unfold updateCurrentThread, setCurrentThread.
  by rewrite currentThread_doSetCurrentThread, trace_doSetCurrentThread.
Qed.

Lemma updateCurrentThread_current sd s c :
  _currentThread (updateCurrentThread sd s) = Some c →
  c ∈ threads s ∧ DebugThread.state <$> heap s !! c = Some Stopped.
Proof.
  unfold updateCurrentThread, setCurrentThread.
  rewrite currentThread_doSetCurrentThread. intros Hc.
  apply stopped_or_undefined_Some in Hc as [Hcand Hst].
  split; [by eapply focusCandidate_in_threads | done].
Qed.

(** C5: on a [continued] event the thread map is kept, and the objects are
    changed as follows.  When [allThreadsContinued] is anything but [false]
    (absent included) every thread of the map loses its stopped details;
    when it is [false], only the object the map holds for [threadId] does,
    and every other object is left as it was.  In both cases the current
    thread is recomputed afterwards: [updateCurrentThread()] runs on the
    cleared objects, the current thread is set anew and the listeners are
    told.  The thread it sets is never one that was just cleared: it is a
    thread of the map that was [Stopped] before the event and still is.  So
    after clearing all threads there is no current thread and the session is
    [Inactive]; and after clearing one thread of a consistent session, the
    current thread is dropped when it was that thread and kept, with its
    stopped details, when it was another. *)
Theorem continued_clears_threads :
  ∀ (allThreadsContinued : option bool) (threadId : Z) (s : DebugSession),
    let s' := on (continued allThreadsContinued threadId) s in
    _threads s' = _threads s
    ∧ (∀ a, heap s' !! a =
            if decide (allThreadsContinued = Some false)
            then if decide (JsMap.get threadId (_threads s) = Some a)
                 then DebugThread.clear <$> heap s !! a
                 else heap s !! a
            else if decide (a ∈ threads s)
                 then DebugThread.clear <$> heap s !! a
                 else heap s !! a)
    ∧ s' = updateCurrentThread None (with_heap (heap s') s)
    ∧ trace s' = trace s ++ DisposeOnCurrentThread :: DidChange
                   :: match _currentThread s' with
                      | Some c => [OnDidChanged c; ResolveThread c]
                      | None => []
                      end
    ∧ (∀ c, _currentThread s' = Some c →
            allThreadsContinued = Some false
            ∧ JsMap.get threadId (_threads s) ≠ Some c
            ∧ c ∈ threads s
            ∧ DebugThread.state <$> heap s !! c = Some Stopped
            ∧ heap s' !! c = heap s !! c)
    ∧ (allThreadsContinued ≠ Some false → _currentThread s' = None ∧ state s' = Inactive)
    ∧ (allThreadsContinued = Some false → session_ok s →
       ∀ c th, _currentThread s = Some c → heap s !! c = Some th →
               if decide (threadId = DebugProtocol.id (DebugThread.raw th))
               then _currentThread s' = None
               else _currentThread s' = Some c ∧ heap s' !! c = Some th).
Proof.
  intros atc threadId s s'.
  assert (Hthreads : _threads s' = _threads s).
  { subst s'. cbn [on]. case_decide; unfold clearThreads, clearThread;
      by rewrite threads_updateCurrentThread. }
  assert (Hheap : ∀ a, heap s' !! a =
            if decide (atc = Some false)
            then if decide (JsMap.get threadId (_threads s) = Some a)
                 then DebugThread.clear <$> heap s !! a
                 else heap s !! a
            else if decide (a ∈ threads s)
                 then DebugThread.clear <$> heap s !! a
                 else heap s !! a).
  { intros a. subst s'. cbn [on].
    destruct (decide (atc = Some false)) as [Heq|Hne].
    - rewrite (decide_False (P := atc ≠ Some false)) by (by intros ?).
      rewrite heap_clearThread.
      destruct (JsMap.get threadId (_threads s)) as [b|] eqn:Hb.
      + rewrite lookup_alter_clear. repeat case_decide; congruence.
      + by rewrite decide_False.
    - rewrite (decide_True (P := atc ≠ Some false)) by done.
      rewrite heap_clearThreads. apply lookup_clear_all. }
  assert (Hrecomputed : s' = updateCurrentThread None (with_heap (heap s') s)).
  { subst s'. cbn [on]. destruct (decide (atc ≠ Some false)).
    - by rewrite heap_clearThreads.
    - by rewrite heap_clearThread. }
  assert (Hcleared : ∀ x : option DebugThread.t,
            DebugThread.state <$> (DebugThread.clear <$> x) ≠ Some Stopped).
  { by intros [x|]. }
  assert (Hcurrent : ∀ c, _currentThread s' = Some c →
            atc = Some false
            ∧ JsMap.get threadId (_threads s) ≠ Some c
            ∧ c ∈ threads s
            ∧ DebugThread.state <$> heap s !! c = Some Stopped
            ∧ heap s' !! c = heap s !! c).
  { intros c Hc. rewrite Hrecomputed in Hc.
    apply updateCurrentThread_current in Hc as [Hin Hst].
    change (threads (with_heap ?h s)) with (threads s) in Hin.
    change (heap (with_heap ?h s)) with h in Hst.
    pose proof (Hheap c) as Hlookup.
    destruct (decide (atc = Some false)) as [Heq|Hne].
    - destruct (decide (JsMap.get threadId (_threads s) = Some c)) as [Hget|Hget].
      + rewrite Hlookup in Hst. by destruct (Hcleared _ Hst).
      + rewrite Hlookup in Hst. done.
    - rewrite decide_True in Hlookup by done.
      rewrite Hlookup in Hst. by destruct (Hcleared _ Hst). }
  split_and!; [done | done | done | | done | |].
  - rewrite Hrecomputed at 1. rewrite trace_updateCurrentThread.
    by rewrite <- Hrecomputed.
  - intros Hne.
    assert (Hnone : _currentThread s' = None).
    { destruct (_currentThread s') as [c|] eqn:Hc; [| done].
      by destruct (Hcurrent c eq_refl) as [? _]. }
    split; [done |]. unfold state, currentThread. by rewrite Hnone.
  - intros -> Hok c th Hc Hth. subst s'. cbn [on].
    rewrite (decide_False (P := Some false ≠ Some false)) by (by intros ?).
    by apply clearThread_current.
Qed.

(** * Loaded sources *)

Lemma get_updateSources toString reason source sources k :
  JsMap.get k (updateSources toString reason source sources)
  = if decide (reason = "new" ∨ reason = "changed")
    then if decide (truthy_num (sourceReference source) = true
                    ∧ k = toString (default 0 (sourceReference source)))
         then Some source
         else if decide (truthy_str (path source) = true
                         ∧ k = default "" (path source))
              then Some source
              else JsMap.get k sources
    else JsMap.get k sources.
Proof.
  unfold updateSources. case_decide as Hreason; [| done].
  destruct (truthy_num (sourceReference source)) eqn:Href;
    destruct (truthy_str (path source)) eqn:Hpath.
  - destruct (decide (k = toString (default 0 (sourceReference source)))) as [->|Hne].
    + rewrite JsMap_get_set_eq. by rewrite decide_True.
    + rewrite JsMap_get_set_ne by done.
      rewrite (decide_False (P := _ ∧ k = toString _)) by (by intros [_ ?]).
      destruct (decide (k = default "" (path source))) as [->|Hne'].
      * rewrite JsMap_get_set_eq. by rewrite decide_True.
      * rewrite JsMap_get_set_ne by done. rewrite decide_False; [done |]. by intros [_ ?].
  - destruct (decide (k = toString (default 0 (sourceReference source)))) as [->|Hne].
    + rewrite JsMap_get_set_eq. by rewrite decide_True.
    + rewrite JsMap_get_set_ne by done.
      rewrite (decide_False (P := _ ∧ k = toString _)) by (by intros [_ ?]).
      rewrite decide_False; [done |]. by intros [? _].
  - rewrite (decide_False (P := false = true ∧ _)) by (by intros [? _]).
    destruct (decide (k = default "" (path source))) as [->|Hne'].
    + rewrite JsMap_get_set_eq. by rewrite decide_True.
    + rewrite JsMap_get_set_ne by done. rewrite decide_False; [done |]. by intros [_ ?].
  - rewrite (decide_False (P := false = true ∧ _)) by (by intros [? _]).
    rewrite decide_False; [done |]. by intros [? _].
Qed.

Lemma registered_under_iff toString source k :
  registered_under toString source k
  ↔ (truthy_num (sourceReference source) = true
     ∧ k = toString (default 0 (sourceReference source)))
    ∨ (truthy_str (path source) = true ∧ k = default "" (path source)).
Proof.
  unfold registered_under. split.
  - intros [(p & Hp & Hne & ->)|(n & Hn & Hne & ->)].
    + right. rewrite Hp. split; [by apply truthy_str_Some | done].
    + left. rewrite Hn. split; [| done]. cbn. by apply negb_true_iff, Z.eqb_neq.
  - intros [[Ht ->]|[Ht ->]].
    + right. destruct (sourceReference source) as [n|]; [| done].
      exists n. split_and!; [done | | done].
      cbn in Ht. by apply negb_true_iff, Z.eqb_neq in Ht.
    + left. destruct (path source) as [p|]; [| done].
      exists p. split_and!; [done | | done]. by apply truthy_str_Some.
Qed.

(** X6: a [loadedSource] event with reason [new] or [changed] files the
    source under its non-empty path and under the text [toString] gives for
    its non-zero source reference, whatever that text is, and leaves every
    other key as it was; with any other reason ([removed] included) the map
    is unchanged.  No event ever takes a key out of the map. *)
Theorem loadedSource_files_and_never_removes :
  ∀ (toString : Z → string) (reason : string) (source : Source)
    (sources : list (string * Source)) (k : string),
    let sources' := updateSources toString reason source sources in
    ((reason = "new" ∨ reason = "changed") → registered_under toString source k →
     JsMap.get k sources' = Some source)
    ∧ (¬ registered_under toString source k → JsMap.get k sources' = JsMap.get k sources)
    ∧ (¬ (reason = "new" ∨ reason = "changed") → sources' = sources)
    ∧ (is_Some (JsMap.get k sources) → is_Some (JsMap.get k sources')).
Proof.
  intros toString reason source sources k sources'. subst sources'.
  pose proof (get_updateSources toString reason source sources k) as Hget.
  pose proof (registered_under_iff toString source k) as Hiff.
  split_and!.
  - intros Hreason Hreg. rewrite Hget, decide_True by done.
    apply Hiff in Hreg as [Href|Hpath].
    + by rewrite decide_True.
    + repeat case_decide; done.
  - intros Hreg. rewrite Hget. case_decide; [| done].
    rewrite !decide_False; [done | |].
    + intros ?. apply Hreg, Hiff. by right.
    + intros ?. apply Hreg, Hiff. by left.
  - intros Hreason. unfold updateSources. by rewrite decide_False.
  - intros Hsome. rewrite Hget. repeat case_decide; (done || by eexists).
Qed.

(** * Configuration done *)

Lemma refresh_focus_none raws s :
  _currentThread (updateThreads raws None s) = None
  ∧ state (updateThreads raws None s) = Inactive.
Proof.
  assert (Hnone : _currentThread (updateThreads raws None s) = None).
  { destruct (_currentThread (updateThreads raws None s)) as [a|] eqn:Hc; [| done].
    destruct (foldl (updateThreads_step (_threads s) None) (heap s, []) raws)
      as [h m] eqn:Hloop.
    destruct (updateThreads_current _ _ _ _ _ _ Hloop Hc) as [Hin Hst].
    destruct (updateThreads_fields _ _ _ _ _ Hloop) as [Hh Hm].
    destruct (h !! a) as [th|] eqn:Hl; [| done]. injection Hst as Hst.
    assert (Hin' : a ∈ threads (updateThreads raws None s)) by (unfold threads; by rewrite Hm).
    assert (Hl' : heap (updateThreads raws None s) !! a = Some th) by (by rewrite Hh).
    destruct (updateThreads_details_of_map raws None s a th Hin' Hl') as [_ Hiff].
    by apply Hiff in Hst as (d & ? & _). }
  split; [done |]. unfold state, currentThread. by rewrite Hnone.
Qed.

Lemma configurationDone_cases adapter s :
  configurationDone adapter s
  = match adapter (sessionId s) (sent s ++ [request_with "configurationDone" ∅]) with
    | DebugProtocol.Success _ =>
        (Resolved (),
         resolveThreads None (emit ConfigurationDone (run "configurationDone" ∅ s)))
    | DebugProtocol.Failure message =>
        (Rejected (FailedResponse message), run "configurationDone" ∅ s)
    end.
Proof.
  unfold configurationDone, sendRequest. rewrite sent_run.
  change (sessionId (run "configurationDone" ∅ s)) with (sessionId s).
  unfold request_with. by destruct (adapter _ _).
Qed.

(** X7: when the adapter accepts [configurationDone], the notification is
    fired and a threads refresh without stopped details is scheduled; once
    the timer has elapsed and the [threads] response has arrived, the
    session has no current thread and is [Inactive], whatever thread was
    current before.  When the adapter refuses, the call rejects with that
    response, nothing is fired and no refresh is scheduled. *)
Theorem configurationDone_refreshes_without_details :
  ∀ (adapter : Adapter) (s : DebugSession) (raws : list DebugProtocol.Thread),
    let r := configurationDone adapter s in
    match adapter (sessionId s) (sent s ++ [request_with "configurationDone" ∅]) with
    | DebugProtocol.Success _ =>
        let s1 := step r.2 DebounceElapsed in
        let s2 := step s1 (ThreadsResponse (length (awaiting s)) (Some raws)) in
        r.1 = Resolved ()
        ∧ trace r.2 = trace s ++ [Sent (request_with "configurationDone" ∅); ConfigurationDone]
        ∧ sent s1 = sent s ++ [request_with "configurationDone" ∅; threads_request]
        ∧ awaiting s2 = awaiting s
        ∧ _currentThread s2 = None
        ∧ state s2 = Inactive
    | DebugProtocol.Failure message =>
        r.1 = Rejected (FailedResponse message)
        ∧ trace r.2 = trace s ++ [Sent (request_with "configurationDone" ∅)]
        ∧ resolveThreads_timer r.2 = resolveThreads_timer s
    end.
Proof.
  intros adapter s raws r. subst r. rewrite configurationDone_cases.
  destruct (adapter _ _) as [body|message]; cbn [fst snd].
  - set (s0 := emit ConfigurationDone (run "configurationDone" ∅ s)).
    assert (Hel : step (resolveThreads None s0) DebounceElapsed
                  = with_awaiting (awaiting s ++ [None]) (run "threads" ∅ (with_timer None s0)))
      by reflexivity.
    rewrite Hel.
    assert (Hresp : step (with_awaiting (awaiting s ++ [None])
                            (run "threads" ∅ (with_timer None s0)))
                      (ThreadsResponse (length (awaiting s)) (Some raws))
                    = updateThreads raws None
                        (with_awaiting (awaiting s) (run "threads" ∅ (with_timer None s0)))).
    { cbn [step]. unfold resolveThreads_response. cbn [awaiting with_awaiting].
      rewrite lookup_app_r, Nat.sub_diag by done. cbn [lookup list_lookup].
      by rewrite delete_last_index. }
    rewrite Hresp.
    destruct (refresh_focus_none raws
                (with_awaiting (awaiting s) (run "threads" ∅ (with_timer None s0))))
      as [Hnone Hstate].
    split_and!; [done | | | | done | done].
    + subst s0. unfold run, emit. cbn. by rewrite <- app_assoc.
    + unfold sent. subst s0. cbn. rewrite !requests_app. cbn.
      by rewrite <- !app_assoc.
    + unfold updateThreads.
      destruct (foldl _ _ raws) as [h m]. unfold updateCurrentThread, setCurrentThread.
      by destruct (stopped_or_undefined _ _).
  - split_and!; done.
Qed.

(** * The outcomes of launching and attaching *)

Lemma call_eq {A} a (f : DebugSession → Outcome A * DebugSession) m s :
  DebugSessionManager.objects m !! a = Some s →
  DebugSessionManager.call a f m
  = ((f s).1, DebugSessionManager.with_objects (<[a := (f s).2]> (DebugSessionManager.objects m)) m).
Proof. intros Hs. unfold DebugSessionManager.call. rewrite Hs. by destruct (f s). Qed.

Lemma sendRequest_cases adapter command args s :
  sendRequest adapter command args s
  = match adapter (sessionId s) (sent s ++ [request_with command args]) with
    | DebugProtocol.Success body => (Resolved body, run command args s)
    | DebugProtocol.Failure message => (Rejected (FailedResponse message), run command args s)
    end.
Proof.
  unfold sendRequest. rewrite sent_run.
  change (sessionId (run command args s)) with (sessionId s). done.
Qed.

Lemma initialize_cases adapter args s :
  initialize adapter args s
  = match adapter (sessionId s) (sent s ++ [request_with "initialize" args]) with
    | DebugProtocol.Success body =>
        (Resolved (), with_capabilities (default ∅ body) (run "initialize" args s))
    | DebugProtocol.Failure message =>
        (Rejected (FailedResponse message), run "initialize" args s)
    end.
Proof.
  unfold initialize. rewrite sendRequest_cases. by destruct (adapter _ _).
Qed.

Lemma onSessionInitializationFailed_eq a message m s :
  DebugSessionManager.objects m !! a = Some s →
  (DebugSessionManager.onSessionInitializationFailed a (FailedResponse message) m).2
  = DebugSessionManager.fire (DebugSessionManager.ShowMessage (failure_text message))
      (DebugSessionManager.destroy (Some (sessionId s)) m).
Proof.
  intros Hs. unfold DebugSessionManager.onSessionInitializationFailed. by rewrite Hs.
Qed.

Section Outcomes.
Variable adapter : Adapter.
Variables (a : nat) (m : DebugSessionManager.t) (s : DebugSession).
Variable command : string.
Variable args : gmap string Value.
Hypothesis Hs : DebugSessionManager.objects m !! a = Some s.

Local Abbreviation objs := (DebugSessionManager.objects m).
Local Abbreviation configuration' := (Object_assign (configuration s) (marker_of command)).

Lemma started_outcome (marker : gmap string Value) :
  marker = marker_of command →
  DebugSessionManager.bind (DebugSessionManager.call a (initialize adapter args))
    (λ _, DebugSessionManager.bind
            (DebugSessionManager.call a (DebugSessionManager.mark_configuration marker))
            (λ launchArgs,
               DebugSessionManager.try_catch
                 (DebugSessionManager.bind
                    (DebugSessionManager.call a (sendRequest adapter command launchArgs))
                    (λ _, DebugSessionManager.ret ()))
                 (λ cause m',
                    (Rejected cause,
                     (DebugSessionManager.onSessionInitializationFailed a cause m').2)))) m
  = start_outcome adapter a m s command args.
Proof.
  intros ->. unfold start_outcome, started.
  assert (Hlt : (a < length objs)%nat) by (by eapply lookup_lt_Some).
  unfold DebugSessionManager.bind at 1. rewrite (call_eq _ _ _ _ Hs), initialize_cases.
  destruct (adapter (sessionId s) (sent s ++ [request_with "initialize" args]))
    as [body|message]; cbn [fst snd]; [| done].
  unfold DebugSessionManager.bind at 1.
  erewrite call_eq by (cbn; by apply list_lookup_insert_eq).
  cbn [fst snd DebugSessionManager.mark_configuration].
  unfold DebugSessionManager.try_catch, DebugSessionManager.bind, DebugSessionManager.ret.
  erewrite call_eq
    by (cbn; rewrite list_insert_insert_eq; apply list_lookup_insert_eq;
        by rewrite ?length_insert).
  rewrite sendRequest_cases.
  cbn [DebugSessionManager.objects DebugSessionManager.with_objects].
  rewrite !list_insert_insert_eq.
  assert (Hsent : sent (with_configuration configuration'
                          (with_capabilities (default ∅ body) (run "initialize" args s)))
                  = sent s ++ [request_with "initialize" args]).
  { apply sent_run. }
  rewrite Hsent, <- app_assoc. cbn [app].
  change (sessionId (with_configuration ?c (with_capabilities ?d (run ?x ?y s))))
    with (sessionId s).
  change (configuration (with_configuration ?c ?x)) with c.
  destruct (adapter (sessionId s) _) as [body'|message]; cbn [fst snd]; [done |].
  f_equal.
  erewrite onSessionInitializationFailed_eq
    by (cbn; apply list_lookup_insert_eq; by rewrite ?length_insert).
  done.
Qed.

End Outcomes.

Lemma launchOrAttach_eq adapter a m s command :
  DebugSessionManager.objects m !! a = Some s →
  command = "attach" ∨ command = "launch" →
  configuration s !! "request" = Some (VStr command) →
  DebugSessionManager.launchOrAttach adapter a m
  = start_outcome adapter a m s command (initializeArgs_of s).
Proof.
  intros Hs Hcommand Hreq. unfold DebugSessionManager.launchOrAttach.
  rewrite Hs, Hreq. destruct Hcommand as [-> | ->].
  - rewrite decide_True by done.
    by apply (started_outcome adapter a m s "attach" (initializeArgs_of s) Hs).
  - rewrite decide_False by done. rewrite decide_True by done.
    by apply (started_outcome adapter a m s "launch" (initializeArgs_of s) Hs).
Qed.

Lemma notices_setActiveDebugSession x m :
  ∃ pre, DebugSessionManager.notices (DebugSessionManager.setActiveDebugSession x m)
         = DebugSessionManager.notices m ++ pre.
Proof.
  unfold DebugSessionManager.setActiveDebugSession.
  destruct (_ && _); [exists []; by rewrite app_nil_r |].
  case_decide; [by eexists | exists []; by rewrite app_nil_r].
Qed.

Lemma notices_remove sessionId m :
  ∃ pre, DebugSessionManager.notices (DebugSessionManager.remove sessionId m)
         = DebugSessionManager.notices m ++ pre.
Proof.
  unfold DebugSessionManager.remove.
  set (m1 := DebugSessionManager.with_sessions _ m).
  destruct (truthy_str _); [| exists []; by rewrite app_nil_r].
  case_decide; [| exists []; by rewrite app_nil_r].
  case_decide; apply (notices_setActiveDebugSession _ m1).
Qed.

Lemma objects_setActiveDebugSession x m :
  DebugSessionManager.objects (DebugSessionManager.setActiveDebugSession x m)
  = DebugSessionManager.objects m.
Proof.
  unfold DebugSessionManager.setActiveDebugSession.
  destruct (_ && _); [done |]. by case_decide.
Qed.

Lemma objects_remove sessionId m :
  DebugSessionManager.objects (DebugSessionManager.remove sessionId m)
  = DebugSessionManager.objects m.
Proof.
  unfold DebugSessionManager.remove.
  set (m1 := DebugSessionManager.with_sessions _ m).
  destruct (truthy_str _); [| done].
  case_decide; [| done].
  case_decide; apply (objects_setActiveDebugSession _ m1).
Qed.

Lemma find_remove sessionId m :
  DebugSessionManager.find sessionId (DebugSessionManager.remove sessionId m) = None.
Proof.
  unfold DebugSessionManager.find. rewrite sessions_remove. apply JsMap_get_delete_eq.
Qed.

(** * Restart *)

Lemma disposed_fields n s :
  sessionId (Nat.iter n dispose s) = sessionId s
  ∧ configuration (Nat.iter n dispose s) = configuration s
  ∧ sent (Nat.iter n dispose s) = sent s.
Proof.
  induction n as [|n (IH1 & IH2 & IH3)]; [done |]. cbn [Nat.iter].
  split_and!; [done | done |].
  rewrite <- IH3. unfold sent, dispose, emit. cbn. rewrite requests_app. cbn.
  by rewrite app_nil_r.
Qed.

Lemma doDestroy_object b m a s :
  DebugSessionManager.objects m !! a = Some s →
  ∃ n, DebugSessionManager.objects (DebugSessionManager.doDestroy b m) !! a
       = Some (Nat.iter n dispose s).
Proof.
  intros Hs. unfold DebugSessionManager.doDestroy.
  destruct (DebugSessionManager.objects m !! b) as [sb|] eqn:Hb; [| by exists 0%nat].
  cbn [DebugSessionManager.objects DebugSessionManager.fire]. rewrite objects_remove. cbn.
  destruct (decide (a = b)) as [->|Hne].
  - exists 1%nat. rewrite list_lookup_insert_eq by (by eapply lookup_lt_Some).
    cbn. congruence.
  - exists 0%nat. by rewrite list_lookup_insert_ne.
Qed.

Lemma destroy_object x m a s :
  DebugSessionManager.objects m !! a = Some s →
  ∃ n, DebugSessionManager.objects (DebugSessionManager.destroy x m) !! a
       = Some (Nat.iter n dispose s).
Proof.
  unfold DebugSessionManager.destroy. destruct (truthy_str x).
  - destruct (x ≫= _); [apply doDestroy_object | by exists 0%nat].
  - generalize (DebugSessionManager.sessions m) as l. intros l. revert m s.
    induction l as [|[k b] l IH]; intros m s Hs; [by exists 0%nat |].
    cbn [foldl]. case_decide.
    + destruct (doDestroy_object b m a s Hs) as [n1 H1].
      destruct (IH _ _ H1) as [n2 H2]. exists (n2 + n1)%nat.
      by rewrite Nat.iter_add.
    + by apply IH.
Qed.

Lemma restart_eq adapter a restart m s :
  DebugSessionManager.objects m !! a = Some s →
  let m1 := DebugSessionManager.with_objects
              (<[a := run "disconnect" {[ "restart" := VBool true ]} s]>
                 (DebugSessionManager.objects m)) m in
  DebugSessionManager.restart adapter a restart m
  = match adapter (sessionId s) (sent s ++ [disconnect_restart_request]) with
    | DebugProtocol.Success _ => DebugSessionManager.launchOrAttach adapter a m1
    | DebugProtocol.Failure message => (Rejected (FailedResponse message), m1)
    end.
Proof.
  intros Hs m1. unfold DebugSessionManager.restart, DebugSessionManager.bind.
  rewrite (call_eq _ _ _ _ Hs). unfold disconnect. rewrite sendRequest_cases.
  change (request_with "disconnect" {[ "restart" := VBool true ]})
    with disconnect_restart_request.
  by destruct (adapter _ _).
Qed.

Lemma marker_of_frame command (c : gmap string Value) k :
  k ≠ "__restart" → (k = "noDebug" → command ≠ "launch") →
  Object_assign c (marker_of command) !! k = c !! k.
Proof.
  intros Hk Hnd. rewrite lookup_Object_assign. unfold marker_of, DebugSessionManager.marker_of.
  case_decide as Hc.
  - rewrite lookup_insert_ne by done.
    rewrite lookup_singleton_ne; [done |]. intros <-. by apply Hnd.
  - by rewrite lookup_singleton_ne.
Qed.

Lemma marker_of_written command (c : gmap string Value) :
  Object_assign c (marker_of command) !! "__restart" = Some (VBool false)
  ∧ (command = "launch" →
     Object_assign c (marker_of command) !! "noDebug" = Some (VBool false)).
Proof.
  rewrite !lookup_Object_assign. unfold marker_of, DebugSessionManager.marker_of.
  case_decide as Hc.
  - by rewrite lookup_insert_eq, lookup_insert_ne, lookup_singleton_eq.
  - by rewrite lookup_singleton_eq.
Qed.

(** C9: [restart] first sends [disconnect] with [restart: true] on the
    session's connection.  When the adapter refuses it, [restart] rejects
    and nothing more is sent.  When the adapter accepts it, [restart]
    re-runs [launchOrAttach] on the same session object: for a request kind
    other than [attach] and [launch] that throws at once; otherwise
    [initialize] is sent next and, once it is accepted, the marker is merged
    into the session's configuration, [__restart: false] and for [launch]
    also [noDebug: false], and the configuration is sent as the [attach] or
    [launch] request, whose answer decides how [restart] ends.  In every
    case the object at the session's address keeps its id, the requests
    sent before are followed by [disconnect] and the requests listed, and
    the configuration is the one before at every key that is not a marker
    field; and when [restart] resolves, the session map and the active
    pointer are as before. *)
Theorem restart_disconnects_then_relaunches
    (adapter : Adapter) (a : nat) (restart : Value) (m : DebugSessionManager.t)
    (s : DebugSession)
    (Hs : DebugSessionManager.objects m !! a = Some s) :
  let r := DebugSessionManager.restart adapter a restart m in
  let request := configuration s !! "request" in
  let initialize_request := request_with "initialize" (initializeArgs_of s) in
  ∃ s' rest,
    DebugSessionManager.objects r.2 !! a = Some s'
    ∧ sessionId s' = sessionId s
    ∧ sent s' = sent s ++ disconnect_restart_request :: rest
    ∧ (∀ k, k ≠ "__restart" →
            (k = "noDebug" → request ≠ Some (VStr "launch")) →
            configuration s' !! k = configuration s !! k)
    ∧ (r.1 = Resolved () →
       DebugSessionManager.sessions r.2 = DebugSessionManager.sessions m
       ∧ DebugSessionManager.activeDebugSessionId r.2
         = DebugSessionManager.activeDebugSessionId m)
    ∧ match adapter (sessionId s) (sent s ++ [disconnect_restart_request]) with
      | DebugProtocol.Failure message =>
          r.1 = Rejected (FailedResponse message)
          ∧ rest = [] ∧ configuration s' = configuration s
      | DebugProtocol.Success _ =>
          (request ≠ Some (VStr "attach") → request ≠ Some (VStr "launch") →
           r.1 = Rejected (ErrorObject ("Unsupported request '"
                                        +:+ to_string request +:+ "' type."))
           ∧ rest = [] ∧ configuration s' = configuration s)
          ∧ (∀ command, command = "attach" ∨ command = "launch" →
               request = Some (VStr command) →
               match adapter (sessionId s)
                       (sent s ++ [disconnect_restart_request; initialize_request]) with
               | DebugProtocol.Failure message =>
                   r.1 = Rejected (FailedResponse message)
                   ∧ rest = [initialize_request]
                   ∧ configuration s' = configuration s
               | DebugProtocol.Success _ =>
                   rest = [initialize_request; request_with command (configuration s')]
                   ∧ configuration s' = Object_assign (configuration s) (marker_of command)
                   ∧ configuration s' !! "__restart" = Some (VBool false)
                   ∧ (command = "launch" →
                      configuration s' !! "noDebug" = Some (VBool false))
                   ∧ r.1 = match adapter (sessionId s)
                                   (sent s ++ [disconnect_restart_request;
                                               initialize_request;
                                               request_with command (configuration s')]) with
                           | DebugProtocol.Success _ => Resolved ()
                           | DebugProtocol.Failure message =>
                               Rejected (FailedResponse message)
                           end
               end)
      end.
Proof.
  intros r request initialize_request.
  pose proof (restart_eq adapter a restart m s Hs) as Hr. cbn zeta in Hr. fold r in Hr.
  set (s1 := run "disconnect" {[ "restart" := VBool true ]} s) in *.
  set (m1 := DebugSessionManager.with_objects _ m) in *.
  assert (Hs1 : DebugSessionManager.objects m1 !! a = Some s1).
  { subst m1. cbn. apply list_lookup_insert_eq. by eapply lookup_lt_Some. }
  assert (Hsent1 : sent s1 = sent s ++ [disconnect_restart_request]) by apply sent_run.
  destruct (adapter (sessionId s) (sent s ++ [disconnect_restart_request]))
    as [body0|message0] eqn:Hd; cycle 1.
  { exists s1, []. rewrite Hr. cbn [fst snd]. split_and!; done. }
  destruct (decide (request = Some (VStr "attach") ∨ request = Some (VStr "launch")))
    as [Hkind|Hkind]; cycle 1.
  { rewrite (launchOrAttach_unsupported adapter a m1 s1 Hs1) in Hr
      by (intros ?; apply Hkind; first [by left | by right]).
    exists s1, []. rewrite Hr. cbn [fst snd]. split_and!; try done.
    intros command [-> | ->] Hreq; exfalso; apply Hkind; first [by left | by right]. }
  assert (∃ command, (command = "attach" ∨ command = "launch")
                     ∧ request = Some (VStr command))
    as (command & Hcommand & Hrequest).
  { destruct Hkind; [exists "attach" | exists "launch"]; split; first [done | by left | by right]. }
  assert (Hunique : ∀ command', request = Some (VStr command') → command' = command).
  { intros command' Hreq. congruence. }
  rewrite (launchOrAttach_eq adapter a m1 s1 command Hs1 Hcommand Hrequest) in Hr.
  unfold start_outcome in Hr. rewrite Hsent1, <- !app_assoc in Hr. cbn [app] in Hr.
  change (sessionId s1) with (sessionId s) in Hr.
  change (configuration s1) with (configuration s) in Hr.
  change (initializeArgs_of s1) with (initializeArgs_of s) in Hr.
  fold initialize_request in Hr.
  set (configuration' := Object_assign (configuration s) (marker_of command)) in *.
  assert (Hframe : ∀ k, k ≠ "__restart" →
            (k = "noDebug" → request ≠ Some (VStr "launch")) →
            configuration' !! k = configuration s !! k).
  { intros k Hk Hnd. apply marker_of_frame; [done |].
    intros -> ->. by apply Hnd. }
  destruct (marker_of_written command (configuration s)) as [Hrestart HnoDebug].
  fold configuration' in Hrestart, HnoDebug.
  destruct (adapter (sessionId s) (sent s ++ [disconnect_restart_request; initialize_request]))
    as [body|message] eqn:Hi; cycle 1.
  { exists (run "initialize" (initializeArgs_of s) s1), [initialize_request].
    rewrite Hr. cbn [fst snd].
    split_and!; try done; try (intros Ha Hl; by destruct Hkind).
    - cbn. apply list_lookup_insert_eq. rewrite length_insert. by eapply lookup_lt_Some.
    - by rewrite sent_run, Hsent1, <- app_assoc. }
  set (s2 := started s1 command (initializeArgs_of s) body) in *.
  assert (Hsent2 : sent s2 = sent s ++ [disconnect_restart_request; initialize_request;
                                         request_with command configuration']).
  { subst s2. unfold started. rewrite sent_run.
    change (sent (with_configuration ?c (with_capabilities ?d ?x))) with (sent x).
    rewrite sent_run, Hsent1, <- !app_assoc. done. }
  destruct (adapter (sessionId s)
              (sent s ++ [disconnect_restart_request; initialize_request;
                          request_with command configuration']))
    as [body'|message] eqn:Hst.
  - exists s2, [initialize_request; request_with command configuration'].
    rewrite Hr. cbn [fst snd].
    split_and!; try done; try (intros Ha Hl; by destruct Hkind).
    + cbn. apply list_lookup_insert_eq. rewrite length_insert. by eapply lookup_lt_Some.
    + intros command' _ Hreq. rewrite (Hunique command' Hreq).
      change (configuration s2) with configuration'. by rewrite Hst.
  - set (m2 := DebugSessionManager.with_objects _ m1) in *.
    assert (Hs2 : DebugSessionManager.objects m2 !! a = Some s2).
    { subst m2. cbn. apply list_lookup_insert_eq. rewrite length_insert.
      by eapply lookup_lt_Some. }
    destruct (destroy_object (Some (sessionId s)) m2 a s2 Hs2) as [n Hn].
    destruct (disposed_fields n s2) as (Hid & Hcfg & Hsent).
    exists (Nat.iter n dispose s2), [initialize_request; request_with command configuration'].
    rewrite Hr. cbn [fst snd].
    split_and!; try done; try (intros Ha Hl; by destruct Hkind).
    + by rewrite Hsent, Hsent2.
    + intros k Hk Hnd. rewrite Hcfg. by apply Hframe.
    + intros command' _ Hreq. rewrite (Hunique command' Hreq), Hcfg.
      change (configuration s2) with configuration'. by rewrite Hst.
Qed.

Lemma restart_disconnects_then_relaunches_witness :
  ∃ s' rest,
    DebugSessionManager.objects
      (DebugSessionManager.restart Sample.accepts_all 0 (VBool true)
         SampleManager.one_launched).2 !! 0%nat = Some s'
    ∧ sessionId s' = "s1"
    ∧ sent s' = disconnect_restart_request :: rest.
Proof.
  destruct (restart_disconnects_then_relaunches Sample.accepts_all 0 (VBool true)
              SampleManager.one_launched (new_DebugSession "s1" SampleManager.launch_noDebug)
              eq_refl) as (s' & rest & Hs' & Hid & Hsent & _).
  exists s', rest. split_and!; [exact Hs' | exact Hid | exact Hsent].
Defined.

(** X8: when the adapter refuses [initialize], [launchOrAttach] rejects
    with that response and nothing else happens: the session stays in the
    map, the active pointer and the notifications are as before, no message
    is shown, the session is not disposed, and its configuration and
    capabilities are untouched; the one request sent is [initialize], with
    [INITIALIZE_ARGUMENTS] and the configuration's type as [adapterID]. *)
Theorem failed_initialize_leaves_session_registered
    (adapter : Adapter) (a : nat) (m : DebugSessionManager.t) (s : DebugSession)
    (command : string) (message : option string)
    (Hs : DebugSessionManager.objects m !! a = Some s)
    (Hcommand : command = "attach" ∨ command = "launch")
    (Hrequest : configuration s !! "request" = Some (VStr command))
    (Hinitialize : adapter (sessionId s)
                     (sent s ++ [request_with "initialize" (initializeArgs_of s)])
                   = DebugProtocol.Failure message) :
  let r := DebugSessionManager.launchOrAttach adapter a m in
  r.1 = Rejected (FailedResponse message)
  ∧ DebugSessionManager.sessions r.2 = DebugSessionManager.sessions m
  ∧ DebugSessionManager.activeDebugSessionId r.2 = DebugSessionManager.activeDebugSessionId m
  ∧ DebugSessionManager.notices r.2 = DebugSessionManager.notices m
  ∧ ∃ s', DebugSessionManager.objects r.2 !! a = Some s'
          ∧ trace s' = trace s ++ [Sent (request_with "initialize" (initializeArgs_of s))]
          ∧ configuration s' = configuration s
          ∧ capabilities s' = capabilities s
          ∧ (∀ k, initializeArgs_of s !! k
                  = if decide (k = "adapterID")
                    then Some (default VUndefined (configuration s !! "type"))
                    else INITIALIZE_ARGUMENTS !! k).
Proof.
  intros r. subst r.
  rewrite (launchOrAttach_eq adapter a m s command Hs Hcommand Hrequest).
  unfold start_outcome. rewrite Hinitialize. cbn [fst snd].
  split_and!; [done | done | done | done |].
  exists (run "initialize" (initializeArgs_of s) s). split_and!; [| done | done | done |].
  - cbn. apply list_lookup_insert_eq. by eapply lookup_lt_Some.
  - intros k. unfold initializeArgs_of. rewrite lookup_insert.
    case_decide; case_decide; congruence.
Qed.

Lemma failed_initialize_leaves_session_registered_witness :
  (DebugSessionManager.launchOrAttach Sample.fails_first_request 0
     SampleManager.one_launched).1 = Rejected (FailedResponse (Some "not ready")).
Proof.
  apply (failed_initialize_leaves_session_registered Sample.fails_first_request 0
           SampleManager.one_launched (new_DebugSession "s1" SampleManager.launch_noDebug)
           "launch" (Some "not ready")).
  - reflexivity.
  - by right.
  - vm_compute. reflexivity.
  - reflexivity.
Defined.

(** X9: when the adapter accepts [initialize] and then refuses the [attach]
    or [launch] request, [launchOrAttach] rejects with that response after
    destroying the session: for a session registered under its non-empty id,
    the debug service is told to stop it, the session object is disposed, it
    is taken out of the map, and the last notification is the error message,
    the response's own or the standard text when it has none. *)
Theorem failed_start_destroys_session
    (adapter : Adapter) (a : nat) (m : DebugSessionManager.t) (s : DebugSession)
    (command : string) (body : option (gmap string Value)) (message : option string)
    (Hs : DebugSessionManager.objects m !! a = Some s)
    (Hcommand : command = "attach" ∨ command = "launch")
    (Hrequest : configuration s !! "request" = Some (VStr command))
    (Hregistered : DebugSessionManager.find (sessionId s) m = Some a)
    (Hid : sessionId s ≠ "")
    (Hinitialize : adapter (sessionId s)
                     (sent s ++ [request_with "initialize" (initializeArgs_of s)])
                   = DebugProtocol.Success body)
    (Hstart : adapter (sessionId s)
                (sent s ++ [request_with "initialize" (initializeArgs_of s);
                            request_with command
                              (Object_assign (configuration s) (marker_of command))])
              = DebugProtocol.Failure message) :
  let r := DebugSessionManager.launchOrAttach adapter a m in
  r.1 = Rejected (FailedResponse message)
  ∧ DebugSessionManager.find (sessionId s) r.2 = None
  ∧ DebugSessionManager.sessions r.2 = JsMap.delete (sessionId s) (DebugSessionManager.sessions m)
  ∧ (∃ pre, DebugSessionManager.notices r.2
            = DebugSessionManager.notices m
              ++ DebugSessionManager.DebugServiceStop (sessionId s) :: pre
              ++ [DebugSessionManager.DidDestroyDebugSession a;
                  DebugSessionManager.ShowMessage (failure_text message)])
  ∧ DebugSessionManager.objects r.2
    = <[a := dispose (started s command (initializeArgs_of s) body)]>
        (DebugSessionManager.objects m).
Proof.
  intros r. subst r.
  rewrite (launchOrAttach_eq adapter a m s command Hs Hcommand Hrequest).
  unfold start_outcome. rewrite Hinitialize, Hstart. cbn [fst snd].
  assert (Hlt : (a < length (DebugSessionManager.objects m))%nat) by (by eapply lookup_lt_Some).
  set (st := started s command (initializeArgs_of s) body).
  set (m1 := DebugSessionManager.with_objects (<[a := st]> (DebugSessionManager.objects m)) m).
  assert (Hdestroy : DebugSessionManager.destroy (Some (sessionId s)) m1
                     = DebugSessionManager.doDestroy a m1).
  { unfold DebugSessionManager.destroy.
    rewrite (proj2 (truthy_str_Some (sessionId s)) Hid). cbn [mbind option_bind].
    change (DebugSessionManager.sessions m1) with (DebugSessionManager.sessions m).
    unfold DebugSessionManager.find in Hregistered. by rewrite Hregistered. }
  rewrite Hdestroy. unfold DebugSessionManager.doDestroy.
  assert (Hst : DebugSessionManager.objects m1 !! a = Some st).
  { subst m1. cbn. by apply list_lookup_insert_eq. }
  rewrite Hst. change (sessionId st) with (sessionId s).
  set (m2 := DebugSessionManager.with_objects _ _).
  split_and!.
  - done.
  - apply find_remove.
  - change (DebugSessionManager.sessions (DebugSessionManager.fire ?n (DebugSessionManager.fire ?n' ?x)))
      with (DebugSessionManager.sessions x).
    by rewrite sessions_remove.
  - destruct (notices_remove (sessionId s) m2) as [pre Hpre]. exists pre.
    cbn [DebugSessionManager.notices DebugSessionManager.fire].
    rewrite Hpre. subst m2 m1. cbn. by rewrite <- !app_assoc.
  - cbn [DebugSessionManager.objects DebugSessionManager.fire].
    rewrite objects_remove. subst m2 m1. cbn. by rewrite list_insert_insert_eq.
Qed.

Lemma failed_start_destroys_session_witness :
  DebugSessionManager.find "s1"
    (DebugSessionManager.launchOrAttach
       (λ _ hist, match hist with
                  | [_] => DebugProtocol.Success None
                  | _ => DebugProtocol.Failure None
                  end) 0 SampleManager.one_launched).2 = None.
Proof.
  apply (failed_start_destroys_session _ 0 SampleManager.one_launched
           (new_DebugSession "s1" SampleManager.launch_noDebug) "launch" None None).
  - reflexivity.
  - by right.
  - vm_compute. reflexivity.
  - reflexivity.
  - discriminate.
  - reflexivity.
  - reflexivity.
Defined.

(** X10: when the adapter accepts both requests, [launchOrAttach] resolves
    having sent exactly [initialize] and then [attach] or [launch]; the
    second request carries the session's configuration with the marker
    merged in, which is also what the session's configuration now is; the
    capabilities are the body of the [initialize] response; the thread model
    of the session, the session map, the active pointer and the
    notifications are as before. *)
Theorem successful_start_sends_marked_configuration
    (adapter : Adapter) (a : nat) (m : DebugSessionManager.t) (s : DebugSession)
    (command : string) (body body' : option (gmap string Value))
    (Hs : DebugSessionManager.objects m !! a = Some s)
    (Hcommand : command = "attach" ∨ command = "launch")
    (Hrequest : configuration s !! "request" = Some (VStr command))
    (Hinitialize : adapter (sessionId s)
                     (sent s ++ [request_with "initialize" (initializeArgs_of s)])
                   = DebugProtocol.Success body)
    (Hstart : adapter (sessionId s)
                (sent s ++ [request_with "initialize" (initializeArgs_of s);
                            request_with command
                              (Object_assign (configuration s) (marker_of command))])
              = DebugProtocol.Success body') :
  let r := DebugSessionManager.launchOrAttach adapter a m in
  r.1 = Resolved ()
  ∧ DebugSessionManager.sessions r.2 = DebugSessionManager.sessions m
  ∧ DebugSessionManager.activeDebugSessionId r.2 = DebugSessionManager.activeDebugSessionId m
  ∧ DebugSessionManager.notices r.2 = DebugSessionManager.notices m
  ∧ ∃ s', DebugSessionManager.objects r.2 !! a = Some s'
          ∧ sent s' = sent s ++ [request_with "initialize" (initializeArgs_of s);
                                 request_with command (configuration s')]
          ∧ configuration s' !! "__restart" = Some (VBool false)
          ∧ (command = "launch" → configuration s' !! "noDebug" = Some (VBool false))
          ∧ (∀ k, k ≠ "__restart" → k ≠ "noDebug" →
                  configuration s' !! k = configuration s !! k)
          ∧ capabilities s' = default ∅ body
          ∧ heap s' = heap s ∧ _threads s' = _threads s
          ∧ _currentThread s' = _currentThread s.
Proof.
  intros r. subst r.
  rewrite (launchOrAttach_eq adapter a m s command Hs Hcommand Hrequest).
  unfold start_outcome. rewrite Hinitialize, Hstart. cbn [fst snd].
  split_and!; [done | done | done | done |].
  exists (started s command (initializeArgs_of s) body).
  split_and!; try done.
  - cbn. apply list_lookup_insert_eq. by eapply lookup_lt_Some.
  - unfold started, sent. cbn. rewrite !requests_app. cbn. by rewrite <- app_assoc.
  - unfold started. cbn. rewrite lookup_Object_assign.
    destruct Hcommand as [-> | ->]; done.
  - intros ->. unfold started. cbn. rewrite lookup_Object_assign. done.
  - intros k Hk Hk'. unfold started. cbn. rewrite lookup_Object_assign.
    unfold marker_of. case_decide.
    + by rewrite lookup_insert_ne, lookup_singleton_ne.
    + by rewrite lookup_singleton_ne.
Qed.

Lemma successful_start_sends_marked_configuration_witness :
  (DebugSessionManager.launchOrAttach Sample.accepts_all 0 SampleManager.one_launched).1
  = Resolved ().
Proof.
  apply (successful_start_sends_marked_configuration Sample.accepts_all 0
           SampleManager.one_launched (new_DebugSession "s1" SampleManager.launch_noDebug)
           "launch" None None).
  - reflexivity.
  - by right.
  - vm_compute. reflexivity.
  - reflexivity.
  - reflexivity.
Defined.

(** * Consistency of the manager *)

Lemma manager_ok_ext m m' :
  DebugSessionManager.activeDebugSessionId m' = DebugSessionManager.activeDebugSessionId m →
  DebugSessionManager.sessions m' = DebugSessionManager.sessions m →
  (∀ a, sessionId <$> DebugSessionManager.objects m' !! a
        = sessionId <$> DebugSessionManager.objects m !! a) →
  manager_ok m → manager_ok m'.
Proof.
  intros Hact Hses Hobj [Hptr [Hnd Hreg]]. split; [| split].
  - intros id Hid Hne. unfold DebugSessionManager.find. rewrite Hses.
    apply Hptr; [by rewrite <- Hact | done].
  - by rewrite Hses.
  - intros k a Hk. rewrite Hses in Hk. destruct (Hreg k a Hk) as (s & Hs & Hid).
    specialize (Hobj a). rewrite Hs in Hobj.
    destruct (DebugSessionManager.objects m' !! a) as [s'|]; [| done].
    exists s'. split; [done |]. injection Hobj as Hobj. congruence.
Qed.

Lemma fire_ok n m : manager_ok m → manager_ok (DebugSessionManager.fire n m).
Proof. by apply manager_ok_ext. Qed.

Lemma setActiveDebugSession_ok x m :
  manager_ok m → manager_ok (DebugSessionManager.setActiveDebugSession x m).
Proof.
  intros Hok. pose proof Hok as [Hptr Hreg].
  unfold DebugSessionManager.setActiveDebugSession.
  destruct (truthy_str x && bool_decide (x ≫= (λ i, DebugSessionManager.find i m) = None))
    eqn:Hguard; [done |].
  case_decide as Hne; [| done]. apply fire_ok. split; [| done].
  intros id Hid Hidne. cbn in Hid. subst x.
  rewrite (proj2 (truthy_str_Some id) Hidne) in Hguard. cbn in Hguard.
  apply bool_decide_eq_false in Hguard.
  unfold DebugSessionManager.find in *. cbn.
  destruct (JsMap.get id (DebugSessionManager.sessions m)); [by eexists | done].
Qed.

Lemma registry_wf_delete sessionId m :
  registry_wf m →
  registry_wf (DebugSessionManager.with_sessions
                 (JsMap.delete sessionId (DebugSessionManager.sessions m)) m).
Proof.
  intros [Hnd Hreg]. split; cbn.
  - by apply JsMap_NoDup_delete.
  - intros k a Hk. destruct (decide (sessionId = k)) as [->|Hne].
    + by rewrite JsMap_get_delete_eq in Hk.
    + rewrite JsMap_get_delete_ne in Hk by done. by apply Hreg.
Qed.

Lemma remove_ok sessionId m : manager_ok m → manager_ok (DebugSessionManager.remove sessionId m).
Proof.
  intros [Hptr Hreg].
  pose proof (registry_wf_delete sessionId m Hreg) as Hreg1.
  split.
  - intros id Hid Hidne.
    destruct (decide (DebugSessionManager.activeDebugSessionId m = Some sessionId
                      ∧ sessionId ≠ "")) as [[Hact Hsid]|Hnot].
    + rewrite (active_remove_active sessionId m Hact Hsid) in Hid.
      unfold DebugSessionManager.find. rewrite sessions_remove.
      apply JsMap_get_is_Some.
      destruct (JsMap.keys (JsMap.delete sessionId (DebugSessionManager.sessions m)))
        as [|k ks]; [done |].
      injection Hid as ->. apply list_elem_of_here.
    + assert (Hsame : DebugSessionManager.remove sessionId m
                      = DebugSessionManager.with_sessions
                          (JsMap.delete sessionId (DebugSessionManager.sessions m)) m).
      { unfold DebugSessionManager.remove.
        cbn [DebugSessionManager.activeDebugSessionId DebugSessionManager.with_sessions].
        destruct (DebugSessionManager.activeDebugSessionId m) as [x|] eqn:Hx; [| done].
        destruct (truthy_str (Some x)) eqn:Ht; [| done].
        case_decide as Heq; [| done]. injection Heq as ->.
        exfalso. apply Hnot. split; [done |]. by apply truthy_str_Some. }
      rewrite Hsame in Hid |- *. cbn in Hid.
      destruct (Hptr id Hid Hidne) as [a Ha].
      exists a. unfold DebugSessionManager.find in *. cbn.
      rewrite JsMap_get_delete_ne; [done |]. intros ->.
      apply Hnot. by split.
  - destruct Hreg1 as [Hnd1 Hreg1]. split.
    + by rewrite sessions_remove.
    + intros k a. rewrite sessions_remove, objects_remove. apply Hreg1.
Qed.

Lemma with_objects_insert_ok a s s' m :
  DebugSessionManager.objects m !! a = Some s → sessionId s' = sessionId s →
  manager_ok m →
  manager_ok (DebugSessionManager.with_objects (<[a := s']> (DebugSessionManager.objects m)) m).
Proof.
  intros Hs Hid. apply manager_ok_ext; [done | done |].
  intros b. cbn. destruct (decide (a = b)) as [<-|Hne].
  - rewrite list_lookup_insert_eq by (by eapply lookup_lt_Some). rewrite Hs. cbn. by f_equal.
  - by rewrite list_lookup_insert_ne.
Qed.

Lemma doDestroy_ok a m : manager_ok m → manager_ok (DebugSessionManager.doDestroy a m).
Proof.
  intros Hok. unfold DebugSessionManager.doDestroy.
  destruct (DebugSessionManager.objects m !! a) as [s|] eqn:Hs; [| done].
  apply fire_ok, remove_ok.
  apply (with_objects_insert_ok a s (dispose s)
           (DebugSessionManager.fire (DebugSessionManager.DebugServiceStop (sessionId s)) m));
    [done | done | by apply fire_ok].
Qed.

Lemma destroy_ok x m : manager_ok m → manager_ok (DebugSessionManager.destroy x m).
Proof.
  unfold DebugSessionManager.destroy. destruct (truthy_str x).
  - destruct (x ≫= _); [apply doDestroy_ok | done].
  - generalize (DebugSessionManager.sessions m) as l. intros l. revert m.
    induction l as [|[k b] l IH]; intros m Hok; [done |].
    cbn [foldl]. apply IH. case_decide; [by apply doDestroy_ok | done].
Qed.

Lemma preserves_failed a cause :
  preserves (DebugSessionManager.onSessionInitializationFailed a cause).
Proof.
  intros m Hok. unfold DebugSessionManager.onSessionInitializationFailed.
  destruct (DebugSessionManager.objects m !! a); [| done].
  by apply fire_ok, destroy_ok.
Qed.

Lemma manager_on_session_ok a (f : DebugSession → DebugSession) m :
  (∀ s, sessionId (f s) = sessionId s) →
  manager_ok m → manager_ok (DebugSessionManager.on_session a f m).
Proof.
  intros Hf Hok. unfold DebugSessionManager.on_session.
  destruct (DebugSessionManager.objects m !! a) as [s|] eqn:Hs; [| done].
  by eapply with_objects_insert_ok.
Qed.

Lemma with_suspended_ok l m :
  manager_ok m → manager_ok (DebugSessionManager.with_suspended l m).
Proof. by apply manager_ok_ext. Qed.

Lemma launchOrAttach_started_ok a m :
  manager_ok m → manager_ok (DebugSessionManager.launchOrAttach_started a m).
Proof.
  intros Hok. unfold DebugSessionManager.launchOrAttach_started.
  destruct (DebugSessionManager.objects m !! a); [| done].
  repeat case_decide; try done;
    by apply with_suspended_ok, manager_on_session_ok.
Qed.

Lemma restart_started_ok a m :
  manager_ok m → manager_ok (DebugSessionManager.restart_started a m).
Proof.
  intros Hok. unfold DebugSessionManager.restart_started.
  destruct (DebugSessionManager.objects m !! a); [| done].
  by apply with_suspended_ok, manager_on_session_ok.
Qed.

Lemma resume_ok i response m :
  manager_ok m → manager_ok (DebugSessionManager.resume i response m).
Proof.
  intros Hok. unfold DebugSessionManager.resume.
  destruct (DebugSessionManager.suspended m !! i) as [p|]; [| done].
  pose proof (with_suspended_ok (delete i (DebugSessionManager.suspended m)) m Hok) as Hok1.
  set (m1 := DebugSessionManager.with_suspended _ m) in *.
  destruct p as [a command|a command|a command|a|a|a], response as [body|message];
    try done.
  - destruct (DebugSessionManager.objects m1 !! a); [| done].
    by apply with_suspended_ok, manager_on_session_ok.
  - destruct (DebugSessionManager.objects m1 !! a); [| done].
    apply with_suspended_ok. by repeat apply manager_on_session_ok.
  - destruct (DebugSessionManager.objects m1 !! a); [| done].
    apply with_suspended_ok. by repeat apply manager_on_session_ok.
  - by apply preserves_failed.
  - by apply launchOrAttach_started_ok.
  - destruct (DebugSessionManager.objects m1 !! a); [| done].
    by apply with_suspended_ok, manager_on_session_ok.
  - by apply manager_on_session_ok.
Qed.

Lemma sessionId_updateCurrentThread sd s : sessionId (updateCurrentThread sd s) = sessionId s.
Proof.
  unfold updateCurrentThread, setCurrentThread, doSetCurrentThread.
  by destruct (stopped_or_undefined _ _).
Qed.

Lemma sessionId_updateThreads raws sd s : sessionId (updateThreads raws sd s) = sessionId s.
Proof.
  unfold updateThreads. destruct (foldl _ _ _) as [h t].
  by rewrite sessionId_updateCurrentThread.
Qed.

Lemma sessionId_step s x : sessionId (step s x) = sessionId s.
Proof.
  destruct x as [e| | |i body]; cbn [step].
  - destruct e as [atc threadId|body|reason threadId|caps]; cbn [on];
      repeat case_decide; try done;
      unfold clearThreads, clearThread; by rewrite sessionId_updateCurrentThread.
  - done.
  - unfold resolveThreads_elapsed. by destruct (resolveThreads_timer s).
  - unfold resolveThreads_response. destruct (awaiting s !! i); [| done].
    destruct body; [| done]. by rewrite sessionId_updateThreads.
Qed.

Lemma create_ok sessionId debugConfiguration m :
  manager_ok m →
  manager_ok (DebugSessionManager.create sessionId debugConfiguration m).2.
Proof.
  intros [Hptr [Hnd Hreg]]. unfold DebugSessionManager.create. cbn [snd].
  apply launchOrAttach_started_ok, fire_ok.
  cbn [DebugSessionManager.objects DebugSessionManager.fire].
  split; [| split]; cbn.
  - intros id Hid Hne. unfold DebugSessionManager.find. cbn.
    destruct (decide (sessionId = id)) as [->|Hneq].
    + rewrite JsMap_get_set_eq. by eexists.
    + rewrite JsMap_get_set_ne by done. by apply Hptr.
  - by apply JsMap_NoDup_set.
  - intros k a. destruct (decide (sessionId = k)) as [->|Hneq].
    + rewrite JsMap_get_set_eq. intros [= <-].
      rewrite lookup_app_r, Nat.sub_diag by done. by eexists.
    + rewrite JsMap_get_set_ne by done. intros Hk.
      destruct (Hreg k a Hk) as (s & Hs & Hid). exists s. split; [| done].
      rewrite lookup_app_l; [done | by eapply lookup_lt_Some].
Qed.

Lemma apply_op_ok m o : manager_ok m → manager_ok (apply_op m o).
Proof.
  intros Hok. destruct o as [sid cfg|x|sid|x|a|a r|a|i response|a x]; cbn [apply_op].
  - by apply create_ok.
  - by apply setActiveDebugSession_ok.
  - by apply remove_ok.
  - by apply destroy_ok.
  - by apply with_suspended_ok, fire_ok.
  - unfold DebugSessionManager.on_terminated. destruct (truthy r).
    + by apply restart_started_ok.
    + by apply manager_on_session_ok.
  - unfold DebugSessionManager.on_exited.
    destruct (DebugSessionManager.objects m !! a); [by apply destroy_ok | done].
  - by apply resume_ok.
  - apply manager_on_session_ok; [| done]. intros s. apply sessionId_step.
Qed.

Lemma apply_ops_ok ops m : manager_ok m → manager_ok (foldl apply_op m ops).
Proof.
  revert m. induction ops as [|o ops IH]; intros m Hok; cbn [foldl]; [done |].
  by apply IH, apply_op_ok.
Qed.

Lemma new_manager_ok : manager_ok DebugSessionManager.new.
Proof. split; [done |]. split; [apply NoDup_nil_2 | done]. Qed.

(** X11: whatever happens to a manager that starts empty, in any order
    (sessions created, made active, removed or destroyed; the adapter events
    [initialized], [terminated] and [exited] handled; any call that was
    started and not awaited continuing at any later turn, with any response;
    the sessions handling their own events), its session map has no id
    twice, every id of the map leads to a session object with that id, and
    the active pointer, when it holds a non-empty id, names a session of the
    map: [currentSession] then returns that session. *)
Theorem manager_stays_consistent :
  ∀ (ops : list Op),
    let m := foldl apply_op DebugSessionManager.new ops in
    NoDup (JsMap.keys (DebugSessionManager.sessions m))
    ∧ (∀ k a, JsMap.get k (DebugSessionManager.sessions m) = Some a →
              ∃ s, DebugSessionManager.objects m !! a = Some s ∧ sessionId s = k)
    ∧ (∀ id, DebugSessionManager.activeDebugSessionId m = Some id → id ≠ "" →
             ∃ a s, DebugSessionManager.currentSession m = Some a
                    ∧ DebugSessionManager.objects m !! a = Some s ∧ sessionId s = id).
Proof.
  intros ops m.
  destruct (apply_ops_ok ops _ new_manager_ok) as [Hptr [Hnd Hreg]].
  fold m in Hptr, Hnd, Hreg. split_and!; [done | done |].
  intros id Hid Hne. destruct (Hptr id Hid Hne) as [a Ha].
  destruct (Hreg id a Ha) as (s & Hs & Hsid). exists a, s.
  split_and!; [| done | done].
  unfold DebugSessionManager.currentSession.
  rewrite Hid, (proj2 (truthy_str_Some id) Hne). exact Ha.
Qed.

(** * Destroying every session *)

Lemma notices_doDestroy a m s :
  DebugSessionManager.objects m !! a = Some s →
  ∃ pre, DebugSessionManager.notices (DebugSessionManager.doDestroy a m)
         = DebugSessionManager.notices m
           ++ DebugSessionManager.DebugServiceStop (sessionId s) :: pre
           ++ [DebugSessionManager.DidDestroyDebugSession a].
Proof.
  intros Hs. unfold DebugSessionManager.doDestroy. rewrite Hs.
  set (m2 := DebugSessionManager.with_objects _ _).
  destruct (notices_remove (sessionId s) m2) as [pre Hpre]. exists pre.
  cbn [DebugSessionManager.notices DebugSessionManager.fire].
  rewrite Hpre. subst m2. cbn. by rewrite <- !app_assoc.
Qed.

Lemma sessions_doDestroy a m s :
  DebugSessionManager.objects m !! a = Some s →
  DebugSessionManager.sessions (DebugSessionManager.doDestroy a m)
  = JsMap.delete (sessionId s) (DebugSessionManager.sessions m).
Proof.
  intros Hs. unfold DebugSessionManager.doDestroy. rewrite Hs.
  change (DebugSessionManager.sessions (DebugSessionManager.fire ?n ?x))
    with (DebugSessionManager.sessions x).
  by rewrite sessions_remove.
Qed.

Lemma destroy_all_loop (l : list (string * nat)) (m : DebugSessionManager.t) :
  manager_ok m → DebugSessionManager.sessions m = l →
  let m' := foldl (λ m '(k, a), if decide ((k, a) ∈ DebugSessionManager.sessions m)
                                then DebugSessionManager.doDestroy a m else m) m l in
  DebugSessionManager.sessions m' = []
  ∧ (∀ n, n ∈ DebugSessionManager.notices m → n ∈ DebugSessionManager.notices m')
  ∧ (∀ k, k ∈ JsMap.keys l →
          DebugSessionManager.DebugServiceStop k ∈ DebugSessionManager.notices m').
Proof.
  revert m. induction l as [|[k a] l IH]; intros m Hok Hl; cbn [foldl].
  - split_and!; [done | done |]. by intros k ?%elem_of_nil.
  - rewrite decide_True by (rewrite Hl; apply list_elem_of_here).
    pose proof Hok as [_ [Hnd Hreg]].
    destruct (Hreg k a) as (s & Hs & Hid).
    { rewrite Hl. cbn. by rewrite decide_True. }
    assert (Hk : k ∉ JsMap.keys l).
    { rewrite Hl in Hnd. by apply NoDup_cons in Hnd as [? _]. }
    assert (Hses : DebugSessionManager.sessions (DebugSessionManager.doDestroy a m) = l).
    { rewrite (sessions_doDestroy a m s Hs), Hid, Hl. cbn.
      rewrite decide_True by done. by apply JsMap_delete_notin. }
    destruct (notices_doDestroy a m s Hs) as [pre Hpre].
    destruct (IH (DebugSessionManager.doDestroy a m) (doDestroy_ok a m Hok) Hses)
      as (Hempty & Hmono & Hstop).
    split_and!; [done | |].
    + intros n Hn. apply Hmono. rewrite Hpre. apply elem_of_app. by left.
    + intros k' [->|Hk']%elem_of_cons; [| by apply Hstop].
      apply Hmono. rewrite Hpre, Hid. apply elem_of_app. right. apply list_elem_of_here.
Qed.

(** X12: in a consistent manager, [destroy] called without an id, or with
    the empty string, which is falsy, destroys every session: afterwards the
    map is empty, there is no current session, the active pointer holds no
    non-empty id, and the debug service has been told to stop each session
    that was in the map.  Called with a non-empty id that is not in the map
    it changes nothing. *)
Theorem destroy_without_id_destroys_all
    (m : DebugSessionManager.t) (Hok : manager_ok m) :
  (∀ x, x = None ∨ x = Some "" →
        let m' := DebugSessionManager.destroy x m in
        DebugSessionManager.sessions m' = []
        ∧ DebugSessionManager.currentSession m' = None
        ∧ (DebugSessionManager.activeDebugSessionId m' = None
           ∨ DebugSessionManager.activeDebugSessionId m' = Some "")
        ∧ (∀ k, is_Some (DebugSessionManager.find k m) →
                DebugSessionManager.DebugServiceStop k ∈ DebugSessionManager.notices m'))
  ∧ (∀ id, id ≠ "" → DebugSessionManager.find id m = None →
           DebugSessionManager.destroy (Some id) m = m).
Proof.
  split.
  - intros x Hx m'.
    assert (Hall : m' = foldl (λ m '(k, a),
                                 if decide ((k, a) ∈ DebugSessionManager.sessions m)
                                 then DebugSessionManager.doDestroy a m else m)
                           m (DebugSessionManager.sessions m)).
    { subst m'. by destruct Hx as [-> | ->]. }
    destruct (destroy_all_loop (DebugSessionManager.sessions m) m Hok eq_refl)
      as (Hempty & _ & Hstop).
    rewrite <- Hall in Hempty, Hstop.
    assert (Hok' : manager_ok m') by (subst m'; by apply destroy_ok).
    split_and!.
    + done.
    + unfold DebugSessionManager.currentSession. rewrite Hempty.
      destruct (truthy_str _); [| done].
      by destruct (DebugSessionManager.activeDebugSessionId m').
    + destruct (DebugSessionManager.activeDebugSessionId m') as [id|] eqn:Hact; [| by left].
      right. destruct (decide (id = "")) as [->|Hne]; [done |].
      destruct Hok' as [Hptr _]. destruct (Hptr id Hact Hne) as [a Ha].
      unfold DebugSessionManager.find in Ha. by rewrite Hempty in Ha.
    + intros k Hk. apply Hstop. by apply JsMap_get_is_Some.
  - intros id Hid Hfind. unfold DebugSessionManager.destroy.
    rewrite (proj2 (truthy_str_Some id) Hid). cbn [mbind option_bind].
    unfold DebugSessionManager.find in Hfind. by rewrite Hfind.
Qed.

Lemma destroy_without_id_destroys_all_witness :
  DebugSessionManager.sessions
    (DebugSessionManager.destroy None
       (foldl apply_op DebugSessionManager.new
          [OpCreate "a" SampleManager.launch_noDebug;
           OpCreate "b" SampleManager.bogus;
           OpSetActive (Some "b")])) = [].
Proof.
  refine (proj1 (proj1 (destroy_without_id_destroys_all _ _) None _)).
  - apply apply_ops_ok, new_manager_ok.
  - by left.
Defined.

(** * Changing the active session *)

(** X13: [setActiveDebugSession] ignores a non-empty id that is not in the
    map; otherwise the pointer becomes the given id, and a change
    notification is fired, once, exactly when that differs from the pointer
    before.  Calling it again with the same id changes nothing more. *)
Theorem setActiveDebugSession_fires_on_change_only :
  ∀ (x : option string) (m : DebugSessionManager.t),
    let m' := DebugSessionManager.setActiveDebugSession x m in
    DebugSessionManager.setActiveDebugSession x m' = m'
    ∧ DebugSessionManager.sessions m' = DebugSessionManager.sessions m
    ∧ DebugSessionManager.objects m' = DebugSessionManager.objects m
    ∧ (if decide (truthy_str x = true ∧ x ≫= (λ i, DebugSessionManager.find i m) = None)
       then m' = m
       else DebugSessionManager.activeDebugSessionId m' = x
            ∧ if decide (DebugSessionManager.activeDebugSessionId m = x)
              then m' = m
              else ∃ old, DebugSessionManager.notices m'
                          = DebugSessionManager.notices m
                            ++ [DebugSessionManager.DidChangeActiveDebugSession old
                                  (DebugSessionManager.currentSession m')]).
Proof.
  intros x m m'. subst m'.
  assert (Hform :
    DebugSessionManager.setActiveDebugSession x m
    = if decide (truthy_str x = true ∧ x ≫= (λ i, DebugSessionManager.find i m) = None)
      then m
      else if decide (DebugSessionManager.activeDebugSessionId m = x)
           then m
           else DebugSessionManager.fire
                  (DebugSessionManager.DidChangeActiveDebugSession
                     (if truthy_str (DebugSessionManager.activeDebugSessionId m)
                      then DebugSessionManager.activeDebugSessionId m
                           ≫= (λ i, DebugSessionManager.find i m)
                      else None)
                     (DebugSessionManager.currentSession (DebugSessionManager.with_active x m)))
                  (DebugSessionManager.with_active x m)).
  { unfold DebugSessionManager.setActiveDebugSession.
    destruct (truthy_str x) eqn:Ht; cbn [andb].
    - destruct (decide (x ≫= (λ i, DebugSessionManager.find i m) = None)) as [Hnone|Hsome].
      + rewrite bool_decide_eq_true_2 by done. by rewrite decide_True.
      + rewrite bool_decide_eq_false_2 by done.
        rewrite (decide_False (P := true = true ∧ _)) by (by intros [_ ?]).
        destruct (decide (DebugSessionManager.activeDebugSessionId m = x)) as [Heq|Hne].
        * rewrite decide_False; [done | by intros ?].
        * by rewrite decide_True.
    - rewrite (decide_False (P := false = true ∧ _)) by (by intros [? _]).
      destruct (decide (DebugSessionManager.activeDebugSessionId m = x)) as [Heq|Hne].
      + rewrite decide_False; [done | by intros ?].
      + by rewrite decide_True. }
  assert (F1 : truthy_str x = true ∧ x ≫= (λ i, DebugSessionManager.find i m) = None →
               DebugSessionManager.setActiveDebugSession x m = m).
  { intros Hg. by rewrite Hform, decide_True. }
  assert (F2 : ¬ (truthy_str x = true ∧ x ≫= (λ i, DebugSessionManager.find i m) = None) →
               DebugSessionManager.activeDebugSessionId m = x →
               DebugSessionManager.setActiveDebugSession x m = m).
  { intros Hg Heq. rewrite Hform, decide_False by done. by rewrite decide_True. }
  assert (F3 : ¬ (truthy_str x = true ∧ x ≫= (λ i, DebugSessionManager.find i m) = None) →
               DebugSessionManager.activeDebugSessionId m ≠ x →
               ∃ n, DebugSessionManager.setActiveDebugSession x m
                    = DebugSessionManager.fire n (DebugSessionManager.with_active x m)
                    ∧ n = DebugSessionManager.DidChangeActiveDebugSession
                            (if truthy_str (DebugSessionManager.activeDebugSessionId m)
                             then DebugSessionManager.activeDebugSessionId m
                                  ≫= (λ i, DebugSessionManager.find i m)
                             else None)
                            (DebugSessionManager.currentSession
                               (DebugSessionManager.with_active x m))).
  { intros Hg Hne. eexists. split; [| done]. rewrite Hform, decide_False by done.
    by rewrite decide_False. }
  clear Hform.
  destruct (decide (truthy_str x = true
                    ∧ x ≫= (λ i, DebugSessionManager.find i m) = None)) as [Hg|Hg].
  { rewrite (F1 Hg). split_and!; [by apply F1 | done | done | done]. }
  destruct (decide (DebugSessionManager.activeDebugSessionId m = x)) as [Heq|Hne].
  { rewrite (F2 Hg Heq). split_and!; [by apply F2 | done | done | done | done]. }
  destruct (F3 Hg Hne) as (n & Hfire & Hn). rewrite Hfire.
  split_and!; [| done | done | done |].
  - unfold DebugSessionManager.setActiveDebugSession.
    change (DebugSessionManager.find ?i (DebugSessionManager.fire n ?y))
      with (DebugSessionManager.find i m).
    change (DebugSessionManager.activeDebugSessionId (DebugSessionManager.fire n ?y)) with x.
    destruct (truthy_str x && _) eqn:Hb; [done |].
    rewrite decide_False; [done | by intros ?].
  - eexists. cbn. rewrite Hn. reflexivity.
Qed.

(** * Termination and exit *)

(** X14: a [terminated] event whose [restart] is absent or falsy makes the
    manager send one [disconnect] request with empty arguments on that
    session and nothing more: the session stays in the map and is not
    disposed.  It is the [exited] event that destroys a session: for a
    session registered under its non-empty id, the session is then disposed
    and taken out of the map. *)
Theorem terminated_disconnects_exited_destroys
    (a : nat) (m : DebugSessionManager.t) (s : DebugSession)
    (Hs : DebugSessionManager.objects m !! a = Some s) :
  (∀ restart, truthy restart = false →
     DebugSessionManager.on_terminated a restart m
     = DebugSessionManager.with_objects
         (<[a := run "disconnect" ∅ s]> (DebugSessionManager.objects m)) m)
  ∧ (sessionId s ≠ "" → DebugSessionManager.find (sessionId s) m = Some a →
     let m' := DebugSessionManager.on_exited a m in
     DebugSessionManager.find (sessionId s) m' = None
     ∧ DebugSessionManager.objects m' = <[a := dispose s]> (DebugSessionManager.objects m)
     ∧ DebugSessionManager.DebugServiceStop (sessionId s) ∈ DebugSessionManager.notices m'
     ∧ last (DebugSessionManager.notices m')
       = Some (DebugSessionManager.DidDestroyDebugSession a)).
Proof.
  split.
  - intros restart Hfalsy. unfold DebugSessionManager.on_terminated. rewrite Hfalsy.
    unfold DebugSessionManager.on_session. by rewrite Hs.
  - intros Hid Hfind m'. subst m'. unfold DebugSessionManager.on_exited. rewrite Hs.
    unfold DebugSessionManager.destroy.
    rewrite (proj2 (truthy_str_Some (sessionId s)) Hid). cbn [mbind option_bind].
    unfold DebugSessionManager.find in Hfind. rewrite Hfind.
    destruct (notices_doDestroy a m s Hs) as [pre Hpre].
    split_and!.
    + unfold DebugSessionManager.doDestroy. rewrite Hs. apply find_remove.
    + unfold DebugSessionManager.doDestroy. rewrite Hs.
      cbn [DebugSessionManager.objects DebugSessionManager.fire].
      by rewrite objects_remove.
    + rewrite Hpre. apply elem_of_app. right. apply list_elem_of_here.
    + rewrite Hpre. rewrite app_comm_cons, app_assoc. apply last_snoc.
Qed.

Lemma terminated_disconnects_exited_destroys_witness :
  DebugSessionManager.on_terminated 0 None SampleManager.one_launched
  = DebugSessionManager.with_objects
      [run "disconnect" ∅ (new_DebugSession "s1" SampleManager.launch_noDebug)]
      SampleManager.one_launched.
Proof.
  refine (proj1 (terminated_disconnects_exited_destroys 0
                   SampleManager.one_launched _ _) None _); reflexivity.
Defined.

(** * Stack frame arguments *)

(** X15: the arguments a stack frame builds always carry the frame's own id
    as [frameId], whatever [frameId] the caller passed, and pass every other
    field of the caller's argument through unchanged; without an argument
    they hold [frameId] alone, which is what [resolveScopes] sends. *)
Theorem toArgs_sets_frameId :
  ∀ (arg : option (gmap string Value)) (f : DebugStackFrame.t) (k : string),
    DebugStackFrame.toArgs arg f !! k
    = (if decide (k = "frameId")
       then Some (VNum (DebugStackFrame.id (DebugStackFrame.raw f)))
       else default ∅ arg !! k)
    ∧ DebugProtocol.arguments (DebugStackFrame.scopes_request f)
      = {[ "frameId" := VNum (DebugStackFrame.id (DebugStackFrame.raw f)) ]}.
Proof.
  intros arg f k. split.
  - unfold DebugStackFrame.toArgs. rewrite !lookup_Object_assign.
    case_decide as Hk.
    + subst k. by rewrite lookup_singleton_eq.
    + rewrite lookup_singleton_ne by done. rewrite lookup_empty.
      by destruct (default ∅ arg !! k).
  - apply map_eq. intros i. cbn. unfold DebugStackFrame.toArgs.
    rewrite !lookup_Object_assign. cbn.
    destruct ({[ "frameId" := VNum _ ]} !! i) eqn:Hi; [done |].
    by rewrite !lookup_empty.
Qed.

(** * Sorting plugins in the plugin host *)

Lemma init_step_fold dirname loads raw st :
  let st' := foldl (PluginHostRPC.init_step dirname loads) st raw in
  PluginHostRPC.result st'
  = PluginHostRPC.result st
    ++ (PluginHostRPC.backend_plugin <$> filter PluginHostRPC.is_backend raw)
  ∧ PluginHostRPC.foreign st'
    = PluginHostRPC.foreign st
      ++ (PluginHostRPC.frontend_plugin <$> filter (λ p, ¬ PluginHostRPC.is_backend p) raw)
  ∧ PluginHostRPC.effects st'
    = PluginHostRPC.effects st
      ++ concat ((λ p, PluginHostRPC.initialize loads (PluginHostRPC.initPath dirname p)
                         (PluginHostRPC.backend_plugin p))
                 <$> filter PluginHostRPC.is_backend raw).
Proof.
  revert st. induction raw as [|plg raw IH]; intros st; cbn [foldl].
  - cbn. by rewrite !app_nil_r.
  - destruct (IH (PluginHostRPC.init_step dirname loads st plg)) as (Hr & Hf & He).
    cbn zeta in *. rewrite Hr, Hf, He. unfold PluginHostRPC.init_step.
    destruct (truthy_str (PluginHostRPC.backend
                            (PluginHostRPC.entryPoint (PluginHostRPC.model plg)))) eqn:Hb.
    + rewrite !(filter_cons_True PluginHostRPC.is_backend) by done.
      rewrite (filter_cons_False (λ p, ¬ PluginHostRPC.is_backend p))
        by (intros Hn; by apply Hn).
      cbn [PluginHostRPC.result PluginHostRPC.foreign PluginHostRPC.effects
           fmap list_fmap concat].
      by rewrite <- !app_assoc.
    + assert (Hnb : ¬ PluginHostRPC.is_backend plg).
      { unfold PluginHostRPC.is_backend. by rewrite Hb. }
      rewrite !(filter_cons_False PluginHostRPC.is_backend) by done.
      rewrite (filter_cons_True (λ p, ¬ PluginHostRPC.is_backend p)) by done.
      cbn [PluginHostRPC.result PluginHostRPC.foreign PluginHostRPC.effects
           fmap list_fmap].
      by rewrite <- !app_assoc.
Qed.

Lemma elem_of_concat {A} (x : A) (l : list A) (ls : list (list A)) :
  x ∈ l → l ∈ ls → x ∈ concat ls.
Proof.
  intros Hx. induction ls as [|l' ls IH]; [by intros ?%elem_of_nil |].
  intros [->|Hl]%elem_of_cons; cbn; apply elem_of_app; [by left | right; by apply IH].
Qed.

(** X16: [init] sorts the plugins without losing or doubling any: the first
    list holds, in order, the plugins with a non-empty backend entry point,
    the second the others, so a plugin with both entry points is a backend
    plugin only and a plugin with neither is foreign with no plugin path;
    the lengths add up to the number of plugins.  Each backend plugin is
    initialized once, in order, through its own init path or, when that is
    absent or empty, through the Theia one; a failing initialization is
    logged and the remaining plugins are still handled. *)
Theorem init_partitions_plugins :
  ∀ (dirname : string) (loads : string → bool) (raw : list PluginHostRPC.PluginMetadata),
    let st := PluginHostRPC.init dirname loads raw in
    PluginHostRPC.result st
    = PluginHostRPC.backend_plugin <$> filter PluginHostRPC.is_backend raw
    ∧ PluginHostRPC.foreign st
      = PluginHostRPC.frontend_plugin <$> filter (λ p, ¬ PluginHostRPC.is_backend p) raw
    ∧ (length (PluginHostRPC.result st) + length (PluginHostRPC.foreign st) = length raw)%nat
    ∧ PluginHostRPC.effects st
      = concat ((λ p, PluginHostRPC.initialize loads (PluginHostRPC.initPath dirname p)
                        (PluginHostRPC.backend_plugin p))
                <$> filter PluginHostRPC.is_backend raw)
    ∧ (∀ p, p ∈ raw → PluginHostRPC.is_backend p →
            PluginHostRPC.Initializing (PluginHostRPC.initPath dirname p)
            ∈ PluginHostRPC.effects st).
Proof.
  intros dirname loads raw st. subst st. unfold PluginHostRPC.init.
  destruct (init_step_fold dirname loads raw
              {| PluginHostRPC.result := []; PluginHostRPC.foreign := [];
                 PluginHostRPC.effects := [] |}) as (Hr & Hf & He).
  cbn zeta in *. cbn in Hr, Hf, He. rewrite Hr, Hf, He.
  split_and!; [done | done | | done |].
  - rewrite !length_fmap, <- length_app.
    apply Permutation_length, filter_app_complement.
  - intros p Hp Hb. eapply elem_of_concat; [apply list_elem_of_here |].
    apply list_elem_of_fmap. exists p. split; [done |]. by apply list_elem_of_filter.
Qed.


(** * Calls in flight and the other sessions *)

Lemma destroy_registered id a m :
  id ≠ "" → DebugSessionManager.find id m = Some a →
  DebugSessionManager.destroy (Some id) m = DebugSessionManager.doDestroy a m.
Proof.
  intros Hid Hfind. unfold DebugSessionManager.destroy.
  rewrite (proj2 (truthy_str_Some id) Hid). cbn [mbind option_bind].
  unfold DebugSessionManager.find in Hfind. by rewrite Hfind.
Qed.

Lemma objects_doDestroy a m s :
  DebugSessionManager.objects m !! a = Some s →
  DebugSessionManager.objects (DebugSessionManager.doDestroy a m)
  = <[a := dispose s]> (DebugSessionManager.objects m).
Proof.
  intros Hs. unfold DebugSessionManager.doDestroy. rewrite Hs.
  cbn [DebugSessionManager.objects DebugSessionManager.fire].
  by rewrite objects_remove.
Qed.

(** What a turn may change when it belongs to the session at [a]: the
    object at [a] and nothing else of the objects and the map. *)
Lemma on_session_frame a f m :
  DebugSessionManager.sessions (DebugSessionManager.on_session a f m)
  = DebugSessionManager.sessions m
  ∧ ∀ b, b ≠ a →
         DebugSessionManager.objects (DebugSessionManager.on_session a f m) !! b
         = DebugSessionManager.objects m !! b.
Proof.
  unfold DebugSessionManager.on_session.
  destruct (DebugSessionManager.objects m !! a); [| done].
  split; [done |]. intros b Hb. cbn. by rewrite list_lookup_insert_ne.
Qed.

Lemma launchOrAttach_started_frame a m :
  DebugSessionManager.sessions (DebugSessionManager.launchOrAttach_started a m)
  = DebugSessionManager.sessions m
  ∧ ∀ b, b ≠ a →
         DebugSessionManager.objects (DebugSessionManager.launchOrAttach_started a m) !! b
         = DebugSessionManager.objects m !! b.
Proof.
  unfold DebugSessionManager.launchOrAttach_started.
  destruct (DebugSessionManager.objects m !! a); [| done].
  repeat case_decide; try done; apply on_session_frame.
Qed.

(** X17: a call in flight belongs to one session, and when it continues,
    with whatever response, it leaves alone every session object that has
    another id than its session, and every entry of the map under another
    id.  Within one id there is no such guarantee: when the [attach] or
    [launch] request is refused, the session destroyed is whichever session
    the map holds under that id at that moment.  When another session has
    been created under the same id meanwhile, that one is disposed and taken
    out of the map, and the session whose start failed is left as it is.
    This is for a consistent manager and a session whose id is not empty. *)
Theorem suspended_call_touches_only_its_own_id
    (i : nat) (response : DebugProtocol.Response) (m : DebugSessionManager.t)
    (p : DebugSessionManager.Suspended) (s : DebugSession)
    (Hok : manager_ok m)
    (Hp : DebugSessionManager.suspended m !! i = Some p)
    (Hs : DebugSessionManager.objects m !! session_of p = Some s)
    (Hid : sessionId s ≠ "") :
  let m' := DebugSessionManager.resume i response m in
  (∀ b sb, DebugSessionManager.objects m !! b = Some sb → sessionId sb ≠ sessionId s →
           DebugSessionManager.objects m' !! b = Some sb)
  ∧ (∀ k, k ≠ sessionId s → DebugSessionManager.find k m' = DebugSessionManager.find k m)
  ∧ (∀ command message b sb,
       p = DebugSessionManager.InStart (session_of p) command →
       response = DebugProtocol.Failure message →
       DebugSessionManager.find (sessionId s) m = Some b →
       DebugSessionManager.objects m !! b = Some sb →
       DebugSessionManager.find (sessionId s) m' = None
       ∧ DebugSessionManager.objects m' !! b = Some (dispose sb)
       ∧ (b ≠ session_of p → DebugSessionManager.objects m' !! session_of p = Some s)).
Proof.
  intros m'. subst m'. unfold DebugSessionManager.resume. rewrite Hp.
  set (m1 := DebugSessionManager.with_suspended _ m).
  destruct Hok as [_ [Hnd Hreg]].
  assert (Hother : ∀ b sb, DebugSessionManager.objects m !! b = Some sb →
                           sessionId sb ≠ sessionId s → b ≠ session_of p).
  { intros b sb Hb Hne ->. congruence. }
  assert (Hframe : ∀ m2,
            DebugSessionManager.sessions m2 = DebugSessionManager.sessions m
            ∧ (∀ b, b ≠ session_of p →
                    DebugSessionManager.objects m2 !! b
                    = DebugSessionManager.objects m !! b) →
            (∀ b sb, DebugSessionManager.objects m !! b = Some sb →
                     sessionId sb ≠ sessionId s →
                     DebugSessionManager.objects m2 !! b = Some sb)
            ∧ (∀ k, k ≠ sessionId s →
                    DebugSessionManager.find k m2 = DebugSessionManager.find k m)).
  { intros m2 [Hses Hobj]. split.
    - intros b sb Hb Hne. rewrite Hobj; [done | by eapply Hother].
    - intros k _. unfold DebugSessionManager.find. by rewrite Hses. }
  assert (Hsame : ∀ m2 m3,
            DebugSessionManager.sessions m3 = DebugSessionManager.sessions m2
            ∧ (∀ b, b ≠ session_of p →
                    DebugSessionManager.objects m3 !! b
                    = DebugSessionManager.objects m2 !! b) →
            DebugSessionManager.sessions m2 = DebugSessionManager.sessions m
            ∧ (∀ b, b ≠ session_of p →
                    DebugSessionManager.objects m2 !! b
                    = DebugSessionManager.objects m !! b) →
            DebugSessionManager.sessions m3 = DebugSessionManager.sessions m
            ∧ (∀ b, b ≠ session_of p →
                    DebugSessionManager.objects m3 !! b
                    = DebugSessionManager.objects m !! b)).
  { intros m2 m3 [H1 H2] [H3 H4]. split; [congruence |].
    intros b Hb. by rewrite H2, H4. }
  assert (Hm1 : DebugSessionManager.sessions m1 = DebugSessionManager.sessions m
                ∧ (∀ b, b ≠ session_of p →
                        DebugSessionManager.objects m1 !! b
                        = DebugSessionManager.objects m !! b)) by done.
  assert (Hturn : ∀ q x,
            DebugSessionManager.sessions x = DebugSessionManager.sessions m
            ∧ (∀ b, b ≠ session_of p →
                    DebugSessionManager.objects x !! b = DebugSessionManager.objects m !! b) →
            (∀ b sb, DebugSessionManager.objects m !! b = Some sb →
                     sessionId sb ≠ sessionId s →
                     DebugSessionManager.objects (DebugSessionManager.suspend q x) !! b
                     = Some sb)
            ∧ (∀ k, k ≠ sessionId s →
                    DebugSessionManager.find k (DebugSessionManager.suspend q x)
                    = DebugSessionManager.find k m)).
  { intros q x Hx. by apply (Hframe (DebugSessionManager.suspend q x)). }
  destruct p as [a command|a command|a command|a|a|a], response as [body|message];
    cbn [session_of] in *;
    try (destruct (Hframe m1 Hm1) as [F1 F2]; split_and!; [exact F1 | exact F2 | done]).
  - (* initialize accepted *)
    change (DebugSessionManager.objects m1 !! a) with (DebugSessionManager.objects m !! a).
    rewrite Hs.
    match goal with |- context [DebugSessionManager.suspend ?q ?x] =>
      destruct (Hturn q x) as [F1 F2]
    end.
    { repeat (eapply Hsame; [apply on_session_frame |]). exact Hm1. }
    split_and!; [exact F1 | exact F2 | done].
  - (* initialize has returned *)
    change (DebugSessionManager.objects m1 !! a) with (DebugSessionManager.objects m !! a).
    rewrite Hs.
    match goal with |- context [DebugSessionManager.suspend ?q ?x] =>
      destruct (Hturn q x) as [F1 F2]
    end.
    { repeat (eapply Hsame; [apply on_session_frame |]). exact Hm1. }
    split_and!; [exact F1 | exact F2 | done].
  - change (DebugSessionManager.objects m1 !! a) with (DebugSessionManager.objects m !! a).
    rewrite Hs.
    match goal with |- context [DebugSessionManager.suspend ?q ?x] =>
      destruct (Hturn q x) as [F1 F2]
    end.
    { repeat (eapply Hsame; [apply on_session_frame |]). exact Hm1. }
    split_and!; [exact F1 | exact F2 | done].
  - (* the start request refused *)
    rewrite (onSessionInitializationFailed_eq a message m1 s Hs).
    destruct (DebugSessionManager.find (sessionId s) m) as [b|] eqn:Hfind.
    + destruct (Hreg (sessionId s) b Hfind) as (sb & Hsb & Hsid).
      rewrite (destroy_registered (sessionId s) b m1 Hid Hfind).
      assert (Hobj : DebugSessionManager.objects
                       (DebugSessionManager.fire
                          (DebugSessionManager.ShowMessage (failure_text message))
                          (DebugSessionManager.doDestroy b m1))
                     = <[b := dispose sb]> (DebugSessionManager.objects m)).
      { cbn [DebugSessionManager.objects DebugSessionManager.fire].
        by rewrite (objects_doDestroy b m1 sb Hsb). }
      assert (Hses : DebugSessionManager.sessions
                       (DebugSessionManager.fire
                          (DebugSessionManager.ShowMessage (failure_text message))
                          (DebugSessionManager.doDestroy b m1))
                     = JsMap.delete (sessionId s) (DebugSessionManager.sessions m)).
      { cbn [DebugSessionManager.sessions DebugSessionManager.fire].
        by rewrite (sessions_doDestroy b m1 sb Hsb), Hsid. }
      split_and!.
      * intros b' sb' Hb' Hne. rewrite Hobj, list_lookup_insert_ne; [done |].
        intros <-. congruence.
      * intros k Hk. unfold DebugSessionManager.find. rewrite Hses.
        by rewrite JsMap_get_delete_ne.
      * intros command' message' b' sb' _ _ [= <-] Hsb'.
        replace sb' with sb by congruence. split_and!.
        -- unfold DebugSessionManager.find. rewrite Hses. apply JsMap_get_delete_eq.
        -- rewrite Hobj. apply list_lookup_insert_eq. by eapply lookup_lt_Some.
        -- intros Hne. by rewrite Hobj, list_lookup_insert_ne.
    + assert (Hnone : DebugSessionManager.destroy (Some (sessionId s)) m1 = m1).
      { unfold DebugSessionManager.destroy.
        rewrite (proj2 (truthy_str_Some (sessionId s)) Hid). cbn [mbind option_bind].
        unfold DebugSessionManager.find in Hfind.
        change (DebugSessionManager.sessions m1) with (DebugSessionManager.sessions m).
        by rewrite Hfind. }
      rewrite Hnone.
      destruct (Hframe (DebugSessionManager.fire
                          (DebugSessionManager.ShowMessage (failure_text message)) m1) Hm1)
        as [F1 F2].
      split_and!; [exact F1 | exact F2 | done].
  - (* the restart's disconnect accepted *)
    destruct (Hframe (DebugSessionManager.launchOrAttach_started a m1)
                (Hsame _ _ (launchOrAttach_started_frame a m1) Hm1)) as [F1 F2].
    split_and!; [exact F1 | exact F2 | done].
  - (* breakpoints applied *)
    change (DebugSessionManager.objects m1 !! a) with (DebugSessionManager.objects m !! a).
    rewrite Hs.
    match goal with |- context [DebugSessionManager.suspend ?q ?x] =>
      destruct (Hframe x (Hsame _ _ (on_session_frame a _ m1) Hm1)) as [F1 F2]
    end.
    split_and!; [exact F1 | exact F2 | done].
  - (* configurationDone accepted *)
    match goal with |- context [DebugSessionManager.on_session a ?f m1] =>
      destruct (Hframe _ (Hsame _ _ (on_session_frame a f m1) Hm1)) as [F1 F2]
    end.
    split_and!; [exact F1 | exact F2 | done].
Qed.

Lemma suspended_call_touches_only_its_own_id_witness :
  DebugSessionManager.find "a"
    (DebugSessionManager.resume 1 (DebugProtocol.Failure None)
       (foldl apply_op DebugSessionManager.new
          [OpCreate "a" SampleManager.launch_noDebug;
           OpCreate "a" SampleManager.launch_noDebug;
           OpResume 0 (DebugProtocol.Success None);
           OpResume 1 (DebugProtocol.Success None)])) = None.
Proof.
  pose (m := foldl apply_op DebugSessionManager.new
               [OpCreate "a" SampleManager.launch_noDebug;
                OpCreate "a" SampleManager.launch_noDebug;
                OpResume 0 (DebugProtocol.Success None);
                OpResume 1 (DebugProtocol.Success None)]).
  assert (Hs : ∃ s, DebugSessionManager.objects m !! 0%nat = Some s ∧ sessionId s = "a").
  { vm_compute. eexists. split; reflexivity. }
  destruct Hs as (s & Hs & Hid).
  assert (Hsb : ∃ sb, DebugSessionManager.objects m !! 1%nat = Some sb).
  { vm_compute. eexists. reflexivity. }
  destruct Hsb as (sb & Hsb).
  assert (Hne : sessionId s ≠ "") by (rewrite Hid; discriminate).
  pose proof (suspended_call_touches_only_its_own_id 1 (DebugProtocol.Failure None) m
                (DebugSessionManager.InStart 0 "launch") s
                (apply_ops_ok _ _ new_manager_ok) eq_refl Hs Hne) as (_ & _ & H).
  destruct (H "launch" None 1%nat sb eq_refl eq_refl) as (Hfind & _).
  - rewrite Hid. reflexivity.
  - exact Hsb.
  - rewrite Hid in Hfind. exact Hfind.
Defined.

(** * Awaited calls and calls in flight *)

Lemma answered_nothing adapter m :
  answered adapter (length (DebugSessionManager.suspended m)) m = m.
Proof.
  unfold answered. by rewrite (lookup_ge_None_2 (DebugSessionManager.suspended m)).
Qed.

Lemma answered_last adapter m l p s :
  DebugSessionManager.suspended m = l ++ [p] →
  DebugSessionManager.objects m !! session_of p = Some s →
  answered adapter (length l) m
  = DebugSessionManager.resume (length l) (adapter (sessionId s) (sent s)) m.
Proof.
  intros Hl Hs. unfold answered.
  rewrite Hl, lookup_app_r, Nat.sub_diag by done. cbn [lookup list_lookup]. by rewrite Hs.
Qed.

Lemma resume_last response m l p :
  DebugSessionManager.suspended m = l ++ [p] →
  DebugSessionManager.resume (length l) response m
  = let m := DebugSessionManager.with_suspended l m in
    match p, response with
    | DebugSessionManager.InInitialize a command, DebugProtocol.Success body =>
        match DebugSessionManager.objects m !! a with
        | Some _ =>
            DebugSessionManager.suspend (DebugSessionManager.Initialized a command)
              (DebugSessionManager.on_session a (with_capabilities (default ∅ body)) m)
        | None => m
        end
    | DebugSessionManager.Initialized a command, _ =>
        match DebugSessionManager.objects m !! a with
        | Some _ =>
            let m := DebugSessionManager.on_session a
                       (λ s, with_configuration
                               (Object_assign (configuration s) (marker_of command)) s) m in
            let m := DebugSessionManager.on_session a
                       (λ s, run command (configuration s) s) m in
            DebugSessionManager.suspend (DebugSessionManager.InStart a command) m
        | None => m
        end
    | DebugSessionManager.InStart a _, DebugProtocol.Failure message =>
        (DebugSessionManager.onSessionInitializationFailed a (FailedResponse message) m).2
    | DebugSessionManager.InRestart a, DebugProtocol.Success _ =>
        DebugSessionManager.launchOrAttach_started a m
    | DebugSessionManager.InApplySessionBreakpoints a, DebugProtocol.Success _ =>
        match DebugSessionManager.objects m !! a with
        | Some _ =>
            DebugSessionManager.suspend (DebugSessionManager.InConfigurationDone a)
              (DebugSessionManager.on_session a (run "configurationDone" ∅) m)
        | None => m
        end
    | DebugSessionManager.InConfigurationDone a, DebugProtocol.Success _ =>
        DebugSessionManager.on_session a
          (λ s, resolveThreads None (emit ConfigurationDone s)) m
    | _, _ => m
    end.
Proof.
  intros Hl. unfold DebugSessionManager.resume.
  rewrite Hl, lookup_app_r, Nat.sub_diag by done. cbn [lookup list_lookup].
  rewrite delete_last_index. by destruct p, response.
Qed.

Lemma on_session_insert a (g : DebugSession → DebugSession) x m :
  (a < length (DebugSessionManager.objects m))%nat →
  DebugSessionManager.on_session a g
    (DebugSessionManager.with_objects (<[a := x]> (DebugSessionManager.objects m)) m)
  = DebugSessionManager.with_objects (<[a := g x]> (DebugSessionManager.objects m)) m.
Proof.
  intros Hlt. unfold DebugSessionManager.on_session.
  cbn [DebugSessionManager.objects DebugSessionManager.with_objects].
  rewrite list_lookup_insert_eq by done. unfold DebugSessionManager.with_objects.
  cbn [DebugSessionManager.objects DebugSessionManager.activeDebugSessionId
       DebugSessionManager.sessions DebugSessionManager.notices
       DebugSessionManager.suspended].
  by rewrite list_insert_insert_eq.
Qed.

Lemma with_suspended_same m :
  DebugSessionManager.with_suspended (DebugSessionManager.suspended m) m = m.
Proof. by destruct m. Qed.

(** An awaited [launchOrAttach], run while nothing else happens, ends in the
    state that the same call reaches when it is started without being
    awaited and the adapter's answers arrive one after the other with
    nothing in between. *)
Lemma launchOrAttach_answered adapter a m :
  let i := length (DebugSessionManager.suspended m) in
  (DebugSessionManager.launchOrAttach adapter a m).2
  = answered adapter i
      (answered adapter i
         (answered adapter i (DebugSessionManager.launchOrAttach_started a m))).
Proof.
  intros i. subst i.
  destruct (DebugSessionManager.objects m !! a) as [s|] eqn:Hs; cycle 1.
  { unfold DebugSessionManager.launchOrAttach, DebugSessionManager.launchOrAttach_started.
    rewrite Hs. cbn. by rewrite !answered_nothing. }
  destruct (decide (configuration s !! "request" = Some (VStr "attach")
                    ∨ configuration s !! "request" = Some (VStr "launch")))
    as [Hkind|Hkind]; cycle 1.
  { rewrite (launchOrAttach_unsupported adapter a m s Hs)
      by (intros ?; apply Hkind; first [by left | by right]).
    unfold DebugSessionManager.launchOrAttach_started. rewrite Hs.
    rewrite !decide_False by (intros ?; apply Hkind; first [by left | by right]).
    cbn. by rewrite !answered_nothing. }
  assert (∃ command, (command = "attach" ∨ command = "launch")
                     ∧ configuration s !! "request" = Some (VStr command))
    as (command & Hcommand & Hrequest).
  { destruct Hkind; [exists "attach" | exists "launch"];
      split; first [done | by left | by right]. }
  rewrite (launchOrAttach_eq adapter a m s command Hs Hcommand Hrequest).
  assert (Hlt : (a < length (DebugSessionManager.objects m))%nat)
    by (by eapply lookup_lt_Some).
  set (args := initializeArgs_of s).
  set (m1 := DebugSessionManager.with_objects
               (<[a := run "initialize" args s]> (DebugSessionManager.objects m)) m).
  assert (Hstarted : DebugSessionManager.launchOrAttach_started a m
                     = DebugSessionManager.suspend
                         (DebugSessionManager.InInitialize a command) m1).
  { unfold DebugSessionManager.launchOrAttach_started, DebugSessionManager.on_session.
    rewrite Hs, Hrequest. destruct Hcommand as [-> | ->].
    - by rewrite decide_True.
    - rewrite decide_False by done. by rewrite decide_True. }
  rewrite Hstarted. clear Hstarted.
  assert (Hs1 : DebugSessionManager.objects m1 !! a = Some (run "initialize" args s)).
  { subst m1. cbn. by apply list_lookup_insert_eq. }
  rewrite (answered_last adapter
             (DebugSessionManager.suspend (DebugSessionManager.InInitialize a command) m1)
             (DebugSessionManager.suspended m)
             (DebugSessionManager.InInitialize a command) _ eq_refl Hs1).
  rewrite (resume_last _
             (DebugSessionManager.suspend (DebugSessionManager.InInitialize a command) m1)
             (DebugSessionManager.suspended m)
             (DebugSessionManager.InInitialize a command) eq_refl).
  cbn zeta. rewrite sent_run.
  change (sessionId (run "initialize" args s)) with (sessionId s).
  change (DebugSessionManager.with_suspended (DebugSessionManager.suspended m)
            (DebugSessionManager.suspend (DebugSessionManager.InInitialize a command) m1))
    with (DebugSessionManager.with_suspended (DebugSessionManager.suspended m1) m1).
  rewrite with_suspended_same.
  unfold start_outcome. fold m1.
  change (request_with "initialize" args)
    with {| DebugProtocol.command := "initialize"; DebugProtocol.arguments := args |}.
  destruct (adapter (sessionId s) _) as [body|message]; cbn [snd]; cycle 1.
  { change (length (DebugSessionManager.suspended m))
      with (length (DebugSessionManager.suspended m1)).
    by rewrite !answered_nothing. }
  rewrite Hs1.
  set (s1' := with_capabilities (default ∅ body) (run "initialize" args s)).
  set (m1' := DebugSessionManager.with_objects
                (<[a := s1']> (DebugSessionManager.objects m)) m).
  assert (Hm1' : DebugSessionManager.on_session a (with_capabilities (default ∅ body)) m1
                 = m1').
  { subst m1. by rewrite on_session_insert. }
  rewrite Hm1'.
  assert (Hs1' : DebugSessionManager.objects m1' !! a = Some s1').
  { subst m1'. cbn. by apply list_lookup_insert_eq. }
  rewrite (answered_last adapter
             (DebugSessionManager.suspend (DebugSessionManager.Initialized a command) m1')
             (DebugSessionManager.suspended m)
             (DebugSessionManager.Initialized a command) _ eq_refl Hs1').
  rewrite (resume_last _
             (DebugSessionManager.suspend (DebugSessionManager.Initialized a command) m1')
             (DebugSessionManager.suspended m)
             (DebugSessionManager.Initialized a command) eq_refl).
  cbn zeta.
  change (DebugSessionManager.with_suspended (DebugSessionManager.suspended m)
            (DebugSessionManager.suspend (DebugSessionManager.Initialized a command) m1'))
    with (DebugSessionManager.with_suspended (DebugSessionManager.suspended m1') m1').
  rewrite with_suspended_same, Hs1'.
  set (s2 := started s command args body).
  set (m2 := DebugSessionManager.with_objects
               (<[a := s2]> (DebugSessionManager.objects m)) m).
  assert (Hm2 : DebugSessionManager.on_session a (λ s, run command (configuration s) s)
                  (DebugSessionManager.on_session a
                     (λ s, with_configuration
                             (Object_assign (configuration s) (marker_of command)) s)
                     m1')
                = m2).
  { subst m1'. by rewrite !on_session_insert. }
  rewrite Hm2.
  assert (Hs2 : DebugSessionManager.objects m2 !! a = Some s2).
  { subst m2. cbn. by apply list_lookup_insert_eq. }
  rewrite (answered_last adapter
             (DebugSessionManager.suspend (DebugSessionManager.InStart a command) m2)
             (DebugSessionManager.suspended m)
             (DebugSessionManager.InStart a command) _ eq_refl Hs2).
  rewrite (resume_last _
             (DebugSessionManager.suspend (DebugSessionManager.InStart a command) m2)
             (DebugSessionManager.suspended m)
             (DebugSessionManager.InStart a command) eq_refl).
  cbn zeta.
  change (DebugSessionManager.with_suspended (DebugSessionManager.suspended m)
            (DebugSessionManager.suspend (DebugSessionManager.InStart a command) m2))
    with (DebugSessionManager.with_suspended (DebugSessionManager.suspended m2) m2).
  rewrite with_suspended_same.
  assert (Hsent2 : sent s2 = sent s ++ [request_with "initialize" args;
                                         request_with command
                                           (Object_assign (configuration s) (marker_of command))]).
  { subst s2. unfold started. rewrite sent_run.
    change (sent (with_configuration ?c (with_capabilities ?d ?x))) with (sent x).
    by rewrite sent_run, <- app_assoc. }
  rewrite Hsent2. change (sessionId s2) with (sessionId s).
  destruct (adapter (sessionId s) _) as [body'|message]; cbn [snd]; [done |].
  by rewrite (onSessionInitializationFailed_eq a message m2 s2 Hs2).
Qed.

(** The same for [restart]. *)
Lemma restart_answered adapter a restart m :
  let i := length (DebugSessionManager.suspended m) in
  (DebugSessionManager.restart adapter a restart m).2
  = answered adapter i
      (answered adapter i
         (answered adapter i
            (answered adapter i (DebugSessionManager.restart_started a m)))).
Proof.
  intros i. subst i.
  destruct (DebugSessionManager.objects m !! a) as [s|] eqn:Hs; cycle 1.
  { unfold DebugSessionManager.restart, DebugSessionManager.bind, DebugSessionManager.call,
      DebugSessionManager.restart_started.
    rewrite Hs. cbn. by rewrite !answered_nothing. }
  rewrite (restart_eq adapter a restart m s Hs). cbn zeta.
  assert (Hlt : (a < length (DebugSessionManager.objects m))%nat)
    by (by eapply lookup_lt_Some).
  set (s1 := run "disconnect" {[ "restart" := VBool true ]} s).
  set (m1 := DebugSessionManager.with_objects (<[a := s1]> (DebugSessionManager.objects m)) m).
  assert (Hstarted : DebugSessionManager.restart_started a m
                     = DebugSessionManager.suspend (DebugSessionManager.InRestart a) m1).
  { unfold DebugSessionManager.restart_started, DebugSessionManager.on_session.
    by rewrite Hs. }
  rewrite Hstarted. clear Hstarted.
  assert (Hs1 : DebugSessionManager.objects m1 !! a = Some s1).
  { subst m1. cbn. by apply list_lookup_insert_eq. }
  rewrite (answered_last adapter
             (DebugSessionManager.suspend (DebugSessionManager.InRestart a) m1)
             (DebugSessionManager.suspended m)
             (DebugSessionManager.InRestart a) _ eq_refl Hs1).
  rewrite (resume_last _
             (DebugSessionManager.suspend (DebugSessionManager.InRestart a) m1)
             (DebugSessionManager.suspended m)
             (DebugSessionManager.InRestart a) eq_refl).
  cbn zeta.
  change (DebugSessionManager.with_suspended (DebugSessionManager.suspended m)
            (DebugSessionManager.suspend (DebugSessionManager.InRestart a) m1))
    with (DebugSessionManager.with_suspended (DebugSessionManager.suspended m1) m1).
  rewrite with_suspended_same.
  subst s1. rewrite sent_run.
  change (sessionId (run "disconnect" {[ "restart" := VBool true ]} s)) with (sessionId s).
  change {| DebugProtocol.command := "disconnect";
            DebugProtocol.arguments := {[ "restart" := VBool true ]} |}
    with disconnect_restart_request.
  destruct (adapter (sessionId s) _) as [body|message]; cbn [snd].
  - apply (launchOrAttach_answered adapter a m1).
  - change (length (DebugSessionManager.suspended m))
      with (length (DebugSessionManager.suspended m1)).
    by rewrite !answered_nothing.
Qed.

(** X18: whether [launchOrAttach] and [restart] are awaited or started and
    left alone makes no difference to what they do.  An awaited call, run
    while nothing else happens, ends in the state the same call reaches when
    it is started without being awaited and the adapter's answers arrive one
    after the other with nothing in between; so a [terminated] event that
    asks for a restart, followed by the adapter's answers, leaves the manager
    as an awaited [restart] does. *)
Theorem awaited_call_is_started_call_answered :
  ∀ (adapter : Adapter) (a : nat) (restart : Value) (m : DebugSessionManager.t),
    let i := length (DebugSessionManager.suspended m) in
    (DebugSessionManager.launchOrAttach adapter a m).2
    = answered adapter i
        (answered adapter i
           (answered adapter i (DebugSessionManager.launchOrAttach_started a m)))
    ∧ (DebugSessionManager.restart adapter a restart m).2
      = answered adapter i
          (answered adapter i
             (answered adapter i
                (answered adapter i (DebugSessionManager.restart_started a m))))
    ∧ (∀ restart_, truthy restart_ = true →
         answered adapter i
           (answered adapter i
              (answered adapter i
                 (answered adapter i (DebugSessionManager.on_terminated a restart_ m))))
         = (DebugSessionManager.restart adapter a restart m).2).
Proof.
  intros adapter a restart m i. split_and!.
  - apply launchOrAttach_answered.
  - apply restart_answered.
  - intros restart_ Htruthy. unfold DebugSessionManager.on_terminated. rewrite Htruthy.
    symmetry. apply restart_answered.
Qed.
